(** * Stock Analysis App: the front-end script [static/script.js]

    A shallow embedding of the page script and the properties of its
    handlers.  The script is event-driven DOM code: every handler reads a
    few form controls, mutates a few elements and, for the two analysis
    entry points, issues one HTTP request with [fetch].

    Conventions of the embedding.
    - Strings are byte strings (the UTF-8 text of the JS string).  [trim]
      and [toUpperCase] act on the ASCII range, which is where ticker
      symbols and file extensions live: they are those of JS on ASCII
      text ([JsString.is_ascii]), and what the statements say of the
      ticker a handler derives is said for such text.
    - [ToString] gives a text for every value; it is that of JS on the
      values that convert ([converts]), and what the statements say of a
      rendered field is said for such values.
    - JS numbers are IEEE-754 binary64 values, [spec_float].
    - The document is a record of the properties the script touches, each
      a finite map from element ids ([textContent], [className], [value])
      or a finite set of ids ([checked], [disabled], and [hidden] for the
      class the script toggles through helpers taking an id).  The page is
      taken to contain every id the script looks up.
    - Handlers are computations in a state-and-exception monad over the
      page: a [throw] keeps the DOM writes made before it, as in JS.
    - An [async] handler is run in isolation: the outcome of its [fetch] is
      supplied by the environment and the awaits are sequenced.  A
      handler is thus described from the settlement of its request on; a
      request that stays pending is described by the handler's part
      before the [await], where a statement needs it. *)

From Stdlib Require Import ZArith NArith List String Ascii Bool Lia.
From Stdlib Require Import DecimalString SpecFloat.
From stdpp Require Import base gmap strings.
Import ListNotations.

Local Open Scope string_scope.

(** ** Strings *)

Module JsString.

(** White space removed by [String.prototype.trim], ASCII range:
    TAB, LF, VT, FF, CR and SPACE.  (The Unicode spaces, which [trim]
    removes as well, are not modelled: see [is_ascii] below.) *)
Definition is_white_space (c : ascii) : bool :=
  let n := N_of_ascii c in
  ((9 <=? n) && (n <=? 13) || (n =? 32))%N.

Fixpoint trimStart (s : string) : string :=
  match s with
  | String c s' => if is_white_space c then trimStart s' else s
  | EmptyString => EmptyString
  end.

Fixpoint trimEnd (s : string) : string :=
  match s with
  | String c s' =>
      match trimEnd s' with
      | EmptyString => if is_white_space c then EmptyString
                       else String c EmptyString
      | t => String c t
      end
  | EmptyString => EmptyString
  end.

Definition trim (s : string) : string := trimEnd (trimStart s).

Definition is_lower (c : ascii) : bool :=
  let n := N_of_ascii c in ((97 <=? n) && (n <=? 122))%N.

Definition is_upper (c : ascii) : bool :=
  let n := N_of_ascii c in ((65 <=? n) && (n <=? 90))%N.

Definition is_digit (c : ascii) : bool :=
  let n := N_of_ascii c in ((48 <=? n) && (n <=? 57))%N.

Definition is_alphanumeric (c : ascii) : bool :=
  is_upper c || is_lower c || is_digit c.

Definition upper_char (c : ascii) : ascii :=
  if is_lower c then ascii_of_N (N_of_ascii c - 32) else c.

Definition lower_char (c : ascii) : ascii :=
  if is_upper c then ascii_of_N (N_of_ascii c + 32) else c.

Fixpoint map_chars (f : ascii -> ascii) (s : string) : string :=
  match s with
  | String c s' => String (f c) (map_chars f s')
  | EmptyString => EmptyString
  end.

Definition toUpperCase : string -> string := map_chars upper_char.
Definition toLowerCase : string -> string := map_chars lower_char.

Fixpoint forall_chars (p : ascii -> bool) (s : string) : bool :=
  match s with
  | String c s' => p c && forall_chars p s'
  | EmptyString => true
  end.

(** [s.endsWith(suffix)]: the last [length suffix] units of [s] are
    [suffix]. *)
Definition endsWith (s suffix : string) : bool :=
  let n := String.length s in
  let m := String.length suffix in
  (m <=? n)%nat && String.eqb (substring (n - m) m s) suffix.

(** [s.includes(t)]: [t] occurs in [s] at some position. *)
Fixpoint includes (s t : string) : bool :=
  String.prefix t s ||
  match s with
  | String _ s' => includes s' t
  | EmptyString => false
  end.

(** The ASCII range.  On a string of ASCII characters [trim],
    [toUpperCase] and [toLowerCase] above are those of JS.  Outside of it
    they are not: JS also removes the Unicode spaces (U+00A0, U+FEFF, the
    Zs class, U+2028 and U+2029) and maps the cased letters of other
    alphabets, so the statements about what these functions give are for
    ASCII input. *)
Definition is_ascii_char (c : ascii) : bool := (N_of_ascii c <? 128)%N.

Definition is_ascii (s : string) : bool := forall_chars is_ascii_char s.

(** The double quote, which markup strings of the script contain. *)
Definition dquote : string := String (ascii_of_N 34) EmptyString.

End JsString.

(** ** Numbers *)

Module JsNumber.

Definition number : Type := spec_float.

Definition zero : number := S754_zero false.

(** [ToBoolean] on a number: [+0], [-0] and [NaN] are falsy. *)
Definition truthy (x : number) : bool :=
  match x with
  | S754_zero _ | S754_nan => false
  | _ => true
  end.

(** [x >= 0], that is [0 <= x]; false when [x] is [NaN]. *)
Definition ge_zero (x : number) : bool := SFleb zero x.

Definition digits (n : N) : string := NilZero.string_of_uint (N.to_uint n).

(** The integer [n] with [n / 100] closest to [m * 2^e]; of two such
    integers the larger (step 10.a of [Number.prototype.toFixed]). *)
Definition hundredths (m : positive) (e : Z) : N :=
  match e with
  | Zneg p =>
      let d := (2 ^ Npos p)%N in
      let x := (100 * Npos m)%N in
      let q := (x / d)%N in
      if (d <=? 2 * (x mod d))%N then (q + 1)%N else q
  | _ => (100 * Npos m * 2 ^ Z.to_N e)%N
  end.

(** The digits of [n] with a point before the last two, padded with
    zeros to at least three digits (step 10.c). *)
Definition point2 (n : N) : string :=
  let m := digits n in
  let k := String.length m in
  let m := if (k <=? 2)%nat then
             (if (k <=? 1)%nat then "00" else "0") ++ m
           else m in
  let k := String.length m in
  substring 0 (k - 2) m ++ "." ++ substring (k - 2) 2 m.

(** [m * 2^e >= 10^21], the bound from which [toFixed] gives up. *)
Definition ge_1e21 (m : positive) (e : Z) : bool :=
  match e with
  | Zneg p => (10 ^ 21 * 2 ^ Npos p <=? Npos m)%N
  | _ => (10 ^ 21 <=? Npos m * 2 ^ Z.to_N e)%N
  end.

Section ToString.
(** [Number::toString] of the engine (shortest round-trip decimal),
    which [toFixed] falls back to from 10^21 on. *)
Variable NumberToString : number -> string.

(** [x.toFixed(2)]. *)
Definition toFixed2 (x : number) : string :=
  match x with
  | S754_nan => "NaN"
  | S754_infinity s => if s then "-Infinity" else "Infinity"
  | S754_zero _ => point2 0
  | S754_finite s m e =>
      (if s then "-" else "") ++
      (if ge_1e21 m e then NumberToString (S754_finite false m e)
       else point2 (hundredths m e))
  end.
End ToString.

End JsNumber.

(** ** Values *)

(** The values [response.json()] produces, and [undefined], which reading
    an absent property gives. *)
#[warnings="-register-all"] Inductive jsval : Type :=
| VUndefined
| VNull
| VBool (b : bool)
| VNum (x : JsNumber.number)
| VStr (s : string)
| VArr (items : list jsval)
| VObj (props : list (string * jsval)).

(** What a [throw] carries: an [Error] or [TypeError] object, of which the
    script reads only [message]. *)
Record error : Type := Error { message : string }.

Inductive completion (A : Type) : Type :=
| Normal (a : A)
| Throw (e : error).
Arguments Normal {A} a.
Arguments Throw {A} e.

Module File.
(** A [File] of an [<input type=file>]: the script reads [name] and
    [size] (in bytes). *)
Record t : Type := make { name : string; size : N }.
End File.

Section Script.

(** Two things the JS engine decides and the script does not:
    [Number::toString], and the wording of the [TypeError] raised when
    the named property is read from, or called on, a value that does not
    have it. *)
Variable NumberToString : JsNumber.number -> string.
Variable TypeErrorMessage : string -> string.

Definition TypeError (what : string) : error :=
  Error (TypeErrorMessage what).

Definition ToBoolean (v : jsval) : bool :=
  match v with
  | VUndefined | VNull => false
  | VBool b => b
  | VNum x => JsNumber.truthy x
  | VStr s => negb (String.eqb s "")
  | VArr _ | VObj _ => true
  end.

(** [ToString], as a template literal and [new Error(v)] apply it.  An
    array is joined with commas, [null] and [undefined] items giving the
    empty string.  An object is taken to have the [toString] of
    [Object.prototype]; one with a property [toString] of its own is not
    modelled: see [converts] below. *)
Fixpoint ToString (v : jsval) : string :=
  match v with
  | VUndefined => "undefined"
  | VNull => "null"
  | VBool b => if b then "true" else "false"
  | VNum x => NumberToString x
  | VStr s => s
  | VArr items =>
      (fix join (l : list jsval) : string :=
         match l with
         | [] => ""
         | x :: l' =>
             match x with VUndefined | VNull => "" | _ => ToString x end
             ++ match l' with [] => "" | _ => "," ++ join l' end
         end) items
  | VObj _ => "[object Object]"
  end.

(** [a || b]. *)
Definition or_else (a b : jsval) : jsval := if ToBoolean a then a else b.

Definition number_of_nat (n : nat) : JsNumber.number :=
  match N.of_nat n with
  | N0 => JsNumber.zero
  | Npos p => S754_finite false p 0
  end.

Fixpoint assoc (k : string) (props : list (string * jsval)) : jsval :=
  match props with
  | (k', v) :: rest => if String.eqb k k' then v else assoc k rest
  | [] => VUndefined
  end.

(** [v.k] for the property names the script reads: a [TypeError] on
    [null] and [undefined], the own property of an object, the [length] of
    an array or a string, and [undefined] otherwise.  Of the names the
    script reads, [length] and [link] are on a built-in prototype; [link]
    is a method of strings, which is not modelled: the script reads it
    from news items, which the statements take to be objects or
    [null]. *)
Definition Get (v : jsval) (k : string) : completion jsval :=
  match v with
  | VUndefined | VNull => Throw (TypeError k)
  | VObj props => Normal (assoc k props)
  | VArr items =>
      Normal (if String.eqb k "length"
              then VNum (number_of_nat (List.length items)) else VUndefined)
  | VStr s =>
      Normal (if String.eqb k "length"
              then VNum (number_of_nat (String.length s)) else VUndefined)
  | VBool _ | VNum _ => Normal VUndefined
  end.

(** [v === 0]. *)
Definition strict_eq_zero (v : jsval) : bool :=
  match v with
  | VNum (S754_zero _) => true
  | _ => false
  end.

(** [v.toFixed(2)]: only numbers have the method. *)
Definition toFixed (v : jsval) : completion jsval :=
  match v with
  | VNum x => Normal (VStr (JsNumber.toFixed2 NumberToString x))
  | _ => Throw (TypeError "toFixed")
  end.

(** [v?.toFixed(2)]. *)
Definition optional_toFixed (v : jsval) : completion jsval :=
  match v with
  | VUndefined | VNull => Normal VUndefined
  | _ => toFixed v
  end.

(** The string a [textContent] setter stores: the attribute is a
    nullable string, so [null] and [undefined] clear the text. *)
Definition text_of (v : jsval) : string :=
  match v with
  | VUndefined | VNull => ""
  | _ => ToString v
  end.

(** The values on which [ToString] above is the [ToString] of JS.  A
    value read from JSON is converted by [Object.prototype.toString] or by
    [Array.prototype.join], unless an object has a property [toString] of
    its own: that property is no function, the object then has no
    primitive value, and JS throws a [TypeError] where [ToString] above
    gives a string.  The statements that a conversion gives a text are
    for values that convert. *)
Fixpoint converts (v : jsval) : bool :=
  match v with
  | VArr items => forallb converts items
  | VObj props =>
      negb (existsb (fun kv => String.eqb (fst kv) "toString") props)
  | _ => true
  end.

(** ** The page *)

(** What [newsList] holds: markup assigned to [innerHTML], or the subtree
    [displayNews] builds for one item,
    [div.news-item > a[href, target=_blank, rel]] holding [div.news-title]
    and [div.news-meta],
    with the title text and the two strings spliced into the meta markup. *)
Inductive node : Type :=
| Markup (html : string)
| NewsItem (href title source published : string).

(** The callbacks the script hands to [setTimeout]. *)
Inductive callback : Type :=
| HideElement (id : string).

Inductive form_value : Type :=
| FormFile (f : File.t)
| FormText (s : string).

(** A request body: [JSON.stringify] of a value (kept unserialised), or a
    [FormData] with its entries in append order. *)
Inductive body : Type :=
| JsonBody (v : jsval)
| FormBody (entries : list (string * form_value)).

Record request : Type := Request {
  url : string;
  method : string;
  headers : list (string * string);
  payload : body
}.

(** A [Response]: [ok], and what awaiting [json()] completes with. *)
Record response : Type := Response {
  ok : bool;
  json : completion jsval
}.

Record page : Type := Page {
  textContent : gmap string string;  (* element id -> text *)
  className : gmap string string;    (* element id -> class attribute *)
  value : gmap string string;        (* control id -> current value *)
  checked : gset string;             (* ids of ticked checkboxes *)
  disabled : gset string;            (* ids of disabled buttons *)
  hidden : gset string;              (* ids whose classList has 'hidden' *)
  newsList : list node;              (* children of #newsList *)
  selectedFile : option File.t;      (* the script's global *)
  clock : N;                         (* milliseconds *)
  timers : list (N * callback);      (* pending timeouts, with due time *)
  requests : list request;           (* calls of fetch, oldest first *)
  console : list (string * error)    (* console.error *)
}.

Definition with_textContent (f : gmap string string -> gmap string string)
    (p : page) : page :=
  Page (f (textContent p)) (className p) (value p) (checked p) (disabled p)
       (hidden p) (newsList p) (selectedFile p) (clock p) (timers p)
       (requests p) (console p).

Definition with_className (f : gmap string string -> gmap string string)
    (p : page) : page :=
  Page (textContent p) (f (className p)) (value p) (checked p) (disabled p)
       (hidden p) (newsList p) (selectedFile p) (clock p) (timers p)
       (requests p) (console p).

Definition with_disabled (f : gset string -> gset string) (p : page) : page :=
  Page (textContent p) (className p) (value p) (checked p) (f (disabled p))
       (hidden p) (newsList p) (selectedFile p) (clock p) (timers p)
       (requests p) (console p).

Definition with_hidden (f : gset string -> gset string) (p : page) : page :=
  Page (textContent p) (className p) (value p) (checked p) (disabled p)
       (f (hidden p)) (newsList p) (selectedFile p) (clock p) (timers p)
       (requests p) (console p).

Definition with_newsList (f : list node -> list node) (p : page) : page :=
  Page (textContent p) (className p) (value p) (checked p) (disabled p)
       (hidden p) (f (newsList p)) (selectedFile p) (clock p) (timers p)
       (requests p) (console p).

Definition with_selectedFile (f : option File.t) (p : page) : page :=
  Page (textContent p) (className p) (value p) (checked p) (disabled p)
       (hidden p) (newsList p) f (clock p) (timers p)
       (requests p) (console p).

Definition with_clock (t : N) (p : page) : page :=
  Page (textContent p) (className p) (value p) (checked p) (disabled p)
       (hidden p) (newsList p) (selectedFile p) t (timers p)
       (requests p) (console p).

Definition with_timers (f : list (N * callback) -> list (N * callback))
    (p : page) : page :=
  Page (textContent p) (className p) (value p) (checked p) (disabled p)
       (hidden p) (newsList p) (selectedFile p) (clock p) (f (timers p))
       (requests p) (console p).

Definition with_requests (f : list request -> list request)
    (p : page) : page :=
  Page (textContent p) (className p) (value p) (checked p) (disabled p)
       (hidden p) (newsList p) (selectedFile p) (clock p) (timers p)
       (f (requests p)) (console p).

Definition with_console (f : list (string * error) -> list (string * error))
    (p : page) : page :=
  Page (textContent p) (className p) (value p) (checked p) (disabled p)
       (hidden p) (newsList p) (selectedFile p) (clock p) (timers p)
       (requests p) (f (console p)).

(** ** Handlers as computations *)

(** A computation runs on a page and completes normally or by a throw; in
    both cases the page is the one it left. *)
Definition js (A : Type) : Type := page -> completion A * page.

Definition ret {A} (a : A) : js A := fun p => (Normal a, p).

Definition throw {A} (e : error) : js A := fun p => (Throw e, p).

Definition bind {A B} (c : js A) (k : A -> js B) : js B :=
  fun p =>
    match c p with
    | (Normal a, p') => k a p'
    | (Throw e, p') => (Throw e, p')
    end.

Declare Scope js_scope.
Delimit Scope js_scope with js.
Bind Scope js_scope with js.
Notation "x <- c ;; k" := (bind c (fun x => k))
  (at level 20, c at level 99, k at level 200) : js_scope.
Notation "c ;; k" := (bind c (fun _ => k))
  (at level 100, k at level 200, right associativity) : js_scope.
Local Open Scope js_scope.

(** A completion of a pure operation, taken into the computation. *)
Definition lift {A} (r : completion A) : js A := fun p => (r, p).

Definition gets {A} (f : page -> A) : js A := fun p => (Normal (f p), p).

Definition modify (f : page -> page) : js unit := fun p => (Normal tt, f p).

(** [try { body } catch (error) { handler error } finally { final }].  The
    statement completes as [final] does when that throws, and otherwise as
    [body], or as [handler] when [body] threw. *)
Definition try_catch_finally (body : js unit) (handler : error -> js unit)
    (final : js unit) : js unit :=
  fun p =>
    let '(r, p1) :=
      match body p with
      | (Throw e, p') => handler e p'
      | completed => completed
      end in
    match final p1 with
    | (Normal _, p2) => (r, p2)
    | (Throw e, p2) => (Throw e, p2)
    end.

(** [list.forEach(f)]. *)
Fixpoint forEach {A} (l : list A) (f : A -> js unit) : js unit :=
  match l with
  | [] => ret tt
  | x :: l' => f x ;; forEach l' f
  end.

(** ** DOM and environment primitives *)

(** [document.getElementById(id).textContent = s] *)
Definition set_textContent (id s : string) : js unit :=
  modify (with_textContent <[id := s]>).

Definition get_textContent (id : string) : js string :=
  gets (fun p => default "" (textContent p !! id)).

(** [document.getElementById(id).className = s] *)
Definition set_className (id s : string) : js unit :=
  modify (with_className <[id := s]>).

(** [document.getElementById(id).value] *)
Definition get_value (id : string) : js string :=
  gets (fun p => default "" (value p !! id)).

(** [document.getElementById(id).checked] *)
Definition get_checked (id : string) : js bool :=
  gets (fun p => bool_decide (id ∈ checked p)).

(** [document.getElementById(id).disabled = b] *)
Definition set_disabled (id : string) (b : bool) : js unit :=
  modify (with_disabled (fun d => if b then {[id]} ∪ d else d ∖ {[id]})).

(** [setTimeout(cb, ms)]: [cb] becomes due [ms] after the current time. *)
Definition setTimeout (cb : callback) (ms : N) : js unit :=
  modify (fun p =>
            with_timers (fun q => (q ++ [((clock p + ms)%N, cb)])%list) p).

(** The network: what awaiting [fetch] of a request completes with, a
    response or a rejection, once the request has settled. *)
Variable network : request -> completion response.

(** [await fetch(url, init)] *)
Definition fetch (r : request) : js response :=
  modify (with_requests (fun l => (l ++ [r])%list)) ;; lift (network r).

(** [console.error(label, error)] *)
Definition console_error (label : string) (e : error) : js unit :=
  modify (with_console (fun l => (l ++ [(label, e)])%list)).

(** [error.message || fallback] *)
Definition message_or (e : error) (fallback : string) : string :=
  if String.eqb (message e) "" then fallback else message e.

(** ** script.js: utility functions *)

Definition showElement (id : string) : js unit :=
  modify (with_hidden (fun h => h ∖ {[id]})).

Definition hideElement (id : string) : js unit :=
  modify (with_hidden (fun h => {[id]} ∪ h)).

Definition hideElements (ids : list string) : js unit :=
  forEach ids hideElement.

Definition showError (message : string) : js unit :=
  set_textContent "error" message ;;
  showElement "error" ;;
  (* Auto-hide after 5 seconds *)
  setTimeout (HideElement "error") 5000.

(** ** script.js: stock analysis *)

Definition no_news_markup : string :=
  "<p style=" ++ JsString.dquote ++ "color: #999;" ++ JsString.dquote
  ++ ">No recent news available</p>".

Definition displayNews (news : jsval) : js unit :=
  modify (with_newsList (fun _ => [])) ;;
  if negb (ToBoolean news) then
    modify (with_newsList (fun _ => [Markup no_news_markup]))
  else
    len <- lift (Get news "length") ;;
    if strict_eq_zero len then
      modify (with_newsList (fun _ => [Markup no_news_markup]))
    else
      match news with
      | VArr items =>
          forEach items (fun item =>
            link <- lift (Get item "link") ;;
            title <- lift (Get item "title") ;;
            source <- lift (Get item "source") ;;
            published <- lift (Get item "published") ;;
            modify (with_newsList (fun l =>
              (l ++ [NewsItem (ToString link) (text_of title)
                              (ToString source) (ToString published)])%list)))
      | _ => throw (TypeError "forEach")
      end.

Definition displayResults (data : jsval) : js unit :=
  (* Stock Info *)
  ticker <- lift (Get data "ticker") ;;
  set_textContent "stockName" (ToString ticker) ;;
  current_price <- lift (Get data "current_price") ;;
  fixed <- lift (optional_toFixed current_price) ;;
  set_textContent "stockPrice"
    ("$" ++ ToString (or_else fixed (VStr "N/A"))) ;;
  change_percent <- lift (Get data "change_percent") ;;
  match or_else change_percent (VNum JsNumber.zero) with
  | VNum change =>
      set_textContent "stockChange"
        ((if JsNumber.ge_zero change then "+" else "")
         ++ JsNumber.toFixed2 NumberToString change ++ "%") ;;
      set_className "stockChange"
        ("change " ++
         (if JsNumber.ge_zero change then "positive" else "negative"))
  | _ =>
      (* [change >= 0] has no effect and [change.toFixed] is not a
         function *)
      throw (TypeError "toFixed")
  end ;;
  (* AI Analysis *)
  sentiment <- lift (Get data "sentiment") ;;
  set_textContent "sentimentBadge" (text_of sentiment) ;;
  set_className "sentimentBadge" ("sentiment-badge " ++ ToString sentiment) ;;
  summary <- lift (Get data "summary") ;;
  set_textContent "aiSummary" (text_of summary) ;;
  (* News *)
  news <- lift (Get data "news") ;;
  displayNews news ;;
  (* Show results; scrolling them into view changes nothing modelled *)
  showElement "results".

Definition analyze_request (ticker : string) : request :=
  Request "/api/analyze" "POST" [("Content-Type", "application/json")]
          (JsonBody (VObj [("ticker", VStr ticker)])).

(** The [try] block of [analyzeStock]. *)
Definition analyzeStock_try (ticker : string) : js unit :=
  response <- fetch (analyze_request ticker) ;;
  (if negb (ok response) then
     errorData <- lift (json response) ;;
     detail <- lift (Get errorData "detail") ;;
     throw (Error (ToString (or_else detail (VStr "Analysis failed"))))
   else ret tt) ;;
  data <- lift (json response) ;;
  displayResults data.

(** Its [catch] block. *)
Definition analyzeStock_catch (error : error) : js unit :=
  showError (message_or error "Failed to analyze stock. Please try again.") ;;
  console_error "Analysis error:" error.

(** Its [finally] block. *)
Definition analyzeStock_finally : js unit :=
  hideElement "loading" ;;
  set_disabled "analyzeBtn" false.

Definition analyzeStock : js unit :=
  input <- get_value "tickerInput" ;;
  let ticker := JsString.toUpperCase (JsString.trim input) in
  if String.eqb ticker "" then
    showError "Please enter a ticker symbol"
  else
    (* Hide previous results and errors *)
    hideElements ["results"; "error"] ;;
    showElement "loading" ;;
    (* Disable button *)
    set_disabled "analyzeBtn" true ;;
    try_catch_finally
      (analyzeStock_try ticker) analyzeStock_catch analyzeStock_finally.

(** ** script.js: PDF analysis *)

Definition max_file_size : N := 10 * 1024 * 1024.

(** [handleFileSelect(event)], given [event.target.files]. *)
Definition handleFileSelect (files : list File.t) : js unit :=
  match head files with
  | None => ret tt
  | Some file =>
      if negb (JsString.endsWith (File.name file) ".pdf") then
        showError "Please select a PDF file"
      else if (max_file_size <? File.size file)%N then  (* 10MB limit *)
        showError "File too large. Maximum size is 10MB"
      else
        modify (with_selectedFile (Some file)) ;;
        set_textContent "fileName" (File.name file) ;;
        set_disabled "analyzePdfBtn" false
  end.

Definition displayPDFResults (data : jsval) : js unit :=
  filename <- lift (Get data "filename") ;;
  set_textContent "pdfFileName" ("📄 " ++ ToString filename) ;;
  pages <- lift (Get data "pages") ;;
  (if ToBoolean pages then
     set_textContent "pdfPages" ("📑 " ++ ToString pages ++ " pages")
   else
     set_textContent "pdfPages" "") ;;
  ticker <- lift (Get data "ticker") ;;
  (if ToBoolean ticker then
     old <- get_textContent "pdfPages" ;;
     set_textContent "pdfPages" (old ++ " | 📈 " ++ ToString ticker)
   else ret tt) ;;
  analysis <- lift (Get data "analysis") ;;
  set_textContent "pdfAnalysisContent" (text_of analysis) ;;
  (* Show results; scrolling them into view changes nothing modelled *)
  showElement "pdfResults".

Definition pdf_request (url : string)
    (formData : list (string * form_value)) : request :=
  Request url "POST" [] (FormBody formData).

(** The [try] block of [analyzePDF], [file] being [selectedFile]. *)
Definition analyzePDF_try (file : File.t) : js unit :=
  useStockContext <- get_checked "useStockContext" ;;
  let formData := [("file", FormFile file)] in
  let endpoint := "/api/analyze-pdf" in
  let url := endpoint in
  target <-
    (if useStockContext : bool then
       input <- get_value "contextTicker" ;;
       let ticker := JsString.toUpperCase (JsString.trim input) in
       if String.eqb ticker "" then
         throw (Error "Please enter a ticker symbol for stock context")
       else
         let endpoint := "/api/analyze-pdf-with-stock" in
         ret (endpoint, (formData ++ [("ticker", FormText ticker)])%list)
     else
       analysisType <- get_value "analysisType" ;;
       ret (url,
            (formData ++ [("analysis_type", FormText analysisType)])%list)) ;;
  response <- fetch (pdf_request (fst target) (snd target)) ;;
  (if negb (ok response) then
     errorData <- lift (json response) ;;
     detail <- lift (Get errorData "detail") ;;
     throw (Error (ToString (or_else detail (VStr "PDF analysis failed"))))
   else ret tt) ;;
  data <- lift (json response) ;;
  displayPDFResults data.

(** Its [catch] block. *)
Definition analyzePDF_catch (error : error) : js unit :=
  showError (message_or error "Failed to analyze PDF. Please try again.") ;;
  console_error "PDF analysis error:" error.

(** Its [finally] block. *)
Definition analyzePDF_finally : js unit :=
  hideElement "loading" ;;
  set_disabled "analyzePdfBtn" false.

Definition analyzePDF : js unit :=
  selected <- gets selectedFile ;;
  match selected with
  | None => showError "Please select a PDF file first"
  | Some file =>
      (* Hide previous results *)
      hideElements ["pdfResults"; "error"] ;;
      showElement "loading" ;;
      set_disabled "analyzePdfBtn" true ;;
      try_catch_finally
        (analyzePDF_try file) analyzePDF_catch analyzePDF_finally
  end.

(** ** The event loop: timeouts *)

Definition run_callback (cb : callback) : js unit :=
  match cb with
  | HideElement id => hideElement id
  end.

(** Time passes until [t] with no other event: the timeouts due by then
    run, in the order they were set, and leave the queue. *)
Definition advance (t : N) (p : page) : page :=
  let due := List.filter (fun e => (fst e <=? t)%N) (timers p) in
  let rest := List.filter (fun e => negb (fst e <=? t)%N) (timers p) in
  let p1 := with_clock (N.max t (clock p)) (with_timers (fun _ => rest) p) in
  snd (forEach due (fun e => run_callback (snd e)) p1).

(** ** The sentiment label of the backend *)

Inductive Sentiment : Type := Positive | Neutral | Negative.

Definition sentiment_label (s : Sentiment) : string :=
  match s with
  | Positive => "Positive"
  | Neutral => "Neutral"
  | Negative => "Negative"
  end.

(** Modelled from the spec: the Result Normalizer of the backend, which is
    not part of the front-end sources.  For the sentiment task it scans the
    raw model text case-insensitively for the tokens positive, negative,
    neutral in that precedence order, the first match winning, and defaults
    to Neutral if none match. *)
Definition normalize_sentiment (rawText : string) : Sentiment :=
  let text := JsString.toLowerCase rawText in
  if JsString.includes text "positive" then Positive
  else if JsString.includes text "negative" then Negative
  else if JsString.includes text "neutral" then Neutral
  else Neutral.

(** [token] occurs in [text] up to the case of letters. *)
Definition occurs_ci (token text : string) : Prop :=
  exists pre mid post,
    text = pre ++ mid ++ post /\
    JsString.toLowerCase mid = JsString.toLowerCase token.

(** ** Notions the properties are stated with *)

(** A string begins, or ends, with white space. *)
Definition starts_with_space (s : string) : bool :=
  match s with
  | String c _ => JsString.is_white_space c
  | EmptyString => false
  end.

Fixpoint ends_with_space (s : string) : bool :=
  match s with
  | String c s' =>
      match s' with
      | EmptyString => JsString.is_white_space c
      | _ => ends_with_space s'
      end
  | EmptyString => false
  end.

(** [t] is [s] without the white space around it. *)
Definition trimmed_of (s t : string) : Prop :=
  (exists l r,
     s = l ++ t ++ r /\
     JsString.forall_chars JsString.is_white_space l = true /\
     JsString.forall_chars JsString.is_white_space r = true)
  /\ starts_with_space t = false /\ ends_with_space t = false.

(** The ticker a handler derives from the text control [id]. *)
Definition ticker_of (id : string) (p : page) : string :=
  JsString.toUpperCase (JsString.trim (default "" (value p !! id))).

(** [u] is [t] with each of the letters a to z replaced by the letter
    of A to Z at the same place of the alphabet, and nothing else
    changed. *)
Fixpoint uppercased_of (t u : string) : Prop :=
  match t, u with
  | EmptyString, EmptyString => True
  | String c t', String d u' =>
      (if ((97 <=? N_of_ascii c) && (N_of_ascii c <=? 122))%N
       then N_of_ascii d = (N_of_ascii c - 32)%N
       else d = c)
      /\ uppercased_of t' u'
  | _, _ => False
  end.

(** [ticker] is [input] without the white space around it, upper-cased:
    what [input.trim().toUpperCase()] is for an ASCII [input]. *)
Definition normalized_of (input ticker : string) : Prop :=
  exists t, trimmed_of input t /\ uppercased_of t ticker.

(** A string of TAB, LF, VT, FF, CR and SPACE. *)
Definition ascii_blank (s : string) : Prop :=
  Forall (fun c => In (N_of_ascii c) [9; 10; 11; 12; 13; 32]%N)
         (list_ascii_of_string s).

(** Two strings that differ at most in the case of the letters a to z. *)
Fixpoint same_up_to_case (s s' : string) : Prop :=
  match s, s' with
  | EmptyString, EmptyString => True
  | String c s1, String c' s1' =>
      (c = c'
       \/ ((65 <= N_of_ascii c <= 90)%N
           /\ N_of_ascii c' = (N_of_ascii c + 32)%N)
       \/ ((65 <= N_of_ascii c' <= 90)%N
           /\ N_of_ascii c = (N_of_ascii c' + 32)%N))
      /\ same_up_to_case s1 s1'
  | _, _ => False
  end.


(** The page when the [try] statement of an analysis handler is entered:
    the panel and the error hidden, the loading indicator shown and the
    button disabled. *)
Definition entering (panel button : string) (p : page) : page :=
  with_disabled (fun d => {[button]} ∪ d)
    (with_hidden (fun h => h ∖ {["loading"]})
       (with_hidden (fun h => {["error"]} ∪ h)
          (with_hidden (fun h => {[panel]} ∪ h) p))).

(** The page [showError] leaves: the message in the error element, the
    element visible, and a timeout set to hide it 5000 ms later. *)
Definition error_shown (message : string) (p : page) : page :=
  with_timers (fun q => (q ++ [((clock p + 5000)%N, HideElement "error")])%list)
    (with_hidden (fun h => h ∖ {["error"]})
       (with_textContent <["error" := message]> p)).

(** The page [handleFileSelect] leaves when it takes the file. *)
Definition file_selected (file : File.t) (p : page) : page :=
  with_disabled (fun d => d ∖ {["analyzePdfBtn"]})
    (with_textContent <["fileName" := File.name file]>
       (with_selectedFile (Some file) p)).

(** A computation leaves the observation [f] of the page as it was. *)
Definition keeps {A B : Type} (f : page -> B) (c : js A) : Prop :=
  forall p, f (snd (c p)) = f p.


(** Whenever a computation completes normally, [Q] holds of the page it
    leaves. *)
Definition ensures {A : Type} (Q : page -> Prop) (c : js A) : Prop :=
  forall p a, fst (c p) = Normal a -> Q (snd (c p)).




(** ** Sample data *)

Definition sample_NumberToString (x : JsNumber.number) : string := "0".

Definition sample_TypeErrorMessage (what : string) : string :=
  "Cannot read properties: " ++ what.

Definition sample_props : list (string * jsval) :=
  [("ticker", VStr "AAPL"); ("current_price", VNull);
   ("change_percent", VNull); ("summary", VStr "No data."); 
   ("sentiment", VStr "Neutral"); ("news", VArr [])].

(** A server that answers 200 with [sample_props]. *)
Definition sample_network_ok (r : request) : completion response :=
  Normal (Response true (Normal (VObj sample_props))).

(** A server that answers 404 with a [detail]. *)
Definition sample_network_not_ok (r : request) : completion response :=
  Normal (Response false (Normal (VObj [("detail", VStr "Ticker not found")]))).

(** No network. *)
Definition sample_network_down (r : request) : completion response :=
  Throw (Error "Failed to fetch").

Definition empty_pdf : File.t := File.make "report.pdf" 0.
Definition small_pdf : File.t := File.make "report.pdf" 2048.
Definition text_file : File.t := File.make "notes.txt" 120.

(** A page as it is before any interaction: nothing typed, ticked or
    selected, the PDF button disabled and the panels hidden. *)
Definition blank_page : page :=
  Page ∅ ∅ ∅ ∅ {["analyzePdfBtn"]}
       {["results"; "pdfResults"; "error"; "loading"; "pdfTab"]}
       [] None 0 [] [] [].

Definition with_value (id s : string) (p : page) : page :=
  Page (textContent p) (className p) (<[id := s]> (value p)) (checked p)
       (disabled p) (hidden p) (newsList p) (selectedFile p) (clock p)
       (timers p) (requests p) (console p).

Definition with_checked (id : string) (p : page) : page :=
  Page (textContent p) (className p) (value p) ({[id]} ∪ checked p)
       (disabled p) (hidden p) (newsList p) (selectedFile p) (clock p)
       (timers p) (requests p) (console p).

(** The ticker field filled in, with blanks around and in lower case. *)
Definition typed_page : page := with_value "tickerInput" " aapl " blank_page.

(** The ticker field holding what is no ticker symbol. *)
Definition odd_ticker_page : page :=
  with_value "tickerInput" " brk.b/2025-q1 " blank_page.

(** A PDF selected, for a summary. *)
Definition pdf_page : page :=
  with_selectedFile (Some small_pdf)
    (with_value "analysisType" "summary" blank_page).

(** A PDF selected, to be read in the context of a stock. *)
Definition pdf_stock_page (ticker : string) : page :=
  with_checked "useStockContext" (with_value "contextTicker" ticker pdf_page).

(** ** script.js: page load, trending chips, tabs *)

(** The closures the script installs as handlers: the key listener of the
    ticker field, and the click handler of a chip, which holds the chip's
    ticker. *)
Inductive listener : Type :=
| AnalyzeOnEnter
| ChipClick (ticker : jsval).

(** A child of [trendingChips]: a [div] with its class, its text and its
    click handler. *)
Record chip : Type := Chip {
  chip_className : string;
  chip_textContent : string;
  chip_onclick : listener
}.

(** The document: the page of the analysis handlers, and what the other
    functions of the script touch besides. *)
Record document : Type := Document {
  page_of : page;
  display : gmap string string;     (* element id -> style.display *)
  active : gset string;             (* elements whose classList has 'active' *)
  tab_buttons : list string;        (* the elements matching '.tab-btn' *)
  trendingChips : list chip;        (* children of #trendingChips *)
  listeners : list (string * string * listener);
                                    (* addEventListener: id, type, closure *)
  fetched : list string             (* calls of fetch(url), oldest first *)
}.

Definition with_page (f : page -> page) (d : document) : document :=
  Document (f (page_of d)) (display d) (active d) (tab_buttons d)
           (trendingChips d) (listeners d) (fetched d).

Definition with_display (f : gmap string string -> gmap string string)
    (d : document) : document :=
  Document (page_of d) (f (display d)) (active d) (tab_buttons d)
           (trendingChips d) (listeners d) (fetched d).

Definition with_active (f : gset string -> gset string)
    (d : document) : document :=
  Document (page_of d) (display d) (f (active d)) (tab_buttons d)
           (trendingChips d) (listeners d) (fetched d).

Definition with_trendingChips (f : list chip -> list chip)
    (d : document) : document :=
  Document (page_of d) (display d) (active d) (tab_buttons d)
           (f (trendingChips d)) (listeners d) (fetched d).

Definition with_listeners
    (f : list (string * string * listener)
         -> list (string * string * listener))
    (d : document) : document :=
  Document (page_of d) (display d) (active d) (tab_buttons d)
           (trendingChips d) (f (listeners d)) (fetched d).

Definition with_fetched (f : list string -> list string)
    (d : document) : document :=
  Document (page_of d) (display d) (active d) (tab_buttons d)
           (trendingChips d) (listeners d) (f (fetched d)).

(** Computations on the document, with the same completions. *)
Definition ui (A : Type) : Type := document -> completion A * document.

Definition ui_ret {A} (a : A) : ui A := fun d => (Normal a, d).

Definition ui_throw {A} (e : error) : ui A := fun d => (Throw e, d).

Definition ui_bind {A B} (c : ui A) (k : A -> ui B) : ui B :=
  fun d =>
    match c d with
    | (Normal a, d') => k a d'
    | (Throw e, d') => (Throw e, d')
    end.

Declare Scope ui_scope.
Delimit Scope ui_scope with ui.
Bind Scope ui_scope with ui.
Notation "x <- c ;; k" := (ui_bind c (fun x => k))
  (at level 20, c at level 99, k at level 200) : ui_scope.
Notation "c ;; k" := (ui_bind c (fun _ => k))
  (at level 100, k at level 200, right associativity) : ui_scope.

Definition ui_lift {A} (r : completion A) : ui A := fun d => (r, d).

Definition ui_gets {A} (f : document -> A) : ui A :=
  fun d => (Normal (f d), d).

Definition ui_modify (f : document -> document) : ui unit :=
  fun d => (Normal tt, f d).

(** A computation on the page, run on the page of the document. *)
Definition on_page {A} (c : js A) : ui A :=
  fun d => let '(r, p) := c (page_of d) in (r, with_page (fun _ => p) d).

(** [try { body } catch (error) { handler error }] *)
Definition try_catch (body : ui unit) (handler : error -> ui unit) : ui unit :=
  fun d =>
    match body d with
    | (Throw e, d') => handler e d'
    | completed => completed
    end.

Fixpoint ui_forEach {A} (l : list A) (f : A -> ui unit) : ui unit :=
  match l with
  | [] => ui_ret tt
  | x :: l' => (f x ;; ui_forEach l' f)%ui
  end.

(** [await fetch(url)], [get] being the network for requests made with a
    URL alone: what awaiting the fetch completes with, once the request
    has settled. *)
Definition fetch_get (get : string -> completion response) (url : string) :
    ui response :=
  (ui_modify (with_fetched (fun l => (l ++ [url])%list)) ;;
   ui_lift (get url))%ui.

(** The [div] that [loadTrendingStocks] creates for one ticker. *)
Definition make_chip (ticker : jsval) : chip :=
  Chip "chip" (text_of ticker) (ChipClick ticker).

(** The [try] block of [loadTrendingStocks]. *)
Definition loadTrendingStocks_try (get : string -> completion response) :
    ui unit :=
  (response <- fetch_get get "/api/trending" ;;
   data <- ui_lift (json response) ;;
   ui_modify (with_trendingChips (fun _ => [])) ;;
   trending <- ui_lift (Get data "trending") ;;
   match trending with
   | VArr items =>
       ui_forEach items (fun ticker =>
         ui_modify (with_trendingChips
                      (fun l => (l ++ [make_chip ticker])%list)))
   | _ => ui_throw (TypeError "forEach")
   end)%ui.

Definition loadTrendingStocks (get : string -> completion response) :
    ui unit :=
  try_catch (loadTrendingStocks_try get)
    (fun error =>
       on_page (console_error "Error loading trending stocks:" error)).

(** Line breaks, which a text field removes from a value assigned to it. *)
Definition is_line_break (c : ascii) : bool :=
  let n := N_of_ascii c in ((n =? 10) || (n =? 13))%N.

Fixpoint strip_line_breaks (s : string) : string :=
  match s with
  | String c s' =>
      if is_line_break c then strip_line_breaks s'
      else String c (strip_line_breaks s')
  | EmptyString => EmptyString
  end.

(** [document.getElementById(id).value = v], for a text field: [null]
    gives the empty string, and line breaks are removed. *)
Definition set_value (id : string) (v : jsval) : js unit :=
  modify (with_value id
            (strip_line_breaks
               match v with VNull => "" | _ => ToString v end)).

(** The click handler of a chip. *)
Definition click_chip (ticker : jsval) : js unit :=
  (set_value "tickerInput" ticker ;;
   analyzeStock)%js.

(** The key listener of the ticker field, given [e.key]. *)
Definition on_keypress (key : string) : js unit :=
  if String.eqb key "Enter" then analyzeStock else ret tt.

(** A closure called with an event whose [key] is [key]. *)
Definition call_listener (l : listener) (key : string) : js unit :=
  match l with
  | AnalyzeOnEnter => on_keypress key
  | ChipClick ticker => click_chip ticker
  end.

(** The listener of [DOMContentLoaded]. *)
Definition on_DOMContentLoaded (get : string -> completion response) :
    ui unit :=
  (loadTrendingStocks get ;;
   (* Enter key support *)
   ui_modify (with_listeners
                (fun l =>
                   (l ++ [("tickerInput", "keypress", AnalyzeOnEnter)])%list)))%ui.

(** The same listener in two parts, around its first [await].  Until
    [fetch('/api/trending')] settles the listener has made the request
    and nothing else, and it goes no further if the request never
    settles; it goes on when the request settles, from what it settles
    with: a response or a rejection. *)
Definition on_DOMContentLoaded_awaiting : ui unit :=
  ui_modify (with_fetched (fun l => (l ++ ["/api/trending"])%list)).

Definition loadTrendingStocks_settled (settled : completion response) :
    ui unit :=
  try_catch
    (response <- ui_lift settled ;;
     data <- ui_lift (json response) ;;
     ui_modify (with_trendingChips (fun _ => [])) ;;
     trending <- ui_lift (Get data "trending") ;;
     match trending with
     | VArr items =>
         ui_forEach items (fun ticker =>
           ui_modify (with_trendingChips
                        (fun l => (l ++ [make_chip ticker])%list)))
     | _ => ui_throw (TypeError "forEach")
     end)%ui
    (fun error =>
       on_page (console_error "Error loading trending stocks:" error)).

Definition on_DOMContentLoaded_settled (settled : completion response) :
    ui unit :=
  (loadTrendingStocks_settled settled ;;
   (* Enter key support *)
   ui_modify (with_listeners
                (fun l =>
                   (l ++ [("tickerInput", "keypress", AnalyzeOnEnter)])%list)))%ui.

(** [v === s], for a string [s]. *)
Definition strict_eq_string (v : jsval) (s : string) : bool :=
  match v with
  | VStr t => String.eqb t s
  | _ => false
  end.

(** [event.target.classList.add('active')], given the element the current
    event is dispatched to; there is none outside of an event. *)
Definition activate_target (target : option string) : ui unit :=
  match target with
  | Some el => ui_modify (with_active (fun a => {[el]} ∪ a))
  | None => ui_throw (TypeError "target")
  end.

(** [switchTab(tab)], given [event.target]. *)
Definition switchTab (tab : jsval) (target : option string) : ui unit :=
  (* Hide all tabs *)
  (on_page (hideElement "stockTab") ;;
   on_page (hideElement "pdfTab") ;;
   on_page (hideElement "results") ;;
   on_page (hideElement "pdfResults") ;;
   on_page (hideElement "error") ;;
   (* Remove active class from all buttons *)
   buttons <- ui_gets tab_buttons ;;
   ui_forEach buttons (fun btn =>
     ui_modify (with_active (fun a => a ∖ {[btn]}))) ;;
   (* Show selected tab *)
   if strict_eq_string tab "stock" then
     on_page (showElement "stockTab") ;;
     activate_target target
   else if strict_eq_string tab "pdf" then
     on_page (showElement "pdfTab") ;;
     activate_target target
   else ui_ret tt)%ui.

Definition toggleStockContext : ui unit :=
  (checkbox_checked <- on_page (get_checked "useStockContext") ;;
   if checkbox_checked : bool then
     ui_modify (with_display <["contextTicker" := "block"]>)
   else
     ui_modify (with_display <["contextTicker" := "none"]>))%ui.

(** ** More notions for the properties *)

(** When a computation throws, it leaves the observation [f] of the page
    as it was. *)
Definition keeps_on_throw {A B : Type} (f : page -> B) (c : js A) : Prop :=
  forall p e, fst (c p) = Throw e -> f (snd (c p)) = f p.


(** The ticker the handlers make of what a text field holds. *)
Definition normalize_ticker (input : string) : string :=
  JsString.toUpperCase (JsString.trim input).

(** The elements left with class 'active' when it is removed from each of
    [buttons]. *)
Definition deactivate (buttons : list string) (a : gset string) :
    gset string :=
  fold_left (fun a btn => a ∖ {[btn]}) buttons a.

(** The page once [switchTab] has hidden the tabs, the results and the
    error. *)
Definition all_hidden (p : page) : page :=
  with_hidden
    (fun h => {["error"]} ∪ ({["pdfResults"]} ∪ ({["results"]}
              ∪ ({["pdfTab"]} ∪ ({["stockTab"]} ∪ h))))) p.


(** ** Sessions: the handlers called one after another *)

(** The user ticking or clearing a checkbox. *)
Definition set_checked (id : string) (b : bool) (p : page) : page :=
  Page (textContent p) (className p) (value p)
       (if b then {[id]} ∪ checked p else checked p ∖ {[id]})
       (disabled p) (hidden p) (newsList p) (selectedFile p) (clock p)
       (timers p) (requests p) (console p).

(** What can happen to the page: the document is loaded, a listener the
    script installed is called, one of its global functions is called (by
    a handler attribute of the page), the user edits a field or ticks a
    box, or time passes. *)
Inductive event : Type :=
| Loaded
| Listener (l : listener) (key : string)
| AnalyzeStock
| SwitchTab (tab : jsval) (target : option string)
| HandleFileSelect (files : list File.t)
| ToggleStockContext
| AnalyzePDF
| Typed (id s : string)
| Ticked (id : string) (b : bool)
| Elapsed (t : N).

(** The document after an event.  A handler runs to its end before the
    next event: handlers that overlap while one of them awaits the
    network are not modelled. *)
Definition handle (get : string -> completion response) (ev : event)
    (d : document) : document :=
  match ev with
  | Loaded => snd (on_DOMContentLoaded get d)
  | Listener l key => with_page (fun p => snd (call_listener l key p)) d
  | AnalyzeStock => with_page (fun p => snd (analyzeStock p)) d
  | SwitchTab tab target => snd (switchTab tab target d)
  | HandleFileSelect files =>
      with_page (fun p => snd (handleFileSelect files p)) d
  | ToggleStockContext => snd (toggleStockContext d)
  | AnalyzePDF => with_page (fun p => snd (analyzePDF p)) d
  | Typed id s => with_page (with_value id s) d
  | Ticked id b => with_page (set_checked id b) d
  | Elapsed t => with_page (advance t) d
  end.

Definition run (get : string -> completion response) (events : list event)
    (d : document) : document :=
  fold_left (fun d ev => handle get ev d) events d.

(** What [handleFileSelect] checks of a file. *)
Definition valid_pdf (file : File.t) : Prop :=
  JsString.endsWith (File.name file) ".pdf" = true /\
  (File.size file <= max_file_size)%N.

(** Every file a request uploads is one [handleFileSelect] accepts. *)
Definition uploads_valid_pdf (r : request) : Prop :=
  match payload r with
  | FormBody entries =>
      forall name file, In (name, FormFile file) entries -> valid_pdf file
  | JsonBody _ => True
  end.

(** A timeout that hides the error element is due within 5000 ms. *)
Definition dismissal_pending (p : page) : Prop :=
  exists t, In (t, HideElement "error") (timers p) /\ (t <= clock p + 5000)%N.

(** The controls at rest: no loading indicator, the stock button enabled,
    and the PDF button enabled exactly when a file is selected. *)
Definition controls_at_rest (p : page) : Prop :=
  "loading" ∈ hidden p /\
  ("analyzeBtn" ∉ disabled p) /\
  ("analyzePdfBtn" ∈ disabled p <-> selectedFile p = None).

(** The selected file, if any, and the files of the requests sent have
    passed the checks of [handleFileSelect]. *)
Definition validated (p : page) : Prop :=
  (forall file, selectedFile p = Some file -> valid_pdf file) /\
  Forall uploads_valid_pdf (requests p).

(** The error element, when visible, is about to be hidden. *)
Definition error_dismissible (p : page) : Prop :=
  ("error" ∉ hidden p) -> dismissal_pending p.

(** ** More sample data *)

(** A server whose trending list is AAPL and MSFT. *)
Definition sample_get_trending (url : string) : completion response :=
  Normal (Response true
            (Normal (VObj [("trending", VArr [VStr "AAPL"; VStr "MSFT"])]))).


(** The document before any interaction, with its two tab buttons. *)
Definition blank_document : document :=
  Document blank_page ∅ ∅ ["stockTabBtn"; "pdfTabBtn"] [] [] [].

(** The document with a PDF selected. *)
Definition pdf_document : document :=
  Document pdf_page ∅ ∅ ["stockTabBtn"; "pdfTabBtn"] [] [] [].

(** The document with a PDF selected and the stock context " msft". *)
Definition pdf_stock_document : document :=
  Document (pdf_stock_page " msft") ∅ ∅ ["stockTabBtn"; "pdfTabBtn"]
           [] [] [].


(** The result of a PDF analysis, of 12 pages, about AAPL. *)
Definition sample_pdf_result : list (string * jsval) :=
  [("filename", VStr "report.pdf");
   ("pages", VNum (S754_finite false 3 2));
   ("ticker", VStr "AAPL"); ("analysis", VStr "Revenue grew.")].
(** ** Strings: lemmas *)

Section Strings.

#[local] Arguments String.append !s1 s2 : simpl nomatch.

Lemma length_append (a b : string) :
  String.length (a ++ b) = (String.length a + String.length b)%nat.
Proof. induction a as [|c a IH]; simpl; [reflexivity | now rewrite IH]. Qed.

Lemma append_empty_r (a : string) : a ++ "" = a.
Proof. induction a as [|c a IH]; simpl; [reflexivity | now rewrite IH]. Qed.

Lemma append_assoc (a b c : string) : (a ++ b) ++ c = a ++ (b ++ c).
Proof. induction a as [|x a IH]; simpl; [reflexivity | now rewrite IH]. Qed.

Lemma substring_full (b : string) : substring 0 (String.length b) b = b.
Proof. induction b as [|c b IH]; simpl; [reflexivity | now rewrite IH]. Qed.

Lemma substring_skip (a b : string) (m : nat) :
  substring (String.length a) m (a ++ b) = substring 0 m b.
Proof. induction a as [|c a IH]; simpl; [reflexivity | exact IH]. Qed.

Lemma substring_split (s : string) (k : nat) :
  (k <= String.length s)%nat ->
  s = substring 0 k s ++ substring k (String.length s - k) s.
Proof.
  revert k. induction s as [|c s IH]; intros k Hk; simpl in *.
  - destruct k; [reflexivity | lia].
  - destruct k as [|k]; simpl.
    + now rewrite substring_full.
    + f_equal. apply IH. lia.
Qed.

Lemma endsWith_spec (s suffix : string) :
  JsString.endsWith s suffix = true <-> exists stem, s = stem ++ suffix.
Proof.
  unfold JsString.endsWith. rewrite andb_true_iff, Nat.leb_le, String.eqb_eq.
  split.
  - intros [Hle Hsub].
    exists (substring 0 (String.length s - String.length suffix) s).
    pose proof (substring_split s
                  (String.length s - String.length suffix)) as H.
    replace (String.length s - (String.length s - String.length suffix))%nat
      with (String.length suffix) in H by lia.
    rewrite Hsub in H. apply H. lia.
  - intros [stem ->]. rewrite length_append. split; [lia|].
    replace (String.length stem + String.length suffix
             - String.length suffix)%nat with (String.length stem) by lia.
    rewrite substring_skip. apply substring_full.
Qed.

Lemma prefix_spec (t s : string) :
  String.prefix t s = true <-> exists post, s = t ++ post.
Proof.
  revert s. induction t as [|c t IH]; intros s; simpl.
  - split; [intros _; now exists s | intros _; now destruct s].
  - destruct s as [|d s]; simpl.
    + split; [discriminate | intros [post H]; discriminate].
    + destruct (Ascii.ascii_dec c d) as [->|Hne].
      * rewrite IH. split; intros [post H]; exists post.
        -- now rewrite H.
        -- now inversion H.
      * split; [discriminate | intros [post H]; inversion H; congruence].
Qed.

Lemma includes_unfold (s t : string) :
  JsString.includes s t
  = String.prefix t s
    || match s with
       | String _ s' => JsString.includes s' t
       | EmptyString => false
       end.
Proof. destruct s; reflexivity. Qed.

Lemma includes_spec (s t : string) :
  JsString.includes s t = true <-> exists pre post, s = pre ++ t ++ post.
Proof.
  induction s as [|c s IH];
    rewrite includes_unfold, orb_true_iff, prefix_spec.
  - split.
    + intros [[post H]|H]; [now exists "", post | discriminate].
    + intros (pre & post & H). left. destruct pre; [now exists post|].
      discriminate.
  - rewrite IH. split.
    + intros [[post H]|(pre & post & H)].
      * now exists "", post.
      * exists (String c pre), post. simpl. now rewrite H.
    + intros (pre & post & H). destruct pre as [|d pre]; simpl in H.
      * left. now exists post.
      * right. inversion H. now exists pre, post.
Qed.

Lemma map_chars_append (f : ascii -> ascii) (a b : string) :
  JsString.map_chars f (a ++ b)
  = JsString.map_chars f a ++ JsString.map_chars f b.
Proof. induction a as [|c a IH]; simpl; [reflexivity | now rewrite IH]. Qed.

Lemma map_chars_split (f : ascii -> ascii) (s a' b' : string) :
  JsString.map_chars f s = a' ++ b' ->
  exists a b, s = a ++ b /\ JsString.map_chars f a = a'
              /\ JsString.map_chars f b = b'.
Proof.
  revert s. induction a' as [|c a' IH]; intros s H; simpl in H.
  - now exists "", s.
  - destruct s as [|d s]; simpl in H; [discriminate|].
    inversion H as [[Hc Hs]]. destruct (IH _ Hs) as (a & b & -> & Ha & Hb).
    exists (String d a), b. simpl. now rewrite Ha, Hb.
Qed.

Lemma lower_char_idem (c : ascii) :
  JsString.lower_char (JsString.lower_char c) = JsString.lower_char c.
Proof. destruct c as [[] [] [] [] [] [] [] []]; reflexivity. Qed.

Lemma toLowerCase_idem (s : string) :
  JsString.toLowerCase (JsString.toLowerCase s) = JsString.toLowerCase s.
Proof.
  unfold JsString.toLowerCase.
  induction s as [|c s IH]; simpl; [reflexivity|].
  now rewrite lower_char_idem, IH.
Qed.

Lemma upper_char_not_lower (c : ascii) :
  JsString.is_lower (JsString.upper_char c) = false.
Proof. destruct c as [[] [] [] [] [] [] [] []]; reflexivity. Qed.

Lemma toUpperCase_no_lower (s : string) :
  JsString.forall_chars (fun c => negb (JsString.is_lower c))
                        (JsString.toUpperCase s) = true.
Proof.
  unfold JsString.toUpperCase.
  induction s as [|c s IH]; simpl; [reflexivity|].
  now rewrite upper_char_not_lower, IH.
Qed.

Lemma toUpperCase_uppercased (t : string) :
  uppercased_of t (JsString.toUpperCase t).
Proof.
  unfold JsString.toUpperCase.
  induction t as [|c t IH]; simpl; [exact I|]. split; [|exact IH].
  unfold JsString.upper_char, JsString.is_lower.
  destruct ((97 <=? N_of_ascii c) && (N_of_ascii c <=? 122))%N eqn:H;
    [|reflexivity].
  apply N_ascii_embedding. pose proof (N_ascii_bounded c). lia.
Qed.

Lemma trimStart_spec (s : string) :
  (exists l, s = l ++ JsString.trimStart s
             /\ JsString.forall_chars JsString.is_white_space l = true)
  /\ starts_with_space (JsString.trimStart s) = false.
Proof.
  induction s as [|c s [(l & Hl & Hws) Hstart]]; simpl.
  - split; [now exists ""|reflexivity].
  - destruct (JsString.is_white_space c) eqn:Hc.
    + split; [|exact Hstart]. exists (String c l). simpl.
      now rewrite Hc, Hws, <- Hl.
    + split; [now exists ""|]. simpl. exact Hc.
Qed.

Lemma trimEnd_spec (s : string) :
  (exists r, s = JsString.trimEnd s ++ r
             /\ JsString.forall_chars JsString.is_white_space r = true)
  /\ ends_with_space (JsString.trimEnd s) = false
  /\ (starts_with_space s = false ->
      starts_with_space (JsString.trimEnd s) = false).
Proof.
  induction s as [|c s [(r & Hr & Hws) [Hend _]]]; simpl.
  - split; [now exists ""|]. split; reflexivity.
  - destruct (JsString.trimEnd s) as [|d t] eqn:Ht.
    + simpl in Hr. subst r. destruct (JsString.is_white_space c) eqn:Hc.
      * split; [|split; [reflexivity|intros; reflexivity]].
        exists (String c s). simpl. now rewrite Hc, Hws.
      * split; [|split; [exact Hc|intros _; exact Hc]].
        now exists s.
    + split; [|split; [exact Hend|intros H; exact H]].
      exists r. simpl. now rewrite Hr at 1.
Qed.

Lemma trim_spec (s : string) : trimmed_of s (JsString.trim s).
Proof.
  unfold trimmed_of, JsString.trim.
  destruct (trimStart_spec s) as [(l & Hl & Hlws) Hstart].
  destruct (trimEnd_spec (JsString.trimStart s))
    as [(r & Hr & Hrws) [Hend Hkeep]].
  split; [|split; [now apply Hkeep | exact Hend]].
  exists l, r. split; [|now split]. now rewrite <- Hr.
Qed.

(** The scan of the normalizer finds a lower-case token exactly when the
    token occurs in the text up to case. *)
Lemma includes_lower_spec (text token : string) :
  JsString.toLowerCase token = token ->
  JsString.includes (JsString.toLowerCase text) token = true
  <-> occurs_ci token text.
Proof.
  intros Htok. rewrite includes_spec. unfold occurs_ci. rewrite Htok. split.
  - intros (pre' & post' & H).
    apply map_chars_split in H as (pre & rest & -> & Hpre & H).
    apply map_chars_split in H as (mid & post & -> & Hmid & Hpost).
    now exists pre, mid, post.
  - intros (pre & mid & post & -> & Hmid).
    exists (JsString.toLowerCase pre), (JsString.toLowerCase post).
    unfold JsString.toLowerCase in *.
    now rewrite !map_chars_append, Hmid.
Qed.

End Strings.

(** ** Trimming and case: lemmas *)

Section Normalize.

#[local] Arguments String.append !s1 s2 : simpl nomatch.

Lemma trimStart_all_space (l : string) :
  JsString.forall_chars JsString.is_white_space l = true ->
  JsString.trimStart l = "".
Proof.
  induction l as [|c l IH]; simpl; [reflexivity|].
  intros H. apply andb_true_iff in H as [Hc Hl]. rewrite Hc. now apply IH.
Qed.

Lemma trimEnd_all_space (r : string) :
  JsString.forall_chars JsString.is_white_space r = true ->
  JsString.trimEnd r = "".
Proof.
  induction r as [|c r IH]; simpl; [reflexivity|].
  intros H. apply andb_true_iff in H as [Hc Hr]. now rewrite IH, Hc.
Qed.

Lemma trimStart_space_before (l s : string) :
  JsString.forall_chars JsString.is_white_space l = true ->
  JsString.trimStart (l ++ s) = JsString.trimStart s.
Proof.
  induction l as [|c l IH]; simpl; [reflexivity|].
  intros H. apply andb_true_iff in H as [Hc Hl]. rewrite Hc. now apply IH.
Qed.

Lemma trimEnd_space_after (s r : string) :
  JsString.forall_chars JsString.is_white_space r = true ->
  JsString.trimEnd (s ++ r) = JsString.trimEnd s.
Proof.
  intros Hr. induction s as [|c s IH]; simpl.
  - now apply trimEnd_all_space.
  - now rewrite IH.
Qed.

Lemma trim_space_after (s r : string) :
  JsString.forall_chars JsString.is_white_space r = true ->
  JsString.trim (s ++ r) = JsString.trim s.
Proof.
  intros Hr. unfold JsString.trim. induction s as [|c s IH]; simpl.
  - now rewrite (trimStart_all_space r Hr).
  - destruct (JsString.is_white_space c); [exact IH|].
    change (String c (s ++ r)) with (String c s ++ r).
    now apply trimEnd_space_after.
Qed.

Lemma trim_space_around (l s r : string) :
  JsString.forall_chars JsString.is_white_space l = true ->
  JsString.forall_chars JsString.is_white_space r = true ->
  JsString.trim (l ++ s ++ r) = JsString.trim s.
Proof.
  intros Hl Hr. rewrite <- (trim_space_after s r Hr).
  unfold JsString.trim. now rewrite trimStart_space_before.
Qed.

Lemma trimStart_map (f : ascii -> ascii) (s : string) :
  (forall c, JsString.is_white_space (f c) = JsString.is_white_space c) ->
  JsString.trimStart (JsString.map_chars f s)
  = JsString.map_chars f (JsString.trimStart s).
Proof.
  intros Hf. induction s as [|c s IH]; simpl; [reflexivity|].
  rewrite Hf. now destruct (JsString.is_white_space c).
Qed.

Lemma trimEnd_map (f : ascii -> ascii) (s : string) :
  (forall c, JsString.is_white_space (f c) = JsString.is_white_space c) ->
  JsString.trimEnd (JsString.map_chars f s)
  = JsString.map_chars f (JsString.trimEnd s).
Proof.
  intros Hf. induction s as [|c s IH]; simpl; [reflexivity|].
  rewrite IH, Hf. destruct (JsString.trimEnd s); simpl; [|reflexivity].
  now destruct (JsString.is_white_space c).
Qed.

Lemma trim_map (f : ascii -> ascii) (s : string) :
  (forall c, JsString.is_white_space (f c) = JsString.is_white_space c) ->
  JsString.trim (JsString.map_chars f s)
  = JsString.map_chars f (JsString.trim s).
Proof.
  intros Hf. unfold JsString.trim.
  now rewrite trimStart_map, trimEnd_map.
Qed.

Lemma trimStart_id (s : string) :
  starts_with_space s = false -> JsString.trimStart s = s.
Proof. destruct s as [|c s]; simpl; [reflexivity|]. now intros ->. Qed.

Lemma trimEnd_id (s : string) :
  ends_with_space s = false -> JsString.trimEnd s = s.
Proof.
  induction s as [|c s IH]; simpl; [reflexivity|].
  destruct s as [|d s]; [now intros -> |].
  intros H. now rewrite (IH H).
Qed.

Lemma trim_idem (s : string) :
  JsString.trim (JsString.trim s) = JsString.trim s.
Proof.
  destruct (trim_spec s) as [_ [Hstart Hend]].
  unfold JsString.trim at 1.
  now rewrite (trimStart_id _ Hstart), (trimEnd_id _ Hend).
Qed.

Lemma upper_char_space (c : ascii) :
  JsString.is_white_space (JsString.upper_char c) = JsString.is_white_space c.
Proof. destruct c as [[] [] [] [] [] [] [] []]; reflexivity. Qed.

Lemma lower_char_space (c : ascii) :
  JsString.is_white_space (JsString.lower_char c) = JsString.is_white_space c.
Proof. destruct c as [[] [] [] [] [] [] [] []]; reflexivity. Qed.

Lemma upper_char_idem (c : ascii) :
  JsString.upper_char (JsString.upper_char c) = JsString.upper_char c.
Proof. destruct c as [[] [] [] [] [] [] [] []]; reflexivity. Qed.

Lemma upper_lower_char (c : ascii) :
  JsString.upper_char (JsString.lower_char c) = JsString.upper_char c.
Proof. destruct c as [[] [] [] [] [] [] [] []]; reflexivity. Qed.

Lemma map_chars_map_chars (f g : ascii -> ascii) (s : string) :
  JsString.map_chars f (JsString.map_chars g s)
  = JsString.map_chars (fun c => f (g c)) s.
Proof. induction s as [|c s IH]; simpl; [reflexivity | now rewrite IH]. Qed.

Lemma map_chars_ext (f g : ascii -> ascii) (s : string) :
  (forall c, f c = g c) -> JsString.map_chars f s = JsString.map_chars g s.
Proof.
  intros H. induction s as [|c s IH]; simpl; [reflexivity|].
  now rewrite H, IH.
Qed.

End Normalize.

(** The two relations determine what they describe. *)
Lemma trimmed_of_unique (s t : string) :
  trimmed_of s t -> t = JsString.trim s.
Proof.
  intros [(l & r & -> & Hl & Hr) [Hstart Hend]].
  rewrite trim_space_around by assumption. unfold JsString.trim.
  now rewrite (trimStart_id _ Hstart), (trimEnd_id _ Hend).
Qed.

Lemma uppercased_of_unique (t u : string) :
  uppercased_of t u -> u = JsString.toUpperCase t.
Proof.
  unfold JsString.toUpperCase. revert u.
  induction t as [|c t IH]; intros [|d u]; simpl;
    [intros _; reflexivity | intros [] | intros [] |].
  intros [Hc Hu]. f_equal; [|now apply IH].
  unfold JsString.upper_char, JsString.is_lower.
  destruct ((97 <=? N_of_ascii c) && (N_of_ascii c <=? 122))%N;
    [|exact Hc].
  now rewrite <- Hc, ascii_N_embedding.
Qed.

Lemma normalized_of_unique (input ticker : string) :
  normalized_of input ticker ->
  ticker = JsString.toUpperCase (JsString.trim input).
Proof.
  intros (t & Htrim & Hup). rewrite <- (trimmed_of_unique _ _ Htrim).
  now apply uppercased_of_unique.
Qed.


(** ** Sets of ids: lemmas *)

Lemma not_elem_of_removed (x : string) (s : gset string) : x ∉ s ∖ {[x]}.
Proof.
  rewrite elem_of_difference, elem_of_singleton. intros [_ H]. now apply H.
Qed.

Lemma elem_of_added (x : string) (s : gset string) : x ∈ {[x]} ∪ s.
Proof. apply elem_of_union_l. now apply elem_of_singleton. Qed.

Lemma elem_of_added_other (x y : string) (s : gset string) :
  x <> y -> x ∈ {[y]} ∪ s <-> x ∈ s.
Proof.
  intros H. rewrite elem_of_union, elem_of_singleton. tauto.
Qed.

Lemma elem_of_removed_other (x y : string) (s : gset string) :
  x <> y -> x ∈ s ∖ {[y]} <-> x ∈ s.
Proof.
  intros H. rewrite elem_of_difference, elem_of_singleton. tauto.
Qed.

(** ** The monad: lemmas *)

(** Whatever the body and the handler do, the page a try statement leaves
    is one its [finally] block leaves. *)
Lemma try_catch_finally_final (body : js unit) (handler : error -> js unit)
    (final : js unit) (p : page) :
  exists q, snd (try_catch_finally body handler final p) = snd (final q).
Proof.
  unfold try_catch_finally.
  destruct (body p) as [[[]|e] p1].
  - exists p1. now destruct (final p1) as [[[]|e'] p2].
  - destruct (handler e p1) as [r p2]. exists p2.
    now destruct (final p2) as [[[]|e'] p3].
Qed.

Lemma analyzeStock_empty (p : page) :
  ticker_of "tickerInput" p = "" ->
  analyzeStock p = showError "Please enter a ticker symbol" p.
Proof.
  intros H. unfold analyzeStock, ticker_of in *.
  unfold bind at 1. simpl. now rewrite H.
Qed.

Lemma analyzeStock_nonempty (p : page) :
  ticker_of "tickerInput" p <> "" ->
  analyzeStock p
  = try_catch_finally (analyzeStock_try (ticker_of "tickerInput" p))
      analyzeStock_catch analyzeStock_finally
      (entering "results" "analyzeBtn" p).
Proof.
  intros H. apply String.eqb_neq in H. unfold analyzeStock, ticker_of in *.
  unfold bind at 1. simpl. now rewrite H.
Qed.

Lemma analyzePDF_none (p : page) :
  selectedFile p = None ->
  analyzePDF p = showError "Please select a PDF file first" p.
Proof. intros H. unfold analyzePDF. unfold bind at 1. simpl. now rewrite H. Qed.

Lemma analyzePDF_some (p : page) (file : File.t) :
  selectedFile p = Some file ->
  analyzePDF p
  = try_catch_finally (analyzePDF_try file) analyzePDF_catch
      analyzePDF_finally (entering "pdfResults" "analyzePdfBtn" p).
Proof. intros H. unfold analyzePDF. unfold bind at 1. simpl. now rewrite H. Qed.

(** A try statement whose [catch] and [finally] blocks complete normally
    completes normally. *)
Lemma try_catch_finally_normal (body : js unit) (handler : error -> js unit)
    (final : js unit) (p : page) :
  (forall e q, fst (handler e q) = Normal tt) ->
  (forall q, fst (final q) = Normal tt) ->
  fst (try_catch_finally body handler final p) = Normal tt.
Proof.
  intros Hh Hf. unfold try_catch_finally.
  destruct (body p) as [[[]|e] p1].
  - specialize (Hf p1). now destruct (final p1) as [[[]|e'] p2].
  - specialize (Hh e p1). destruct (handler e p1) as [r p2]. simpl in Hh.
    specialize (Hf p2). destruct (final p2) as [[[]|e'] p3]; simpl in *;
      congruence.
Qed.

Lemma analyzeStock_finally_spec (q : page) :
  analyzeStock_finally q
  = (Normal tt,
     with_disabled (fun d => d ∖ {["analyzeBtn"]})
       (with_hidden (fun h => {["loading"]} ∪ h) q)).
Proof. reflexivity. Qed.

Lemma analyzePDF_finally_spec (q : page) :
  analyzePDF_finally q
  = (Normal tt,
     with_disabled (fun d => d ∖ {["analyzePdfBtn"]})
       (with_hidden (fun h => {["loading"]} ∪ h) q)).
Proof. reflexivity. Qed.

(** C8. An analysis that gets past its first check -- [analyzeStock] with
    a non-empty ticker, [analyzePDF] with a file selected -- completes
    normally whatever the network does (response, non-2xx response or
    rejection, readable body or not), and when it has completed the
    loading indicator is hidden and its button is enabled. *)
Theorem analyze_restores_loading_and_button (p : page) :
  (ticker_of "tickerInput" p <> "" ->
   fst (analyzeStock p) = Normal tt /\
   "loading" ∈ hidden (snd (analyzeStock p)) /\
   "analyzeBtn" ∉ disabled (snd (analyzeStock p)))
  /\
  (forall file, selectedFile p = Some file ->
   fst (analyzePDF p) = Normal tt /\
   "loading" ∈ hidden (snd (analyzePDF p)) /\
   "analyzePdfBtn" ∉ disabled (snd (analyzePDF p))).
Proof.
  split.
  - intros H. rewrite (analyzeStock_nonempty p H). split.
    + now apply try_catch_finally_normal.
    + destruct (try_catch_finally_final
                  (analyzeStock_try (ticker_of "tickerInput" p))
                  analyzeStock_catch analyzeStock_finally
                  (entering "results" "analyzeBtn" p)) as [q Hq].
      rewrite Hq, analyzeStock_finally_spec. simpl.
      split; [apply elem_of_added | apply not_elem_of_removed].
  - intros file H. rewrite (analyzePDF_some p file H). split.
    + now apply try_catch_finally_normal.
    + destruct (try_catch_finally_final (analyzePDF_try file)
                  analyzePDF_catch analyzePDF_finally
                  (entering "pdfResults" "analyzePdfBtn" p)) as [q Hq].
      rewrite Hq, analyzePDF_finally_spec. simpl.
      split; [apply elem_of_added | apply not_elem_of_removed].
Qed.

(** ** Utility functions: lemmas *)

Lemma showError_spec (message : string) (p : page) :
  showError message p = (Normal tt, error_shown message p).
Proof. reflexivity. Qed.

(** ** File selection *)

Lemma handleFileSelect_no_file (p : page) :
  handleFileSelect [] p = (Normal tt, p).
Proof. reflexivity. Qed.

Lemma handleFileSelect_not_pdf (p : page) (file : File.t) (rest : list File.t) :
  JsString.endsWith (File.name file) ".pdf" = false ->
  handleFileSelect (file :: rest) p
  = (Normal tt, error_shown "Please select a PDF file" p).
Proof. intros H. unfold handleFileSelect. simpl. now rewrite H. Qed.

Lemma handleFileSelect_too_large (p : page) (file : File.t)
    (rest : list File.t) :
  JsString.endsWith (File.name file) ".pdf" = true ->
  (max_file_size < File.size file)%N ->
  handleFileSelect (file :: rest) p
  = (Normal tt, error_shown "File too large. Maximum size is 10MB" p).
Proof.
  intros Hn Hs. apply N.ltb_lt in Hs.
  unfold handleFileSelect. simpl. now rewrite Hn, Hs.
Qed.

Lemma handleFileSelect_taken (p : page) (file : File.t) (rest : list File.t) :
  JsString.endsWith (File.name file) ".pdf" = true ->
  (File.size file <= max_file_size)%N ->
  handleFileSelect (file :: rest) p = (Normal tt, file_selected file p).
Proof.
  intros Hn Hs. apply N.ltb_ge in Hs.
  unfold handleFileSelect. simpl. now rewrite Hn, Hs.
Qed.

(** A file that fails a check is answered by one of the two messages. *)
Lemma handleFileSelect_refused (p : page) (file : File.t)
    (rest : list File.t) :
  (~ exists stem, File.name file = stem ++ ".pdf")
  \/ (10 * 1024 * 1024 < File.size file)%N ->
  exists message,
    (message = "Please select a PDF file"
     \/ message = "File too large. Maximum size is 10MB")
    /\ handleFileSelect (file :: rest) p = (Normal tt, error_shown message p).
Proof.
  intros H.
  destruct (JsString.endsWith (File.name file) ".pdf") eqn:Hn.
  - destruct H as [H|H].
    + exfalso. apply H. now apply endsWith_spec.
    + eexists. split; [right; reflexivity|].
      now apply handleFileSelect_too_large.
  - eexists. split; [left; reflexivity|].
    now apply handleFileSelect_not_pdf.
Qed.

(** C1, as the script has it.  A file passed to [handleFileSelect] whose
    name ends with ".pdf" and whose size is at most 10 MiB is accepted: it
    becomes the selected file, its name is displayed and the PDF button is
    enabled, with no error raised.  A file that fails either condition is
    answered by an error message, shown in the error element, and is not
    accepted: selection, displayed name and button stay as they were.  In
    both cases the handler issues no request.  The size has no lower bound:
    an empty file named like a PDF is accepted. *)
Theorem handleFileSelect_accepts_pdf_up_to_10MiB (p : page) (file : File.t)
    (rest : list File.t) :
  let p' := snd (handleFileSelect (file :: rest) p) in
  requests p' = requests p /\
  ((exists stem, File.name file = stem ++ ".pdf")
   /\ (File.size file <= 10 * 1024 * 1024)%N ->
   selectedFile p' = Some file /\
   textContent p' !! "fileName" = Some (File.name file) /\
   ("analyzePdfBtn" ∉ disabled p') /\
   textContent p' !! "error" = textContent p !! "error" /\
   hidden p' = hidden p /\ timers p' = timers p)
  /\
  (~ ((exists stem, File.name file = stem ++ ".pdf")
      /\ (File.size file <= 10 * 1024 * 1024)%N) ->
   (textContent p' !! "error" = Some "Please select a PDF file"
    \/ textContent p' !! "error" = Some "File too large. Maximum size is 10MB")
   /\ ("error" ∉ hidden p') /\
   selectedFile p' = selectedFile p /\
   textContent p' !! "fileName" = textContent p !! "fileName" /\
   disabled p' = disabled p).
Proof.
  intros p'. subst p'.
  destruct (JsString.endsWith (File.name file) ".pdf") eqn:Hn;
    [destruct (N.le_gt_cases (File.size file) max_file_size) as [Hs|Hs]|].
  - rewrite (handleFileSelect_taken p file rest Hn Hs). simpl.
    split; [reflexivity|]. split.
    + intros _. split; [reflexivity|]. split; [apply lookup_insert_eq|].
      split; [apply not_elem_of_removed|].
      split; [now apply lookup_insert_ne|]. split; reflexivity.
    + intros H. exfalso. apply H. split; [now apply endsWith_spec | exact Hs].
  - rewrite (handleFileSelect_too_large p file rest Hn Hs). simpl.
    split; [reflexivity|]. split.
    + intros [_ H]. unfold max_file_size in Hs. lia.
    + intros _. split; [right; apply lookup_insert_eq|].
      split; [apply not_elem_of_removed|]. split; [reflexivity|].
      split; [|reflexivity]. now apply lookup_insert_ne.
  - rewrite (handleFileSelect_not_pdf p file rest Hn). simpl.
    split; [reflexivity|]. split.
    + intros [H _]. apply endsWith_spec in H. congruence.
    + intros _. split; [left; apply lookup_insert_eq|].
      split; [apply not_elem_of_removed|]. split; [reflexivity|].
      split; [|reflexivity]. now apply lookup_insert_ne.
Qed.

(** C9. When [handleFileSelect] rejects a file -- its name does not end in
    ".pdf", or its size is over the 10 MiB limit -- the previously selected
    file, the displayed file name and the enabled or disabled state of the
    PDF button are left as they were: the rejection shows an error message
    and alters nothing of the prior selection. *)
Theorem handleFileSelect_reject_keeps_selection (p : page) (file : File.t)
    (rest : list File.t) :
  (~ exists stem, File.name file = stem ++ ".pdf")
  \/ (10 * 1024 * 1024 < File.size file)%N ->
  let p' := snd (handleFileSelect (file :: rest) p) in
  selectedFile p' = selectedFile p /\
  textContent p' !! "fileName" = textContent p !! "fileName" /\
  disabled p' = disabled p /\
  ("error" ∉ hidden p') /\
  (textContent p' !! "error" = Some "Please select a PDF file"
   \/ textContent p' !! "error" = Some "File too large. Maximum size is 10MB").
Proof.
  intros H p'. subst p'.
  destruct (handleFileSelect_refused p file rest H) as (m & Hm & ->). simpl.
  split; [reflexivity|]. split; [now apply lookup_insert_ne|].
  split; [reflexivity|]. split; [apply not_elem_of_removed|].
  destruct Hm as [-> | ->]; [left | right]; apply lookup_insert_eq.
Qed.

(** ** Timeouts *)

(** Running queued callbacks only adds to the hidden elements, and adds
    every id a callback names. *)
Lemma run_callbacks_hidden (l : list (N * callback)) (q : page) (x : string) :
  x ∈ hidden (snd (forEach l (fun e => run_callback (snd e)) q))
  <-> x ∈ hidden q \/ exists t, In (t, HideElement x) l.
Proof.
  revert q. induction l as [|[t [id]] l IH]; intros q.
  - simpl. split; [now left | intros [H|[t []]]; exact H].
  - change (forEach ((t, HideElement id) :: l)
              (fun e => run_callback (snd e)) q)
      with (forEach l (fun e => run_callback (snd e))
              (with_hidden (fun h => {[id]} ∪ h) q)).
    rewrite IH. simpl. rewrite elem_of_union, elem_of_singleton. split.
    + intros [[->|H]|[t' H]].
      * right. exists t. now left.
      * now left.
      * right. exists t'. now right.
    + intros [H|[t' [H|H]]].
      * left. now right.
      * inversion H. left. now left.
      * right. now exists t'.
Qed.

Lemma advance_hidden (t : N) (p : page) (x : string) :
  x ∈ hidden (advance t p)
  <-> x ∈ hidden p
      \/ exists due, (due <= t)%N /\ In (due, HideElement x) (timers p).
Proof.
  unfold advance. rewrite run_callbacks_hidden. simpl. split.
  - intros [H|[due H]]; [now left|]. right. exists due.
    apply filter_In in H as [H Hdue]. simpl in Hdue.
    apply N.leb_le in Hdue. now split.
  - intros [H|(due & Hdue & H)]; [now left|]. right. exists due.
    apply filter_In. split; [exact H|]. now apply N.leb_le.
Qed.

(** C7. Every call of [showError] puts the message in the error element
    and makes the element visible, and sets one timeout, 5000 ms ahead,
    that hides the element: once 5 seconds have passed, with no further
    event, the element is hidden again.  No timeout of the call hides it
    sooner: unless an older timeout comes due, it stays visible until
    then. *)
Theorem showError_visible_then_hidden_after_5s (message : string) (p : page) :
  let p' := snd (showError message p) in
  textContent p' !! "error" = Some message /\
  ("error" ∉ hidden p') /\
  timers p' = (timers p ++ [((clock p + 5000)%N, HideElement "error")])%list /\
  "error" ∈ hidden (advance (clock p + 5000) p') /\
  (forall t, (t < clock p + 5000)%N ->
             (forall e, In e (timers p) -> (t < fst e)%N) ->
             "error" ∉ hidden (advance t p')).
Proof.
  intros p'. subst p'. rewrite showError_spec. simpl.
  split; [apply lookup_insert_eq|]. split; [apply not_elem_of_removed|].
  split; [reflexivity|]. split.
  - apply advance_hidden. right. exists (clock p + 5000)%N.
    split; [lia|]. simpl. apply in_or_app. right. now left.
  - intros t Ht Hold. rewrite advance_hidden. simpl.
    intros [H|(due & Hdue & H)].
    + now apply not_elem_of_removed in H.
    + apply in_app_or in H as [H|[H|[]]].
      * specialize (Hold _ H). simpl in Hold. lia.
      * inversion H. lia.
Qed.

(** ** Frames: what a computation leaves alone *)

Section Keeps.

Context {B : Type} (f : page -> B).

Lemma keeps_ret {A} (a : A) : keeps f (ret a).
Proof. now intros p. Qed.

Lemma keeps_throw {A} (e : error) : keeps f (@throw A e).
Proof. now intros p. Qed.

Lemma keeps_lift {A} (r : completion A) : keeps f (lift r).
Proof. now intros p. Qed.

Lemma keeps_gets {A} (g : page -> A) : keeps f (gets g).
Proof. now intros p. Qed.

Lemma keeps_modify (g : page -> page) :
  (forall p, f (g p) = f p) -> keeps f (modify g).
Proof. intros H p. apply H. Qed.

Lemma keeps_bind {A C} (c : js A) (k : A -> js C) :
  keeps f c -> (forall a, keeps f (k a)) -> keeps f (bind c k).
Proof.
  intros Hc Hk p. unfold bind. specialize (Hc p).
  destruct (c p) as [[a|e] p1]; simpl in *; [|exact Hc].
  now rewrite Hk.
Qed.

Lemma keeps_forEach {A} (l : list A) (g : A -> js unit) :
  (forall x, keeps f (g x)) -> keeps f (forEach l g).
Proof.
  intros Hg. induction l as [|x l IH]; simpl.
  - apply keeps_ret.
  - apply keeps_bind; [apply Hg | intros _; exact IH].
Qed.

(** What follows a statement and keeps [f] can be dropped when reading
    [f] off the final page. *)
Lemma keeps_after {A C} (c : js A) (k : A -> js C) (p : page) :
  (forall a, keeps f (k a)) -> f (snd (bind c k p)) = f (snd (c p)).
Proof.
  intros Hk. unfold bind. destruct (c p) as [[a|e] p1]; simpl; [|reflexivity].
  apply Hk.
Qed.

(** A try statement whose [catch] and [finally] blocks keep [f] leaves
    [f] as its body does. *)
Lemma keeps_after_body (body : js unit) (handler : error -> js unit)
    (final : js unit) (p : page) :
  (forall e, keeps f (handler e)) -> keeps f final ->
  f (snd (try_catch_finally body handler final p)) = f (snd (body p)).
Proof.
  intros Hh Hf. unfold try_catch_finally.
  destruct (body p) as [[[]|e] p1]; simpl.
  - specialize (Hf p1). now destruct (final p1) as [[[]|e'] p2].
  - specialize (Hh e p1). destruct (handler e p1) as [r p2].
    specialize (Hf p2). destruct (final p2) as [[[]|e'] p3]; simpl in *;
      congruence.
Qed.

End Keeps.

(** Decompose a [keeps] goal along the structure of the computation; what
    is left are the writes, as equations on the page. *)
Ltac keeps_step :=
  match goal with
  | |- keeps _ (bind _ _) => apply keeps_bind; [|intros ?]
  | |- keeps _ (ret _) => apply keeps_ret
  | |- keeps _ (throw _) => apply keeps_throw
  | |- keeps _ (lift _) => apply keeps_lift
  | |- keeps _ (gets _) => apply keeps_gets
  | |- keeps _ (get_value _) => apply keeps_gets
  | |- keeps _ (get_checked _) => apply keeps_gets
  | |- keeps _ (get_textContent _) => apply keeps_gets
  | |- keeps _ (forEach _ _) => apply keeps_forEach; intros ?
  | |- keeps _ (hideElements _) => apply keeps_forEach; intros ?
  | |- keeps _ (if ?b then _ else _) => destruct b
  | |- keeps _ (match ?v with _ => _ end) => destruct v
  | |- keeps _ (modify _) => apply keeps_modify; intros ?; simpl
  | |- keeps _ (set_textContent _ _) => apply keeps_modify; intros ?; simpl
  | |- keeps _ (set_className _ _) => apply keeps_modify; intros ?; simpl
  | |- keeps _ (set_disabled _ _) => apply keeps_modify; intros ?; simpl
  | |- keeps _ (setTimeout _ _) => apply keeps_modify; intros ?; simpl
  | |- keeps _ (console_error _ _) => apply keeps_modify; intros ?; simpl
  | |- keeps _ (showElement _) => apply keeps_modify; intros ?; simpl
  | |- keeps _ (hideElement _) => apply keeps_modify; intros ?; simpl
  end.

Ltac keeps_auto :=
  repeat keeps_step;
  try reflexivity;
  try (apply lookup_insert_ne; discriminate).

Lemma displayNews_keeps_requests (news : jsval) :
  keeps requests (displayNews news).
Proof. unfold displayNews. keeps_auto. Qed.

Lemma displayResults_keeps_requests (data : jsval) :
  keeps requests (displayResults data).
Proof.
  unfold displayResults. keeps_auto. apply displayNews_keeps_requests.
Qed.

Lemma displayPDFResults_keeps_requests (data : jsval) :
  keeps requests (displayPDFResults data).
Proof. unfold displayPDFResults. keeps_auto. Qed.

Lemma fetch_requests (r : request) (q : page) :
  requests (snd (fetch r q)) = (requests q ++ [r])%list.
Proof. unfold fetch, bind, modify, lift. simpl. now destruct (network r). Qed.

(** ** Stock analysis: the request *)

Lemma analyzeStock_try_requests (ticker : string) (q : page) :
  requests (snd (analyzeStock_try ticker q))
  = (requests q ++ [analyze_request ticker])%list.
Proof.
  unfold analyzeStock_try.
  rewrite (keeps_after requests); [apply fetch_requests|].
  intros response. keeps_auto. apply displayResults_keeps_requests.
Qed.

Lemma analyzeStock_catch_keeps_requests (e : error) :
  keeps requests (analyzeStock_catch e).
Proof. unfold analyzeStock_catch, showError, console_error. keeps_auto. Qed.

Lemma analyzeStock_finally_keeps_requests :
  keeps requests analyzeStock_finally.
Proof. unfold analyzeStock_finally. keeps_auto. Qed.


(** C2, as the script has it, for an ASCII input.  The ticker
    [analyzeStock] works with is the input value without the white space
    around it, upper-cased (the one string that is), so it holds no
    lower-case letter.  When it is
    empty the handler shows an error message and issues no request; when
    it is not empty the handler issues exactly one request, POST
    /api/analyze, whose body is that ticker.  Nothing but emptiness is
    checked. *)
Theorem analyzeStock_request_iff_ticker_nonempty (p : page) :
  JsString.is_ascii (default "" (value p !! "tickerInput")) = true ->
  let ticker := ticker_of "tickerInput" p in
  let p' := snd (analyzeStock p) in
  (exists t, trimmed_of (default "" (value p !! "tickerInput")) t
             /\ ticker = JsString.toUpperCase t
             /\ uppercased_of t ticker) /\
  (forall t u, trimmed_of (default "" (value p !! "tickerInput")) t ->
               uppercased_of t u -> u = ticker) /\
  JsString.forall_chars (fun c => negb (JsString.is_lower c)) ticker = true /\
  (ticker = "" ->
   requests p' = requests p /\
   textContent p' !! "error" = Some "Please enter a ticker symbol" /\
   "error" ∉ hidden p') /\
  (ticker <> "" ->
   requests p'
   = (requests p
      ++ [Request "/api/analyze" "POST" [("Content-Type", "application/json")]
            (JsonBody (VObj [("ticker", VStr ticker)]))])%list).
Proof.
  intros _ ticker p'. subst ticker p'.
  split; [eexists; split;
          [apply trim_spec
          | split; [reflexivity | apply toUpperCase_uppercased]]|].
  split; [intros t u Ht Hu; apply normalized_of_unique; now exists t|].
  split; [apply toUpperCase_no_lower|]. split.
  - intros H. rewrite (analyzeStock_empty p H), showError_spec. simpl.
    split; [reflexivity|]. split; [apply lookup_insert_eq|].
    apply not_elem_of_removed.
  - intros H. rewrite (analyzeStock_nonempty p H).
    rewrite (keeps_after_body requests).
    + now rewrite analyzeStock_try_requests.
    + apply analyzeStock_catch_keeps_requests.
    + apply analyzeStock_finally_keeps_requests.
Qed.

(** ** Stock analysis: failures *)

(** The [try] statement of [analyzeStock] when its body throws: the
    message is shown, the error logged, and the controls restored. *)
Lemma analyzeStock_caught (ticker : string) (q q1 : page) (e : error) :
  analyzeStock_try ticker q = (Throw e, q1) ->
  try_catch_finally (analyzeStock_try ticker) analyzeStock_catch
    analyzeStock_finally q
  = (Normal tt,
     with_disabled (fun d => d ∖ {["analyzeBtn"]})
       (with_hidden (fun h => {["loading"]} ∪ h)
          (with_console (fun l => (l ++ [("Analysis error:", e)])%list)
             (error_shown
                (message_or e "Failed to analyze stock. Please try again.")
                q1)))).
Proof. intros H. unfold try_catch_finally. now rewrite H. Qed.

(** A non-2xx response whose body is a JSON object makes the body of the
    [try] throw an [Error] made from [detail], or from the fixed text. *)
Lemma analyzeStock_try_not_ok (ticker : string) (q : page)
    (props : list (string * jsval)) :
  network (analyze_request ticker)
  = Normal (Response false (Normal (VObj props))) ->
  analyzeStock_try ticker q
  = (Throw (Error (ToString (or_else (assoc "detail" props)
                                     (VStr "Analysis failed")))),
     with_requests (fun l => (l ++ [analyze_request ticker])%list) q).
Proof.
  intros H. unfold analyzeStock_try, fetch.
  unfold bind at 1. unfold bind at 1. simpl. unfold lift. now rewrite H.
Qed.

Lemma message_or_nonempty (s fallback : string) :
  s <> "" -> message_or (Error s) fallback = s.
Proof.
  intros H. unfold message_or. simpl. apply String.eqb_neq in H.
  now rewrite H.
Qed.



Lemma message_or_empty (fallback : string) :
  message_or (Error "") fallback = fallback.
Proof. reflexivity. Qed.


(** ** PDF analysis: the request *)

Lemma analyzePDF_catch_keeps_requests (e : error) :
  keeps requests (analyzePDF_catch e).
Proof. unfold analyzePDF_catch, showError, console_error. keeps_auto. Qed.

Lemma analyzePDF_finally_keeps_requests : keeps requests analyzePDF_finally.
Proof. unfold analyzePDF_finally. keeps_auto. Qed.

(** The part of the [try] block that follows the choice of endpoint. *)
Lemma analyzePDF_send_requests (r : request) (k : response -> js unit)
    (q : page) :
  (forall response, keeps requests (k response)) ->
  requests (snd (bind (fetch r) k q)) = (requests q ++ [r])%list.
Proof.
  intros H. rewrite (keeps_after requests); [apply fetch_requests | exact H].
Qed.

Lemma analyzePDF_try_plain (file : File.t) (q : page) :
  "useStockContext" ∉ checked q ->
  requests (snd (analyzePDF_try file q))
  = (requests q
     ++ [pdf_request "/api/analyze-pdf"
           [("file", FormFile file);
            ("analysis_type",
             FormText (default "" (value q !! "analysisType")))]])%list.
Proof.
  intros H. unfold analyzePDF_try. unfold bind at 1. simpl.
  rewrite (bool_decide_eq_false_2 _ H).
  unfold bind at 1. simpl.
  apply analyzePDF_send_requests.
  intros response. keeps_auto. apply displayPDFResults_keeps_requests.
Qed.

Lemma analyzePDF_try_with_stock (file : File.t) (q : page) :
  "useStockContext" ∈ checked q ->
  ticker_of "contextTicker" q <> "" ->
  requests (snd (analyzePDF_try file q))
  = (requests q
     ++ [pdf_request "/api/analyze-pdf-with-stock"
           [("file", FormFile file);
            ("ticker", FormText (ticker_of "contextTicker" q))]])%list.
Proof.
  intros H Ht. apply String.eqb_neq in Ht.
  unfold analyzePDF_try, ticker_of in *. unfold bind at 1. simpl.
  rewrite (bool_decide_eq_true_2 _ H).
  unfold bind at 1. unfold bind at 1. simpl. rewrite Ht.
  apply analyzePDF_send_requests.
  intros response. keeps_auto. apply displayPDFResults_keeps_requests.
Qed.

Lemma analyzePDF_try_no_ticker (file : File.t) (q : page) :
  "useStockContext" ∈ checked q ->
  ticker_of "contextTicker" q = "" ->
  analyzePDF_try file q
  = (Throw (Error "Please enter a ticker symbol for stock context"), q).
Proof.
  intros H Ht.
  unfold analyzePDF_try, ticker_of in *. unfold bind at 1. simpl.
  rewrite (bool_decide_eq_true_2 _ H).
  unfold bind at 1. unfold bind at 1. simpl. now rewrite Ht.
Qed.

Lemma analyzePDF_caught (file : File.t) (q q1 : page) (e : error) :
  analyzePDF_try file q = (Throw e, q1) ->
  try_catch_finally (analyzePDF_try file) analyzePDF_catch
    analyzePDF_finally q
  = (Normal tt,
     with_disabled (fun d => d ∖ {["analyzePdfBtn"]})
       (with_hidden (fun h => {["loading"]} ∪ h)
          (with_console (fun l => (l ++ [("PDF analysis error:", e)])%list)
             (error_shown
                (message_or e "Failed to analyze PDF. Please try again.")
                q1)))).
Proof. intros H. unfold try_catch_finally. now rewrite H. Qed.


(** ** Normal completion *)












(** ** What a normal completion ensures *)

Lemma ensures_bind {A C} (Q : page -> Prop) (c : js A) (k : A -> js C) :
  (forall a, ensures Q (k a)) -> ensures Q (bind c k).
Proof.
  intros Hk p b. unfold bind. destruct (c p) as [[a|e] p1]; simpl.
  - apply Hk.
  - discriminate.
Qed.


Lemma ensures_always {A} (Q : page -> Prop) (c : js A) :
  (forall p, Q (snd (c p))) -> ensures Q c.
Proof. intros H p a _. apply H. Qed.

(** ** Rendering the results *)

Lemma displayNews_keeps {B} (f : page -> B) (news : jsval) :
  (forall g p, f (with_newsList g p) = f p) ->
  keeps f (displayNews news).
Proof. intros H. unfold displayNews. keeps_auto; apply H. Qed.

Lemma displayResults_shows_results (data : jsval) :
  ensures (fun p => "results" ∉ hidden p) (displayResults data).
Proof.
  unfold displayResults. repeat (apply ensures_bind; intros ?).
  apply ensures_always. intros p. apply not_elem_of_removed.
Qed.










(** The [try] statement of [analyzeStock] when its body completes. *)
Lemma analyzeStock_completed (ticker : string) (q q1 : page) :
  analyzeStock_try ticker q = (Normal tt, q1) ->
  try_catch_finally (analyzeStock_try ticker) analyzeStock_catch
    analyzeStock_finally q
  = (Normal tt,
     with_disabled (fun d => d ∖ {["analyzeBtn"]})
       (with_hidden (fun h => {["loading"]} ∪ h) q1)).
Proof. intros H. unfold try_catch_finally. now rewrite H. Qed.



(** ** The sentiment label *)

(** C5.  Whatever the raw model output, the sentiment the normalizer gives
    is one of Positive, Neutral, Negative.  It is Positive when the token
    positive occurs in the text, in any letter case; Negative when
    positive does not occur and negative does; and Neutral otherwise, that
    is when neutral is the only token occurring or none of the three
    occurs.  So a text with both positive and negative yields Positive,
    and a text with none of the tokens yields Neutral. *)
Theorem normalize_sentiment_three_valued_with_precedence (rawText : string) :
  In (sentiment_label (normalize_sentiment rawText))
     ["Positive"; "Neutral"; "Negative"]
  /\ (occurs_ci "positive" rawText -> normalize_sentiment rawText = Positive)
  /\ (~ occurs_ci "positive" rawText -> occurs_ci "negative" rawText ->
      normalize_sentiment rawText = Negative)
  /\ (~ occurs_ci "positive" rawText -> ~ occurs_ci "negative" rawText ->
      normalize_sentiment rawText = Neutral)
  /\ (occurs_ci "positive" rawText -> occurs_ci "negative" rawText ->
      sentiment_label (normalize_sentiment rawText) = "Positive")
  /\ (~ occurs_ci "positive" rawText -> ~ occurs_ci "negative" rawText ->
      ~ occurs_ci "neutral" rawText ->
      sentiment_label (normalize_sentiment rawText) = "Neutral").
Proof.
  clear NumberToString TypeErrorMessage network.
  pose proof (includes_lower_spec rawText "positive" eq_refl) as Hpos.
  pose proof (includes_lower_spec rawText "negative" eq_refl) as Hneg.
  unfold normalize_sentiment.
  destruct (JsString.includes (JsString.toLowerCase rawText) "positive");
    destruct (JsString.includes (JsString.toLowerCase rawText) "negative");
    destruct (JsString.includes (JsString.toLowerCase rawText) "neutral");
    simpl; intuition (try discriminate; try reflexivity).
Qed.

(** * Further properties of the script *)

(** ** Stock analysis: what is shown when the request fails *)

Lemma analyzeStock_try_rejected (ticker : string) (q : page) (e : error) :
  network (analyze_request ticker) = Throw e ->
  analyzeStock_try ticker q
  = (Throw e,
     with_requests (fun l => (l ++ [analyze_request ticker])%list) q).
Proof.
  intros H. unfold analyzeStock_try, fetch.
  unfold bind at 1. unfold bind at 1. simpl. unfold lift. now rewrite H.
Qed.

Lemma analyzeStock_try_unreadable (ticker : string) (q : page) (status : bool)
    (e : error) :
  network (analyze_request ticker) = Normal (Response status (Throw e)) ->
  analyzeStock_try ticker q
  = (Throw e,
     with_requests (fun l => (l ++ [analyze_request ticker])%list) q).
Proof.
  intros H. unfold analyzeStock_try, fetch.
  unfold bind at 1. unfold bind at 1. simpl. unfold lift. rewrite H.
  now destruct status.
Qed.

(** X1. When the request of [analyzeStock] is rejected (no network), or
    the body of the response cannot be read as JSON, whatever the status,
    the user is shown the message of that error, or the text "Failed to
    analyze stock. Please try again." when the error has no message; the
    error is logged to the console, and the results panel stays hidden
    with its previous contents untouched. *)
Theorem analyzeStock_failure_shows_message_or_fallback (p : page)
    (e : error) :
  ticker_of "tickerInput" p <> "" ->
  network (analyze_request (ticker_of "tickerInput" p)) = Throw e
  \/ (exists status,
        network (analyze_request (ticker_of "tickerInput" p))
        = Normal (Response status (Throw e))) ->
  let p' := snd (analyzeStock p) in
  (message e <> "" -> textContent p' !! "error" = Some (message e)) /\
  (message e = "" ->
   textContent p' !! "error"
   = Some "Failed to analyze stock. Please try again.") /\
  ("error" ∉ hidden p') /\
  "results" ∈ hidden p' /\
  console p' = (console p ++ [("Analysis error:", e)])%list /\
  newsList p' = newsList p /\
  textContent p' !! "stockName" = textContent p !! "stockName" /\
  textContent p' !! "stockPrice" = textContent p !! "stockPrice".
Proof.
  intros Ht Hnet p'. subst p'.
  rewrite (analyzeStock_nonempty p Ht).
  assert (analyzeStock_try (ticker_of "tickerInput" p)
            (entering "results" "analyzeBtn" p)
          = (Throw e,
             with_requests
               (fun l => (l ++ [analyze_request
                                  (ticker_of "tickerInput" p)])%list)
               (entering "results" "analyzeBtn" p))) as Htry.
  { destruct Hnet as [H|[status H]].
    - now apply analyzeStock_try_rejected.
    - now apply (analyzeStock_try_unreadable _ _ status). }
  rewrite (analyzeStock_caught _ _ _ _ Htry). simpl.
  split; [|split; [|split; [|split; [|split; [|split; [|split]]]]]].
  - intros Hm. rewrite lookup_insert_eq. f_equal.
    destruct e as [m]. now apply message_or_nonempty.
  - intros Hm. rewrite lookup_insert_eq. f_equal.
    unfold message_or. now rewrite Hm.
  - rewrite elem_of_added_other by discriminate. apply not_elem_of_removed.
  - rewrite elem_of_added_other by discriminate.
    rewrite !elem_of_removed_other by discriminate.
    rewrite elem_of_added_other by discriminate. apply elem_of_added.
  - reflexivity.
  - reflexivity.
  - now rewrite lookup_insert_ne by discriminate.
  - now rewrite lookup_insert_ne by discriminate.
Qed.

(** ** Frames of the rendering functions *)

Section KeepsOnThrow.

Context {B : Type} (f : page -> B).

Lemma keeps_on_throw_modify (g : page -> page) : keeps_on_throw f (modify g).
Proof. intros p e H. discriminate H. Qed.

Lemma keeps_on_throw_keeps {A} (c : js A) : keeps f c -> keeps_on_throw f c.
Proof. intros H p e _. apply H. Qed.

Lemma keeps_on_throw_bind {A C} (c : js A) (k : A -> js C) :
  keeps f c -> (forall a, keeps_on_throw f (k a)) ->
  keeps_on_throw f (bind c k).
Proof.
  intros Hc Hk p e. unfold bind. specialize (Hc p).
  destruct (c p) as [[a|e'] p1]; simpl in *.
  - intros H. now rewrite (Hk a p1 e H).
  - intros _. exact Hc.
Qed.

(** What [displayResults] writes: texts, classes, the news list, and the
    visibility of the results panel. *)
Lemma displayResults_keeps (data : jsval) :
  (forall g p, f (with_textContent g p) = f p) ->
  (forall g p, f (with_className g p) = f p) ->
  (forall g p, f (with_newsList g p) = f p) ->
  (forall p, f (with_hidden (fun h => h ∖ {["results"]}) p) = f p) ->
  keeps f (displayResults data).
Proof.
  intros Ht Hc Hn Hh. unfold displayResults.
  repeat keeps_step; try apply Ht; try apply Hc; try apply Hh.
  now apply displayNews_keeps.
Qed.

(** Until its last statement [displayResults] does not touch what
    showing the panel would change. *)
Lemma displayResults_keeps_on_throw (data : jsval) :
  (forall g p, f (with_textContent g p) = f p) ->
  (forall g p, f (with_className g p) = f p) ->
  (forall g p, f (with_newsList g p) = f p) ->
  keeps_on_throw f (displayResults data).
Proof.
  intros Ht Hc Hn. unfold displayResults.
  repeat (apply keeps_on_throw_bind;
          [repeat keeps_step; try apply Ht; try apply Hc;
           try (now apply displayNews_keeps)
          | intros ?]).
  apply keeps_on_throw_modify.
Qed.

Lemma fetch_keeps (r : request) :
  (forall g p, f (with_requests g p) = f p) -> keeps f (fetch r).
Proof. intros H. unfold fetch. repeat keeps_step. apply H. Qed.

Lemma analyzeStock_try_keeps (ticker : string) :
  (forall g p, f (with_requests g p) = f p) ->
  (forall data, keeps f (displayResults data)) ->
  keeps f (analyzeStock_try ticker).
Proof.
  intros Hr Hd. unfold analyzeStock_try.
  apply keeps_bind; [now apply fetch_keeps|]. intros response.
  repeat keeps_step. apply Hd.
Qed.

Lemma analyzeStock_try_keeps_on_throw (ticker : string) :
  (forall g p, f (with_requests g p) = f p) ->
  (forall data, keeps_on_throw f (displayResults data)) ->
  keeps_on_throw f (analyzeStock_try ticker).
Proof.
  intros Hr Hd. unfold analyzeStock_try.
  apply keeps_on_throw_bind; [now apply fetch_keeps|]. intros response.
  apply keeps_on_throw_bind; [repeat keeps_step|]. intros _.
  apply keeps_on_throw_bind; [repeat keeps_step|]. intros data.
  apply Hd.
Qed.

End KeepsOnThrow.

Lemma bool_decide_elem_removed_other (x y : string) (s : gset string) :
  x <> y -> bool_decide (x ∈ s ∖ {[y]}) = bool_decide (x ∈ s).
Proof. intros H. now apply bool_decide_ext, elem_of_removed_other. Qed.

Lemma analyzeStock_try_shows_results (ticker : string) :
  ensures (fun p => "results" ∉ hidden p) (analyzeStock_try ticker).
Proof.
  unfold analyzeStock_try. do 3 (apply ensures_bind; intros ?).
  apply displayResults_shows_results.
Qed.

(** X2. [analyzeStock] with a non-empty ticker ends in one of two states,
    whatever the network does and whatever the response holds: the results
    panel visible and the error element hidden, with no timeout set; or the
    error element visible, with its timeout, and the results panel hidden.
    Never both, never neither. *)
Theorem analyzeStock_shows_results_or_error (p : page) :
  ticker_of "tickerInput" p <> "" ->
  let p' := snd (analyzeStock p) in
  (("results" ∉ hidden p') /\ "error" ∈ hidden p' /\ timers p' = timers p)
  \/
  ("results" ∈ hidden p' /\ ("error" ∉ hidden p') /\
   timers p'
   = (timers p ++ [((clock p + 5000)%N, HideElement "error")])%list).
Proof.
  intros Ht p'. subst p'. rewrite (analyzeStock_nonempty p Ht).
  set (t := ticker_of "tickerInput" p).
  set (q := entering "results" "analyzeBtn" p).
  assert (keeps timers (analyzeStock_try t)) as Htimers
    by (apply analyzeStock_try_keeps; [reflexivity|];
        intros; now apply displayResults_keeps).
  assert (keeps clock (analyzeStock_try t)) as Hclock
    by (apply analyzeStock_try_keeps; [reflexivity|];
        intros; now apply displayResults_keeps).
  destruct (analyzeStock_try t q) as [[[]|e] q1] eqn:Htry.
  - left. rewrite (analyzeStock_completed _ _ _ Htry). simpl.
    pose proof (analyzeStock_try_shows_results t q tt) as Hres.
    rewrite Htry in Hres. specialize (Hres eq_refl). simpl in Hres.
    assert (keeps (fun q => bool_decide ("error" ∈ hidden q))
              (analyzeStock_try t)) as Herr.
    { apply analyzeStock_try_keeps; [reflexivity|].
      intros. apply displayResults_keeps; try reflexivity.
      intros q0. simpl. now apply bool_decide_elem_removed_other. }
    specialize (Herr q). rewrite Htry in Herr. simpl in Herr.
    specialize (Htimers q). rewrite Htry in Htimers. simpl in Htimers.
    split; [now rewrite elem_of_added_other by discriminate|].
    split; [|exact Htimers].
    rewrite elem_of_added_other by discriminate.
    apply (bool_decide_eq_true_1 _). rewrite Herr.
    apply (bool_decide_eq_true_2 _).
    rewrite elem_of_removed_other by discriminate. apply elem_of_added.
  - right. rewrite (analyzeStock_caught _ _ _ _ Htry). simpl.
    assert (keeps_on_throw hidden (analyzeStock_try t)) as Hh.
    { apply analyzeStock_try_keeps_on_throw; [reflexivity|].
      intros. now apply displayResults_keeps_on_throw. }
    specialize (Hh q e). rewrite Htry in Hh. specialize (Hh eq_refl).
    simpl in Hh.
    specialize (Htimers q). rewrite Htry in Htimers. simpl in Htimers.
    specialize (Hclock q). rewrite Htry in Hclock. simpl in Hclock.
    split; [|split].
    + rewrite elem_of_added_other by discriminate.
      rewrite elem_of_removed_other by discriminate. rewrite Hh.
      rewrite elem_of_removed_other by discriminate.
      rewrite elem_of_added_other by discriminate. apply elem_of_added.
    + rewrite elem_of_added_other by discriminate.
      apply not_elem_of_removed.
    + now rewrite Htimers, Hclock.
Qed.

(** ** PDF analysis: outcome *)

Section KeepsPDF.

Context {B : Type} (f : page -> B).

Lemma displayPDFResults_keeps (data : jsval) :
  (forall g p, f (with_textContent g p) = f p) ->
  (forall p, f (with_hidden (fun h => h ∖ {["pdfResults"]}) p) = f p) ->
  keeps f (displayPDFResults data).
Proof.
  intros Ht Hh. unfold displayPDFResults.
  repeat keeps_step; try apply Ht; try apply Hh.
Qed.

Lemma displayPDFResults_keeps_on_throw (data : jsval) :
  (forall g p, f (with_textContent g p) = f p) ->
  keeps_on_throw f (displayPDFResults data).
Proof.
  intros Ht. unfold displayPDFResults.
  repeat (apply keeps_on_throw_bind;
          [repeat keeps_step; try apply Ht | intros ?]).
  apply keeps_on_throw_modify.
Qed.

Lemma analyzePDF_try_keeps (file : File.t) :
  (forall g p, f (with_requests g p) = f p) ->
  (forall data, keeps f (displayPDFResults data)) ->
  keeps f (analyzePDF_try file).
Proof.
  intros Hr Hd. unfold analyzePDF_try.
  apply keeps_bind; [keeps_step|]. intros useStockContext.
  apply keeps_bind; [repeat keeps_step|]. intros target.
  apply keeps_bind; [now apply fetch_keeps|]. intros response.
  repeat keeps_step. apply Hd.
Qed.

Lemma analyzePDF_try_keeps_on_throw (file : File.t) :
  (forall g p, f (with_requests g p) = f p) ->
  (forall data, keeps_on_throw f (displayPDFResults data)) ->
  keeps_on_throw f (analyzePDF_try file).
Proof.
  intros Hr Hd. unfold analyzePDF_try.
  apply keeps_on_throw_bind; [keeps_step|]. intros useStockContext.
  apply keeps_on_throw_bind; [repeat keeps_step|]. intros target.
  apply keeps_on_throw_bind; [now apply fetch_keeps|]. intros response.
  apply keeps_on_throw_bind; [repeat keeps_step|]. intros _.
  apply keeps_on_throw_bind; [repeat keeps_step|]. intros data.
  apply Hd.
Qed.

End KeepsPDF.

Lemma displayPDFResults_shows_results (data : jsval) :
  ensures (fun p => "pdfResults" ∉ hidden p) (displayPDFResults data).
Proof.
  unfold displayPDFResults. repeat (apply ensures_bind; intros ?).
  apply ensures_always. intros p. apply not_elem_of_removed.
Qed.

Lemma analyzePDF_try_shows_results (file : File.t) :
  ensures (fun p => "pdfResults" ∉ hidden p) (analyzePDF_try file).
Proof.
  unfold analyzePDF_try. do 5 (apply ensures_bind; intros ?).
  apply displayPDFResults_shows_results.
Qed.

(** The [try] statement of [analyzePDF] when its body completes. *)
Lemma analyzePDF_completed (file : File.t) (q q1 : page) :
  analyzePDF_try file q = (Normal tt, q1) ->
  try_catch_finally (analyzePDF_try file) analyzePDF_catch
    analyzePDF_finally q
  = (Normal tt,
     with_disabled (fun d => d ∖ {["analyzePdfBtn"]})
       (with_hidden (fun h => {["loading"]} ∪ h) q1)).
Proof. intros H. unfold try_catch_finally. now rewrite H. Qed.

(** X3. [analyzePDF] with a file selected ends in one of two states,
    whatever the form holds, the network does and the response contains:
    the PDF results panel visible and the error element hidden, with no
    timeout set; or the error element visible, with its timeout, and the
    PDF results panel hidden. *)
Theorem analyzePDF_shows_results_or_error (p : page) (file : File.t) :
  selectedFile p = Some file ->
  let p' := snd (analyzePDF p) in
  (("pdfResults" ∉ hidden p') /\ "error" ∈ hidden p' /\ timers p' = timers p)
  \/
  ("pdfResults" ∈ hidden p' /\ ("error" ∉ hidden p') /\
   timers p'
   = (timers p ++ [((clock p + 5000)%N, HideElement "error")])%list).
Proof.
  intros Hsel p'. subst p'. rewrite (analyzePDF_some p file Hsel).
  set (q := entering "pdfResults" "analyzePdfBtn" p).
  assert (keeps timers (analyzePDF_try file)) as Htimers
    by (apply analyzePDF_try_keeps; [reflexivity|];
        intros; now apply displayPDFResults_keeps).
  assert (keeps clock (analyzePDF_try file)) as Hclock
    by (apply analyzePDF_try_keeps; [reflexivity|];
        intros; now apply displayPDFResults_keeps).
  destruct (analyzePDF_try file q) as [[[]|e] q1] eqn:Htry.
  - left. rewrite (analyzePDF_completed _ _ _ Htry). simpl.
    pose proof (analyzePDF_try_shows_results file q tt) as Hres.
    rewrite Htry in Hres. specialize (Hres eq_refl). simpl in Hres.
    assert (keeps (fun q => bool_decide ("error" ∈ hidden q))
              (analyzePDF_try file)) as Herr.
    { apply analyzePDF_try_keeps; [reflexivity|].
      intros. apply displayPDFResults_keeps; try reflexivity.
      intros q0. simpl. now apply bool_decide_elem_removed_other. }
    specialize (Herr q). rewrite Htry in Herr. simpl in Herr.
    specialize (Htimers q). rewrite Htry in Htimers. simpl in Htimers.
    split; [now rewrite elem_of_added_other by discriminate|].
    split; [|exact Htimers].
    rewrite elem_of_added_other by discriminate.
    apply (bool_decide_eq_true_1 _). rewrite Herr.
    apply (bool_decide_eq_true_2 _).
    rewrite elem_of_removed_other by discriminate. apply elem_of_added.
  - right. rewrite (analyzePDF_caught _ _ _ _ Htry). simpl.
    assert (keeps_on_throw hidden (analyzePDF_try file)) as Hh.
    { apply analyzePDF_try_keeps_on_throw; [reflexivity|].
      intros. now apply displayPDFResults_keeps_on_throw. }
    specialize (Hh q e). rewrite Htry in Hh. specialize (Hh eq_refl).
    simpl in Hh.
    specialize (Htimers q). rewrite Htry in Htimers. simpl in Htimers.
    specialize (Hclock q). rewrite Htry in Hclock. simpl in Hclock.
    split; [|split].
    + rewrite elem_of_added_other by discriminate.
      rewrite elem_of_removed_other by discriminate. rewrite Hh.
      rewrite elem_of_removed_other by discriminate.
      rewrite elem_of_added_other by discriminate. apply elem_of_added.
    + rewrite elem_of_added_other by discriminate.
      apply not_elem_of_removed.
    + now rewrite Htimers, Hclock.
Qed.

(** ** PDF analysis: failures *)

Lemma detail_or_generic (detail : jsval) (generic fallback : string) :
  generic <> "" ->
  (forall s, detail = VStr s -> s <> "" ->
     message_or (Error (ToString (or_else detail (VStr generic)))) fallback
     = s)
  /\
  (detail = VUndefined \/ detail = VNull \/ detail = VStr "" ->
     message_or (Error (ToString (or_else detail (VStr generic)))) fallback
     = generic).
Proof.
  intros Hg. apply String.eqb_neq in Hg as Hg'. split.
  - intros s -> Hs. unfold or_else. simpl.
    apply String.eqb_neq in Hs as Hs'. rewrite Hs'. simpl.
    now apply message_or_nonempty.
  - intros [-> | [-> | ->]]; unfold or_else, message_or; simpl; now rewrite Hg'.
Qed.

Lemma analyzePDF_try_not_ok (file : File.t) (q : page)
    (props : list (string * jsval)) :
  (forall r, network r = Normal (Response false (Normal (VObj props)))) ->
  "useStockContext" ∉ checked q \/ ticker_of "contextTicker" q <> "" ->
  exists r,
    analyzePDF_try file q
    = (Throw (Error (ToString (or_else (assoc "detail" props)
                                       (VStr "PDF analysis failed")))),
       with_requests (fun l => (l ++ [r])%list) q).
Proof.
  intros Hnet Hform. unfold analyzePDF_try, ticker_of in *.
  unfold bind at 1. simpl.
  destruct (bool_decide ("useStockContext" ∈ checked q)) eqn:Hc.
  - destruct Hform as [Hform|Hform];
      [now apply bool_decide_eq_true_1 in Hc|].
    apply String.eqb_neq in Hform.
    unfold bind at 1. unfold bind at 1. simpl. rewrite Hform.
    eexists. unfold fetch. unfold bind at 1. unfold bind at 1. simpl.
    unfold lift. now rewrite Hnet.
  - unfold bind at 1. simpl.
    eexists. unfold fetch. unfold bind at 1. unfold bind at 1. simpl.
    unfold lift. now rewrite Hnet.
Qed.

(** X4. When the server answers the request of [analyzePDF] with a non-2xx
    status and a JSON object, the message displayed is the object's
    [detail] string when that is present and not empty, and the text
    "PDF analysis failed" when [detail] is absent, null or empty; the PDF
    results panel stays hidden. *)
Theorem analyzePDF_not_ok_shows_detail_or_generic (p : page) (file : File.t)
    (props : list (string * jsval)) :
  selectedFile p = Some file ->
  "useStockContext" ∉ checked p \/ ticker_of "contextTicker" p <> "" ->
  (forall r, network r = Normal (Response false (Normal (VObj props)))) ->
  let p' := snd (analyzePDF p) in
  (forall s, assoc "detail" props = VStr s -> s <> "" ->
             textContent p' !! "error" = Some s) /\
  (assoc "detail" props = VUndefined \/ assoc "detail" props = VNull
   \/ assoc "detail" props = VStr "" ->
   textContent p' !! "error" = Some "PDF analysis failed") /\
  ("error" ∉ hidden p') /\
  "pdfResults" ∈ hidden p'.
Proof.
  intros Hsel Hform Hnet p'. subst p'. rewrite (analyzePDF_some p file Hsel).
  destruct (analyzePDF_try_not_ok file
              (entering "pdfResults" "analyzePdfBtn" p) props Hnet Hform)
    as [r Htry].
  rewrite (analyzePDF_caught _ _ _ _ Htry). simpl.
  destruct (detail_or_generic (assoc "detail" props) "PDF analysis failed"
              "Failed to analyze PDF. Please try again.") as [Hs Hg];
    [discriminate|].
  split; [|split; [|split]].
  - intros s Hd Hne. rewrite lookup_insert_eq. f_equal. now apply Hs.
  - intros Hd. rewrite lookup_insert_eq. f_equal. now apply Hg.
  - rewrite elem_of_added_other by discriminate. apply not_elem_of_removed.
  - rewrite elem_of_added_other by discriminate.
    rewrite !elem_of_removed_other by discriminate.
    rewrite elem_of_added_other by discriminate. apply elem_of_added.
Qed.

(** ** Rendering the news *)







(** ** Rendering the quote *)







(** ** Rendering the PDF analysis *)

(** Look a literal id up in a map built by writes to literal ids. *)
Ltac map_lookup :=
  repeat first [ rewrite lookup_insert_eq
               | rewrite lookup_insert_ne by discriminate ].

(** What [displayPDFResults] writes for an object. *)
Lemma displayPDFResults_object (props : list (string * jsval)) (p : page) :
  exists texts,
    displayPDFResults (VObj props) p
    = (Normal tt,
       with_hidden (fun h => h ∖ {["pdfResults"]})
         (with_textContent (fun _ => texts) p))
    /\ texts !! "pdfFileName"
       = Some ("📄 " ++ ToString (assoc "filename" props))
    /\ texts !! "pdfPages"
       = Some ((if ToBoolean (assoc "pages" props)
                then "📑 " ++ ToString (assoc "pages" props) ++ " pages"
                else "")
               ++ (if ToBoolean (assoc "ticker" props)
                   then " | 📈 " ++ ToString (assoc "ticker" props)
                   else ""))
    /\ texts !! "pdfAnalysisContent"
       = Some (text_of (assoc "analysis" props)).
Proof.
  unfold displayPDFResults. unfold bind, get_textContent, gets. simpl.
  destruct (ToBoolean (assoc "pages" props));
    destruct (ToBoolean (assoc "ticker" props)); simpl;
    eexists; (split; [reflexivity|]); simpl;
    repeat split; map_lookup; rewrite ?append_empty_r; reflexivity.
Qed.

(** X10. On [null], [displayPDFResults] throws before changing
    anything.  On every object whose fields convert to text, whatever
    fields it lacks, it completes normally and shows the PDF results
    panel, with the file name after "📄 " and the analysis as the content.
    The line under the file name is empty when [pages] is 0, null or
    absent and [ticker] is absent, null or empty; it is the page count,
    as "📑 n pages", for any other number of pages, and " | 📈 " with the
    ticker is appended for a ticker that is a string and not empty. *)
Theorem displayPDFResults_total_on_objects (p : page) :
  displayPDFResults VNull p = (Throw (TypeError "filename"), p)
  /\
  (forall props,
     converts (assoc "filename" props) = true ->
     converts (assoc "pages" props) = true ->
     converts (assoc "ticker" props) = true ->
     converts (assoc "analysis" props) = true ->
     let p' := snd (displayPDFResults (VObj props) p) in
     let no_pages :=
       assoc "pages" props = VUndefined \/ assoc "pages" props = VNull
       \/ exists s, assoc "pages" props = VNum (S754_zero s) in
     let no_ticker :=
       assoc "ticker" props = VUndefined \/ assoc "ticker" props = VNull
       \/ assoc "ticker" props = VStr "" in
     fst (displayPDFResults (VObj props) p) = Normal tt /\
     ("pdfResults" ∉ hidden p') /\
     (forall name, assoc "filename" props = VStr name ->
        textContent p' !! "pdfFileName" = Some ("📄 " ++ name)) /\
     (no_pages -> no_ticker -> textContent p' !! "pdfPages" = Some "") /\
     (no_pages ->
      forall t, assoc "ticker" props = VStr t -> t <> "" ->
        textContent p' !! "pdfPages" = Some (" | 📈 " ++ t)) /\
     (forall s m e, assoc "pages" props = VNum (S754_finite s m e) ->
        no_ticker ->
        textContent p' !! "pdfPages"
        = Some ("📑 " ++ NumberToString (S754_finite s m e) ++ " pages")) /\
     (forall s m e t, assoc "pages" props = VNum (S754_finite s m e) ->
        assoc "ticker" props = VStr t -> t <> "" ->
        textContent p' !! "pdfPages"
        = Some ("📑 " ++ NumberToString (S754_finite s m e)
                ++ " pages | 📈 " ++ t)) /\
     (forall a, assoc "analysis" props = VStr a ->
        textContent p' !! "pdfAnalysisContent" = Some a) /\
     (assoc "analysis" props = VUndefined \/ assoc "analysis" props = VNull ->
      textContent p' !! "pdfAnalysisContent" = Some "")).
Proof.
  split; [reflexivity|].
  intros props _ _ _ _ p' no_pages no_ticker. subst p' no_pages no_ticker.
  destruct (displayPDFResults_object props p)
    as (texts & -> & Hname & Hpages & Hanalysis).
  simpl. split; [reflexivity|]. split; [apply not_elem_of_removed|].
  assert (Hnp : assoc "pages" props = VUndefined
                \/ assoc "pages" props = VNull
                \/ (exists s, assoc "pages" props = VNum (S754_zero s)) ->
                ToBoolean (assoc "pages" props) = false)
    by (intros [H|[H|[s H]]]; now rewrite H).
  assert (Hnt : assoc "ticker" props = VUndefined
                \/ assoc "ticker" props = VNull
                \/ assoc "ticker" props = VStr "" ->
                ToBoolean (assoc "ticker" props) = false)
    by (intros [H|[H|H]]; now rewrite H).
  assert (Hst : forall t, assoc "ticker" props = VStr t -> t <> "" ->
                  ToBoolean (assoc "ticker" props) = true).
  { intros t H Ht. rewrite H. simpl. apply String.eqb_neq in Ht.
    now rewrite Ht. }
  split; [intros name H; now rewrite Hname, H|].
  split; [intros H1 H2; now rewrite Hpages, (Hnp H1), (Hnt H2)|].
  split; [intros H1 t H2 Ht;
          now rewrite Hpages, (Hnp H1), (Hst t H2 Ht), H2|].
  split.
  { intros sg m e H1 H2. rewrite Hpages, H1, (Hnt H2). simpl.
    now rewrite !append_empty_r. }
  split.
  { intros sg m e t H1 H2 Ht. rewrite Hpages, (Hst t H2 Ht), H1, H2. simpl.
    now rewrite !append_assoc. }
  split; [intros a H; now rewrite Hanalysis, H|].
  intros [H|H]; now rewrite Hanalysis, H.
Qed.

(** ** Errors in a row *)

Lemma run_callbacks_keeps {B} (f : page -> B) (l : list (N * callback)) :
  (forall g p, f (with_hidden g p) = f p) ->
  keeps f (forEach l (fun e => run_callback (snd e))).
Proof.
  intros H. apply keeps_forEach. intros [t [id]]. simpl.
  apply keeps_modify. intros p. apply H.
Qed.

Lemma advance_textContent (t : N) (p : page) :
  textContent (advance t p) = textContent p.
Proof. unfold advance. now rewrite (run_callbacks_keeps textContent). Qed.

Lemma advance_clock (t : N) (p : page) :
  clock (advance t p) = N.max t (clock p).
Proof. unfold advance. now rewrite (run_callbacks_keeps clock). Qed.

Lemma advance_timers (t : N) (p : page) :
  timers (advance t p)
  = List.filter (fun e => negb (fst e <=? t)%N) (timers p).
Proof. unfold advance. now rewrite (run_callbacks_keeps timers). Qed.

(** X11. The timeout of an error message is not cancelled by a later
    message.  When [showError] is called again [d] milliseconds after a
    first call, [d] being between 0 and 5000, the second message replaces the
    first and is visible, but the first call's timeout hides it at 5000 ms
    after the first call, that is after only [5000 - d] ms on screen; the
    second call's own timeout is then still pending. *)
Theorem showError_again_is_dismissed_early (first second : string) (p : page)
    (d : N) :
  (0 < d < 5000)%N ->
  let p1 := snd (showError first p) in
  let p2 := snd (showError second (advance (clock p + d) p1)) in
  let p3 := advance (clock p + 5000) p2 in
  textContent p2 !! "error" = Some second /\
  ("error" ∉ hidden p2) /\
  clock p2 = (clock p + d)%N /\
  "error" ∈ hidden p3 /\
  textContent p3 !! "error" = Some second /\
  clock p3 = (clock p2 + (5000 - d))%N /\
  In ((clock p2 + 5000)%N, HideElement "error") (timers p3).
Proof.
  intros Hd p1 p2 p3. subst p1 p2 p3. rewrite !showError_spec. simpl.
  assert (clock (advance (clock p + d) (error_shown first p))
          = (clock p + d)%N) as Hclock
    by (rewrite advance_clock;
        change (clock (error_shown first p)) with (clock p);
        apply N.max_l; lia).
  split; [apply lookup_insert_eq|]. split; [apply not_elem_of_removed|].
  split; [exact Hclock|]. split; [|split; [|split]].
  - apply advance_hidden. right. exists (clock p + 5000)%N.
    split; [lia|]. simpl. apply in_or_app. left.
    rewrite advance_timers. apply filter_In. simpl. split.
    + apply in_or_app. right. now left.
    + apply negb_true_iff, N.leb_gt. lia.
  - rewrite advance_textContent. simpl. apply lookup_insert_eq.
  - rewrite advance_clock. simpl. rewrite Hclock. rewrite N.max_l; lia.
  - rewrite advance_timers. apply filter_In. simpl. split.
    + apply in_or_app. right. now left.
    + rewrite Hclock. apply negb_true_iff, N.leb_gt. lia.
Qed.

(** ** The ticker as typed and as sent *)

Lemma ascii_blank_white_space (s : string) :
  ascii_blank s -> JsString.forall_chars JsString.is_white_space s = true.
Proof.
  unfold ascii_blank. induction s as [|c s IH]; simpl; [reflexivity|].
  intros H. inversion H as [|c0 l0 Hc Hs]; subst.
  rewrite (IH Hs), andb_true_r. unfold JsString.is_white_space.
  simpl in Hc.
  destruct Hc as [Hc|[Hc|[Hc|[Hc|[Hc|[Hc|[]]]]]]]; now rewrite <- Hc.
Qed.

Lemma N_upper_char (c : ascii) :
  N_of_ascii (JsString.upper_char c)
  = if ((97 <=? N_of_ascii c) && (N_of_ascii c <=? 122))%N
    then (N_of_ascii c - 32)%N else N_of_ascii c.
Proof.
  unfold JsString.upper_char, JsString.is_lower.
  destruct ((97 <=? N_of_ascii c) && (N_of_ascii c <=? 122))%N;
    [|reflexivity].
  apply N_ascii_embedding. pose proof (N_ascii_bounded c). lia.
Qed.

Lemma N_of_ascii_inj (c c' : ascii) : N_of_ascii c = N_of_ascii c' -> c = c'.
Proof.
  intros H. now rewrite <- (ascii_N_embedding c), H, ascii_N_embedding.
Qed.

Lemma same_up_to_case_upper (s s' : string) :
  same_up_to_case s s' ->
  JsString.toUpperCase s' = JsString.toUpperCase s.
Proof.
  clear NumberToString TypeErrorMessage network.
  unfold JsString.toUpperCase. revert s'.
  induction s as [|c s IH]; intros [|c' s']; simpl;
    [intros _; reflexivity | intros [] | intros [] |].
  intros [Hc Hs]. f_equal; [|now apply IH].
  apply N_of_ascii_inj. rewrite !N_upper_char.
  destruct Hc as [->|[[Hr Hc]|[Hr Hc]]]; [reflexivity| |].
  - rewrite Hc.
    destruct (N.leb_spec 97 (N_of_ascii c + 32));
      destruct (N.leb_spec (N_of_ascii c + 32) 122);
      destruct (N.leb_spec 97 (N_of_ascii c));
      destruct (N.leb_spec (N_of_ascii c) 122); simpl; lia.
  - rewrite Hc.
    destruct (N.leb_spec 97 (N_of_ascii c' + 32));
      destruct (N.leb_spec (N_of_ascii c' + 32) 122);
      destruct (N.leb_spec 97 (N_of_ascii c'));
      destruct (N.leb_spec (N_of_ascii c') 122); simpl; lia.
Qed.

(** X12. For an ASCII text, the ticker that [analyzeStock] and
    [analyzePDF] make of a field is the text without the white space
    around it, upper-cased.  It depends neither on TAB, LF, VT, FF, CR and
    SPACE characters around what was typed nor on the case of the letters
    a to z, and making a ticker of a ticker changes nothing: what was
    sent can be typed back and gives the same request. *)
Theorem normalize_ticker_insensitive (s : string) :
  JsString.is_ascii s = true ->
  (exists t, trimmed_of s t /\ uppercased_of t (normalize_ticker s))
  /\ (forall l r, ascii_blank l -> ascii_blank r ->
                  normalize_ticker (l ++ s ++ r) = normalize_ticker s)
  /\ (forall s', same_up_to_case s s' ->
                 normalize_ticker s' = normalize_ticker s)
  /\ normalize_ticker (normalize_ticker s) = normalize_ticker s
  /\ (forall id p, ticker_of id p
                   = normalize_ticker (default "" (value p !! id))).
Proof.
  intros _. unfold normalize_ticker.
  split; [|split; [|split; [|split]]].
  - exists (JsString.trim s).
    split; [apply trim_spec | apply toUpperCase_uppercased].
  - intros l r Hl Hr.
    now rewrite trim_space_around by (now apply ascii_blank_white_space).
  - intros s' Hs. unfold JsString.toUpperCase.
    rewrite <- !(trim_map _ _ upper_char_space).
    change (JsString.map_chars JsString.upper_char)
      with JsString.toUpperCase.
    now rewrite (same_up_to_case_upper s s' Hs).
  - unfold JsString.toUpperCase.
    rewrite (trim_map _ _ upper_char_space), trim_idem, map_chars_map_chars.
    apply map_chars_ext, upper_char_idem.
  - reflexivity.
Qed.

(** ** Tabs *)

Lemma deactivate_spec (buttons : list string) (a : gset string) (x : string) :
  x ∈ deactivate buttons a <-> x ∈ a /\ ~ In x buttons.
Proof.
  unfold deactivate. revert a.
  induction buttons as [|b buttons IH]; intros a; simpl.
  - tauto.
  - rewrite IH, elem_of_difference, elem_of_singleton. split.
    + intros [[Ha Hb] Hn]. split; [exact Ha|]. intros [H|H]; [|tauto].
      now apply Hb.
    + intros [Ha Hn]. split; [split; [exact Ha|]|]; intros H; apply Hn;
        [now left | now right].
Qed.

Lemma deactivate_loop (buttons : list string) (d : document) :
  ui_forEach buttons
    (fun btn => ui_modify (with_active (fun a => a ∖ {[btn]}))) d
  = (Normal tt, with_active (deactivate buttons) d).
Proof.
  unfold deactivate. revert d.
  induction buttons as [|b buttons IH]; intros d; simpl.
  - unfold ui_ret. now destruct d.
  - unfold ui_bind at 1. simpl. now rewrite IH.
Qed.

(** [switchTab] up to its last statement. *)
Lemma switchTab_spec (tab : jsval) (target : option string) (d : document) :
  switchTab tab target d
  = let d1 := with_active (deactivate (tab_buttons d))
                (with_page all_hidden d) in
    if strict_eq_string tab "stock" then
      activate_target target
        (with_page (with_hidden (fun h => h ∖ {["stockTab"]})) d1)
    else if strict_eq_string tab "pdf" then
      activate_target target
        (with_page (with_hidden (fun h => h ∖ {["pdfTab"]})) d1)
    else (Normal tt, d1).
Proof.
  unfold switchTab. do 6 (unfold ui_bind at 1; simpl).
  unfold ui_bind at 1. rewrite deactivate_loop. cbv zeta.
  destruct (strict_eq_string tab "stock");
    [|destruct (strict_eq_string tab "pdf")]; reflexivity.
Qed.

Lemma strict_eq_string_spec (v : jsval) (s : string) :
  strict_eq_string v s = true <-> v = VStr s.
Proof.
  destruct v; simpl; try (split; [discriminate | discriminate]).
  rewrite String.eqb_eq. split; [now intros -> | now intros [= ->]].
Qed.

(** X13. [switchTab] hides the results, the PDF results and the error,
    and leaves visible the stock tab exactly when its argument is the
    string "stock" and the PDF tab exactly when it is "pdf": never both,
    and neither for any other argument.  For those two arguments the
    class 'active' ends on the target of the event and on no other tab
    button; for any other argument no tab button is active.  Called
    outside of an event with "stock" or "pdf", it throws once the tab is
    switched. *)
Theorem switchTab_shows_selected_tab (tab : jsval) (target : option string)
    (d : document) :
  let d' := snd (switchTab tab target d) in
  "results" ∈ hidden (page_of d') /\
  "pdfResults" ∈ hidden (page_of d') /\
  "error" ∈ hidden (page_of d') /\
  ("stockTab" ∉ hidden (page_of d') <-> tab = VStr "stock") /\
  ("pdfTab" ∉ hidden (page_of d') <-> tab = VStr "pdf") /\
  (forall el, target = Some el -> tab = VStr "stock" \/ tab = VStr "pdf" ->
     fst (switchTab tab target d) = Normal tt /\
     forall x, x ∈ active d'
               <-> x = el \/ (x ∈ active d /\ ~ In x (tab_buttons d))) /\
  (target = None \/ (tab <> VStr "stock" /\ tab <> VStr "pdf") ->
     forall x, x ∈ active d' <-> x ∈ active d /\ ~ In x (tab_buttons d)) /\
  (target = None -> tab = VStr "stock" \/ tab = VStr "pdf" ->
     fst (switchTab tab target d) = Throw (TypeError "target")) /\
  (tab <> VStr "stock" -> tab <> VStr "pdf" ->
     fst (switchTab tab target d) = Normal tt).
Proof.
  intros d'. subst d'. rewrite switchTab_spec. cbv zeta.
  pose proof (strict_eq_string_spec tab "stock") as Hs.
  pose proof (strict_eq_string_spec tab "pdf") as Hp.
  destruct (strict_eq_string tab "stock") eqn:Es;
    [|destruct (strict_eq_string tab "pdf") eqn:Ep].
  - assert (tab = VStr "stock") as -> by now apply Hs.
    destruct target as [el|]; simpl;
      (split; [rewrite elem_of_removed_other by discriminate;
               rewrite !elem_of_added_other by discriminate;
               apply elem_of_added|]);
      (split; [rewrite elem_of_removed_other by discriminate;
               rewrite !elem_of_added_other by discriminate;
               apply elem_of_added|]);
      (split; [rewrite elem_of_removed_other by discriminate;
               apply elem_of_added|]);
      (split; [split; [reflexivity | intros _; apply not_elem_of_removed]|]);
      (split; [split; [intros H; exfalso; apply H;
                       rewrite elem_of_removed_other by discriminate;
                       rewrite !elem_of_added_other by discriminate;
                       apply elem_of_added
                      | discriminate]|]).
    + split; [|split; [|split]].
      * intros el' [= <-] _. split; [reflexivity|]. intros x.
        rewrite elem_of_union, elem_of_singleton, deactivate_spec.
        reflexivity.
      * intros [H|[H _]]; [discriminate | now exfalso; apply H].
      * discriminate.
      * intros H. now exfalso; apply H.
    + split; [|split; [|split]].
      * discriminate.
      * intros _ x. apply deactivate_spec.
      * reflexivity.
      * intros H. now exfalso; apply H.
  - assert (tab = VStr "pdf") as -> by now apply Hp.
    destruct target as [el|]; simpl;
      (split; [rewrite elem_of_removed_other by discriminate;
               rewrite !elem_of_added_other by discriminate;
               apply elem_of_added|]);
      (split; [rewrite elem_of_removed_other by discriminate;
               rewrite !elem_of_added_other by discriminate;
               apply elem_of_added|]);
      (split; [rewrite elem_of_removed_other by discriminate;
               apply elem_of_added|]);
      (split; [split; [intros H; exfalso; apply H;
                       rewrite elem_of_removed_other by discriminate;
                       rewrite !elem_of_added_other by discriminate;
                       apply elem_of_added
                      | discriminate]|]);
      (split; [split; [reflexivity | intros _; apply not_elem_of_removed]|]).
    + split; [|split; [|split]].
      * intros el' [= <-] _. split; [reflexivity|]. intros x.
        rewrite elem_of_union, elem_of_singleton, deactivate_spec.
        reflexivity.
      * intros [H|[_ H]]; [discriminate | now exfalso; apply H].
      * discriminate.
      * intros _ H. now exfalso; apply H.
    + split; [|split; [|split]].
      * discriminate.
      * intros _ x. apply deactivate_spec.
      * reflexivity.
      * intros _ H. now exfalso; apply H.
  - assert (tab <> VStr "stock") as Hns
      by (intros H; apply Hs in H; discriminate).
    assert (tab <> VStr "pdf") as Hnp
      by (intros H; apply Hp in H; discriminate).
    simpl.
    split; [rewrite !elem_of_added_other by discriminate;
            apply elem_of_added|].
    split; [rewrite !elem_of_added_other by discriminate;
            apply elem_of_added|].
    split; [apply elem_of_added|].
    split; [split; [intros H; exfalso; apply H;
                    rewrite !elem_of_added_other by discriminate;
                    apply elem_of_added
                   | intros H; now exfalso]|].
    split; [split; [intros H; exfalso; apply H;
                    rewrite !elem_of_added_other by discriminate;
                    apply elem_of_added
                   | intros H; now exfalso]|].
    split; [|split; [|split]].
    + intros el _ [H|H]; now exfalso.
    + intros _ x. apply deactivate_spec.
    + intros _ [H|H]; now exfalso.
    + reflexivity.
Qed.

Lemma deactivate_idem (buttons : list string) (a : gset string) (el : string) :
  {[el]} ∪ deactivate buttons ({[el]} ∪ deactivate buttons a)
  = {[el]} ∪ deactivate buttons a.
Proof.
  apply set_eq. intros x.
  rewrite !elem_of_union, !deactivate_spec, !elem_of_union, !deactivate_spec,
    !elem_of_singleton.
  tauto.
Qed.

Lemma deactivate_twice (buttons : list string) (a : gset string) :
  deactivate buttons (deactivate buttons a) = deactivate buttons a.
Proof.
  apply set_eq. intros x. rewrite !deactivate_spec. tauto.
Qed.

Lemma all_hidden_shown_idem (h : gset string) (tab : string) :
  tab = "stockTab" \/ tab = "pdfTab" ->
  ({["error"]} ∪ ({["pdfResults"]} ∪ ({["results"]} ∪ ({["pdfTab"]}
     ∪ ({["stockTab"]}
        ∪ ({["error"]} ∪ ({["pdfResults"]} ∪ ({["results"]}
            ∪ ({["pdfTab"]} ∪ ({["stockTab"]} ∪ h))))) ∖ {[tab]}))))) ∖ {[tab]}
  = ({["error"]} ∪ ({["pdfResults"]} ∪ ({["results"]} ∪ ({["pdfTab"]}
       ∪ ({["stockTab"]} ∪ h))))) ∖ {[tab]}.
Proof.
  intros Htab. apply set_eq. intros x.
  rewrite !elem_of_difference, !elem_of_union, !elem_of_difference,
    !elem_of_union, !elem_of_singleton.
  tauto.
Qed.

Lemma all_hidden_idem (h : gset string) :
  {["error"]} ∪ ({["pdfResults"]} ∪ ({["results"]} ∪ ({["pdfTab"]}
    ∪ ({["stockTab"]}
       ∪ ({["error"]} ∪ ({["pdfResults"]} ∪ ({["results"]}
           ∪ ({["pdfTab"]} ∪ ({["stockTab"]} ∪ h)))))))))
  = {["error"]} ∪ ({["pdfResults"]} ∪ ({["results"]} ∪ ({["pdfTab"]}
      ∪ ({["stockTab"]} ∪ h)))).
Proof.
  apply set_eq. intros x. rewrite !elem_of_union, !elem_of_singleton. tauto.
Qed.

(** What [switchTab] leaves is the document it found, up to the hidden
    elements, other than the loading indicator, and the active ones. *)
Lemma switchTab_shape (tab : jsval) (target : option string) (d : document) :
  exists (g : gset string -> gset string) (a : gset string),
    snd (switchTab tab target d)
    = with_active (fun _ => a) (with_page (with_hidden g) d)
    /\ forall h, "loading" ∈ g h <-> "loading" ∈ h.
Proof.
  rewrite switchTab_spec. cbv zeta.
  destruct (strict_eq_string tab "stock");
    [|destruct (strict_eq_string tab "pdf")].
  - exists (fun h => ({["error"]} ∪ ({["pdfResults"]} ∪ ({["results"]}
                      ∪ ({["pdfTab"]} ∪ ({["stockTab"]} ∪ h)))))
                     ∖ {["stockTab"]}).
    destruct target as [el|]; eexists; (split; [reflexivity|]); intros h;
      rewrite elem_of_removed_other by discriminate;
      now rewrite !elem_of_added_other by discriminate.
  - exists (fun h => ({["error"]} ∪ ({["pdfResults"]} ∪ ({["results"]}
                      ∪ ({["pdfTab"]} ∪ ({["stockTab"]} ∪ h)))))
                     ∖ {["pdfTab"]}).
    destruct target as [el|]; eexists; (split; [reflexivity|]); intros h;
      rewrite elem_of_removed_other by discriminate;
      now rewrite !elem_of_added_other by discriminate.
  - exists (fun h => {["error"]} ∪ ({["pdfResults"]} ∪ ({["results"]}
                     ∪ ({["pdfTab"]} ∪ ({["stockTab"]} ∪ h))))).
    eexists; (split; [reflexivity|]); intros h;
      now rewrite !elem_of_added_other by discriminate.
Qed.

Lemma switchTab_again (tab : jsval) (target : option string) (d : document) :
  switchTab tab target (snd (switchTab tab target d))
  = switchTab tab target d.
Proof.
  rewrite !switchTab_spec. cbv zeta.
  destruct (strict_eq_string tab "stock");
    [|destruct (strict_eq_string tab "pdf")];
    destruct target as [el|];
    cbv beta iota delta
      [activate_target ui_modify ui_throw snd with_active with_page
       all_hidden with_hidden page_of display active tab_buttons
       trendingChips listeners fetched textContent className value checked
       disabled hidden newsList selectedFile clock timers requests console].
  - rewrite deactivate_idem.
    rewrite (all_hidden_shown_idem _ "stockTab") by (now left).
    exact eq_refl.
  - rewrite deactivate_twice.
    rewrite (all_hidden_shown_idem _ "stockTab") by (now left).
    exact eq_refl.
  - rewrite deactivate_idem.
    rewrite (all_hidden_shown_idem _ "pdfTab") by (now right).
    exact eq_refl.
  - rewrite deactivate_twice.
    rewrite (all_hidden_shown_idem _ "pdfTab") by (now right).
    exact eq_refl.
  - rewrite deactivate_twice, all_hidden_idem. exact eq_refl.
  - rewrite deactivate_twice, all_hidden_idem. exact eq_refl.
Qed.

(** X14. [switchTab] changes nothing but the visibility of the two tabs,
    the results, the PDF results and the error, and the 'active' class:
    the selected file, the fields, the buttons' state, the loading
    indicator, the rendered texts, the pending timeouts and the requests
    are as before.  Switching to the same tab twice is the same as
    once. *)
Theorem switchTab_keeps_the_rest (tab : jsval) (target : option string)
    (d : document) :
  let d' := snd (switchTab tab target d) in
  selectedFile (page_of d') = selectedFile (page_of d) /\
  value (page_of d') = value (page_of d) /\
  checked (page_of d') = checked (page_of d) /\
  disabled (page_of d') = disabled (page_of d) /\
  textContent (page_of d') = textContent (page_of d) /\
  newsList (page_of d') = newsList (page_of d) /\
  timers (page_of d') = timers (page_of d) /\
  requests (page_of d') = requests (page_of d) /\
  ("loading" ∈ hidden (page_of d') <-> "loading" ∈ hidden (page_of d)) /\
  trendingChips d' = trendingChips d /\
  listeners d' = listeners d /\
  display d' = display d /\
  switchTab tab target d' = switchTab tab target d.
Proof.
  intros d'. subst d'.
  pose proof (switchTab_again tab target d) as Hagain.
  destruct (switchTab_shape tab target d) as (g & a & Hshape & Hloading).
  rewrite Hshape at 1 2 3 4 5 6 7 8 9 10 11 12.
  cbv beta iota delta
    [with_active with_page with_hidden page_of display active tab_buttons
     trendingChips listeners fetched textContent className value checked
     disabled hidden newsList selectedFile clock timers requests console].
  do 8 (split; [exact eq_refl|]). split; [apply Hloading|].
  split; [exact eq_refl|]. split; [exact eq_refl|]. split; [exact eq_refl|].
  exact Hagain.
Qed.

(** ** Trending chips *)

Lemma chips_loop (items : list jsval) (d : document) :
  ui_forEach items (fun ticker =>
    ui_modify (with_trendingChips
                 (fun l => (l ++ [make_chip ticker])%list))) d
  = (Normal tt,
     with_trendingChips (fun l => (l ++ map make_chip items)%list) d).
Proof.
  revert d. induction items as [|ticker items IH]; intros d; simpl.
  - unfold ui_ret, with_trendingChips. rewrite app_nil_r. now destruct d.
  - unfold ui_bind at 1. simpl. rewrite IH.
    unfold with_trendingChips. simpl. now rewrite <- app_assoc.
Qed.

(** The body of [loadTrendingStocks], by what the network gives. *)
Lemma loadTrendingStocks_try_spec (get : string -> completion response)
    (d : document) :
  loadTrendingStocks_try get d
  = let d1 := with_fetched (fun l => (l ++ ["/api/trending"])%list) d in
    match get "/api/trending" with
    | Throw e => (Throw e, d1)
    | Normal response =>
        match json response with
        | Throw e => (Throw e, d1)
        | Normal data =>
            let d2 := with_trendingChips (fun _ => []) d1 in
            match Get data "trending" with
            | Throw e => (Throw e, d2)
            | Normal (VArr items) =>
                (Normal tt,
                 with_trendingChips (fun _ => map make_chip items) d1)
            | Normal _ => (Throw (TypeError "forEach"), d2)
            end
        end
    end.
Proof.
  unfold loadTrendingStocks_try, fetch_get, ui_bind, ui_lift. cbv zeta.
  simpl.
  destruct (get "/api/trending") as [response|e]; [|reflexivity].
  destruct (json response) as [data|e]; [|reflexivity].
  destruct (Get data "trending") as [trending|e]; [|reflexivity].
  destruct trending; try reflexivity.
  now rewrite chips_loop.
Qed.

(** X15. [loadTrendingStocks] never throws and never tells the user of a
    failure: whatever the network gives, it completes normally, having
    made the one request, and the page is as before but for at most one
    more entry in the console, so no error message is shown and no timeout
    set.  When the request is rejected or the body cannot be read the
    chips are left as they were; when the body is read but holds no list
    under [trending] the chips are gone. *)
Theorem loadTrendingStocks_fails_silently (get : string -> completion response)
    (d : document) :
  let d' := snd (loadTrendingStocks get d) in
  fst (loadTrendingStocks get d) = Normal tt /\
  fetched d' = (fetched d ++ ["/api/trending"])%list /\
  (exists log,
     page_of d' = with_console (fun _ => log) (page_of d) /\
     (log = console (page_of d)
      \/ exists e,
           log = (console (page_of d)
                  ++ [("Error loading trending stocks:", e)])%list)) /\
  (forall e,
     get "/api/trending" = Throw e
     \/ (exists status, get "/api/trending"
                        = Normal (Response status (Throw e))) ->
     trendingChips d' = trendingChips d /\
     console (page_of d')
     = (console (page_of d) ++ [("Error loading trending stocks:", e)])%list)
  /\
  (forall status data,
     get "/api/trending" = Normal (Response status (Normal data)) ->
     (forall items, Get data "trending" <> Normal (VArr items)) ->
     trendingChips d' = [] /\
     exists e,
       console (page_of d')
       = (console (page_of d)
          ++ [("Error loading trending stocks:", e)])%list).
Proof.
  intros d'. subst d'.
  assert (Hlogged : forall e (d0 : document),
            page_of d0 = page_of d ->
            exists log,
              page_of (snd (on_page
                (console_error "Error loading trending stocks:" e) d0))
              = with_console (fun _ => log) (page_of d) /\
              (log = console (page_of d)
               \/ exists e0,
                    log = (console (page_of d)
                           ++ [("Error loading trending stocks:", e0)])%list)).
  { intros e d0 H0. eexists. split.
    - unfold on_page, console_error, modify. simpl. rewrite H0. reflexivity.
    - right. eexists. reflexivity. }
  assert (Hquiet : exists log,
            page_of d = with_console (fun _ => log) (page_of d) /\
            (log = console (page_of d)
             \/ exists e0,
                  log = (console (page_of d)
                         ++ [("Error loading trending stocks:", e0)])%list)).
  { exists (console (page_of d)). split; [now destruct (page_of d)|now left]. }
  unfold loadTrendingStocks, try_catch.
  rewrite loadTrendingStocks_try_spec. cbv zeta.
  destruct (get "/api/trending") as [[status [data|e]]|e] eqn:Hget; simpl.
  - destruct (Get data "trending") as [trending|e] eqn:Htr;
      [destruct trending eqn:Hv|]; simpl;
      (split; [reflexivity|]); (split; [reflexivity|]);
      (split; [first [exact Hquiet | apply (Hlogged _ _ eq_refl)]|]);
      (split; [intros e' [H|[st H]]; discriminate|]);
      intros st dat [= <- <-] Hnot;
      try (split; [reflexivity | eexists; reflexivity]).
    exfalso. apply (Hnot items). now rewrite Htr.
  - split; [reflexivity|]. split; [reflexivity|].
    split; [apply (Hlogged _ _ eq_refl)|].
    split.
    + intros e' [H|[st [= _ <-]]]; [discriminate|]. now split.
    + intros st dat H. discriminate.
  - split; [reflexivity|]. split; [reflexivity|].
    split; [apply (Hlogged _ _ eq_refl)|].
    split.
    + intros e' [[= <-]|[st H]]; [|discriminate]. now split.
    + intros st dat H. discriminate.
Qed.

(** X16. Whenever the body of the response holds a list under [trending]
    whose entries convert to text, [loadTrendingStocks] replaces the chips
    by one chip per entry, in the order of the list, each with the class
    "chip", the entry as its text (a string as it is, [null] as the empty
    text) and a click handler holding the entry; the chips there were are
    gone, and nothing is logged.  The status of the response plays no
    part: the script does not look at it. *)
Theorem loadTrendingStocks_renders_chips (get : string -> completion response)
    (d : document) (status : bool) (data : jsval) (items : list jsval) :
  get "/api/trending" = Normal (Response status (Normal data)) ->
  Get data "trending" = Normal (VArr items) ->
  forallb converts items = true ->
  loadTrendingStocks get d
  = (Normal tt,
     with_trendingChips
       (fun _ => map (fun ticker =>
                        Chip "chip" (text_of ticker) (ChipClick ticker))
                     items)
       (with_fetched (fun l => (l ++ ["/api/trending"])%list) d))
  /\ (forall t, text_of (VStr t) = t)
  /\ text_of VNull = "".
Proof.
  intros Hget Htr _. split; [|split; reflexivity].
  unfold loadTrendingStocks, try_catch.
  rewrite loadTrendingStocks_try_spec. cbv zeta.
  rewrite Hget. simpl. now rewrite Htr.
Qed.

(** ** Frames of the handlers *)

Lemma keeps_try_catch_finally {B} (f : page -> B) (body : js unit)
    (handler : error -> js unit) (final : js unit) :
  keeps f body -> (forall e, keeps f (handler e)) -> keeps f final ->
  keeps f (try_catch_finally body handler final).
Proof.
  intros Hb Hh Hf p. rewrite (keeps_after_body f) by assumption. apply Hb.
Qed.

Section HandlerFrames.

Context {B : Type} (f : page -> B).

Hypothesis Htext : forall g p, f (with_textContent g p) = f p.
Hypothesis Hclass : forall g p, f (with_className g p) = f p.
Hypothesis Hnews : forall g p, f (with_newsList g p) = f p.
Hypothesis Htimers : forall g p, f (with_timers g p) = f p.
Hypothesis Hrequests : forall g p, f (with_requests g p) = f p.
Hypothesis Hconsole : forall g p, f (with_console g p) = f p.

Lemma showError_keeps (message : string) :
  (forall p, f (with_hidden (fun h => h ∖ {["error"]}) p) = f p) ->
  keeps f (showError message).
Proof. intros H. unfold showError. repeat keeps_step; auto. Qed.

(** What [analyzeStock] may write besides texts, classes, the news list,
    timeouts, requests and the console: the visibility of the results, the
    error and the loading indicator, and the state of its button. *)
Lemma analyzeStock_keeps :
  (forall x p, In x ["results"; "error"; "loading"] ->
               f (with_hidden (fun h => {[x]} ∪ h) p) = f p) ->
  (forall x p, In x ["results"; "error"; "loading"] ->
               f (with_hidden (fun h => h ∖ {[x]}) p) = f p) ->
  (forall p, f (with_disabled (fun d => {["analyzeBtn"]} ∪ d) p) = f p) ->
  (forall p, f (with_disabled (fun d => d ∖ {["analyzeBtn"]}) p) = f p) ->
  keeps f analyzeStock.
Proof.
  intros Hhide Hshow Hdis Hen. unfold analyzeStock.
  apply keeps_bind; [keeps_step|]. intros input. cbv zeta.
  destruct (String.eqb _ "").
  - apply showError_keeps. intros p. apply Hshow. simpl. tauto.
  - cbn [hideElements forEach].
    apply keeps_bind;
      [repeat keeps_step; apply Hhide; simpl; tauto | intros _].
    apply keeps_bind; [keeps_step; apply Hshow; simpl; tauto | intros _].
    apply keeps_bind; [keeps_step; apply Hdis | intros _].
    apply keeps_try_catch_finally.
    + apply analyzeStock_try_keeps; [exact Hrequests|]. intros data.
      apply displayResults_keeps; auto.
      intros p. apply Hshow. simpl. tauto.
    + intros e. unfold analyzeStock_catch.
      apply keeps_bind; [|intros _; keeps_step; apply Hconsole].
      apply showError_keeps. intros p. apply Hshow. simpl. tauto.
    + unfold analyzeStock_finally.
      apply keeps_bind; [keeps_step; apply Hhide; simpl; tauto | intros _].
      keeps_step. apply Hen.
Qed.

Lemma analyzePDF_keeps :
  (forall x p, In x ["pdfResults"; "error"; "loading"] ->
               f (with_hidden (fun h => {[x]} ∪ h) p) = f p) ->
  (forall x p, In x ["pdfResults"; "error"; "loading"] ->
               f (with_hidden (fun h => h ∖ {[x]}) p) = f p) ->
  (forall p, f (with_disabled (fun d => {["analyzePdfBtn"]} ∪ d) p) = f p) ->
  (forall p, f (with_disabled (fun d => d ∖ {["analyzePdfBtn"]}) p) = f p) ->
  keeps f analyzePDF.
Proof.
  intros Hhide Hshow Hdis Hen. unfold analyzePDF.
  apply keeps_bind; [keeps_step|]. intros [file|].
  - cbn [hideElements forEach].
    apply keeps_bind;
      [repeat keeps_step; apply Hhide; simpl; tauto | intros _].
    apply keeps_bind; [keeps_step; apply Hshow; simpl; tauto | intros _].
    apply keeps_bind; [keeps_step; apply Hdis | intros _].
    apply keeps_try_catch_finally.
    + apply analyzePDF_try_keeps; [exact Hrequests|]. intros data.
      apply displayPDFResults_keeps; auto.
      intros p. apply Hshow. simpl. tauto.
    + intros e. unfold analyzePDF_catch.
      apply keeps_bind; [|intros _; keeps_step; apply Hconsole].
      apply showError_keeps. intros p. apply Hshow. simpl. tauto.
    + unfold analyzePDF_finally.
      apply keeps_bind; [keeps_step; apply Hhide; simpl; tauto | intros _].
      keeps_step. apply Hen.
  - apply showError_keeps. intros p. apply Hshow. simpl. tauto.
Qed.

End HandlerFrames.

Lemma keeps_member {A} (g : page -> gset string) (x : string) (c : js A)
    (p : page) :
  keeps (fun p => bool_decide (x ∈ g p)) c ->
  x ∈ g (snd (c p)) <-> x ∈ g p.
Proof.
  intros H. specialize (H p). simpl in H.
  split; intros Hx.
  - apply (bool_decide_eq_true_1 _). rewrite <- H.
    now apply (bool_decide_eq_true_2 _).
  - apply (bool_decide_eq_true_1 _). rewrite H.
    now apply (bool_decide_eq_true_2 _).
Qed.

Lemma bool_decide_elem_added_other (x y : string) (s : gset string) :
  x <> y -> bool_decide (x ∈ {[y]} ∪ s) = bool_decide (x ∈ s).
Proof. intros H. now apply bool_decide_ext, elem_of_added_other. Qed.

(** Membership in [hidden] of an element a handler does not show or
    hide. *)
Lemma analyzeStock_keeps_hidden (x : string) :
  ~ In x ["results"; "error"; "loading"] ->
  keeps (fun p => bool_decide (x ∈ hidden p)) analyzeStock.
Proof.
  intros Hx. apply analyzeStock_keeps; try reflexivity.
  - intros y p Hy. simpl. apply bool_decide_elem_added_other.
    intros ->. now apply Hx.
  - intros y p Hy. simpl. apply bool_decide_elem_removed_other.
    intros ->. now apply Hx.
Qed.

Lemma analyzeStock_keeps_disabled (x : string) :
  x <> "analyzeBtn" ->
  keeps (fun p => bool_decide (x ∈ disabled p)) analyzeStock.
Proof.
  intros Hx. apply analyzeStock_keeps; try reflexivity.
  - intros p. simpl. now apply bool_decide_elem_added_other.
  - intros p. simpl. now apply bool_decide_elem_removed_other.
Qed.

Lemma analyzePDF_keeps_hidden (x : string) :
  ~ In x ["pdfResults"; "error"; "loading"] ->
  keeps (fun p => bool_decide (x ∈ hidden p)) analyzePDF.
Proof.
  intros Hx. apply analyzePDF_keeps; try reflexivity.
  - intros y p Hy. simpl. apply bool_decide_elem_added_other.
    intros ->. now apply Hx.
  - intros y p Hy. simpl. apply bool_decide_elem_removed_other.
    intros ->. now apply Hx.
Qed.

Lemma analyzePDF_keeps_disabled (x : string) :
  x <> "analyzePdfBtn" ->
  keeps (fun p => bool_decide (x ∈ disabled p)) analyzePDF.
Proof.
  intros Hx. apply analyzePDF_keeps; try reflexivity.
  - intros p. simpl. now apply bool_decide_elem_added_other.
  - intros p. simpl. now apply bool_decide_elem_removed_other.
Qed.

(** X17. An analysis leaves the form as the user filled it in, whether it
    succeeds or fails and whatever the network does: after [analyzeStock]
    and after [analyzePDF] the values of the fields, the checkboxes and
    the selected file are what they were, so the same ticker or file can
    be analysed again.  Neither touches the panel or the button of the
    other: [analyzeStock] leaves the visibility of the PDF results and the
    state of the PDF button alone, [analyzePDF] those of the stock results
    and the stock button. *)
Theorem analysis_keeps_the_form (p : page) :
  let p1 := snd (analyzeStock p) in
  let p2 := snd (analyzePDF p) in
  (value p1 = value p /\ checked p1 = checked p /\
   selectedFile p1 = selectedFile p /\
   ("pdfResults" ∈ hidden p1 <-> "pdfResults" ∈ hidden p) /\
   ("analyzePdfBtn" ∈ disabled p1 <-> "analyzePdfBtn" ∈ disabled p))
  /\
  (value p2 = value p /\ checked p2 = checked p /\
   selectedFile p2 = selectedFile p /\
   ("results" ∈ hidden p2 <-> "results" ∈ hidden p) /\
   ("analyzeBtn" ∈ disabled p2 <-> "analyzeBtn" ∈ disabled p)).
Proof.
  intros p1 p2. subst p1 p2. split.
  - split; [now apply (analyzeStock_keeps value)|].
    split; [now apply (analyzeStock_keeps checked)|].
    split; [now apply (analyzeStock_keeps selectedFile)|].
    split.
    + apply keeps_member, analyzeStock_keeps_hidden.
      intros [H|[H|[H|[]]]]; discriminate.
    + apply keeps_member, analyzeStock_keeps_disabled. discriminate.
  - split; [now apply (analyzePDF_keeps value)|].
    split; [now apply (analyzePDF_keeps checked)|].
    split; [now apply (analyzePDF_keeps selectedFile)|].
    split.
    + apply keeps_member, analyzePDF_keeps_hidden.
      intros [H|[H|[H|[]]]]; discriminate.
    + apply keeps_member, analyzePDF_keeps_disabled. discriminate.
Qed.

(** ** Page load and the chips *)

Lemma click_chip_spec (ticker : jsval) (p : page) :
  click_chip ticker p
  = analyzeStock
      (with_value "tickerInput"
         (strip_line_breaks
            match ticker with VNull => "" | _ => ToString ticker end) p).
Proof. reflexivity. Qed.

Lemma analyzeStock_requests (p : page) :
  ticker_of "tickerInput" p <> "" ->
  requests (snd (analyzeStock p))
  = (requests p ++ [analyze_request (ticker_of "tickerInput" p)])%list.
Proof.
  intros H. rewrite (analyzeStock_nonempty p H).
  rewrite (keeps_after_body requests).
  - now rewrite analyzeStock_try_requests.
  - apply analyzeStock_catch_keeps_requests.
  - apply analyzeStock_finally_keeps_requests.
Qed.

(** X18. From the trending list to the request.  When the trending
    response holds the list [items], of entries that convert to text,
    every ASCII string [t] in it that is free of line breaks has a chip
    labelled [t] whose click handler puts [t] in the ticker field and has
    [analyzeStock] work on it, whatever the field held before and
    whichever event triggers the handler: the ticker is [t] without the
    white space around it, upper-cased; when it is not empty it is posted
    to /api/analyze, in one request, and when it is empty no request is
    made and the user is asked for a ticker. *)
Theorem chip_click_analyzes_its_ticker (get : string -> completion response)
    (d : document) (status : bool) (data : jsval) (items : list jsval)
    (t : string) :
  get "/api/trending" = Normal (Response status (Normal data)) ->
  Get data "trending" = Normal (VArr items) ->
  forallb converts items = true ->
  In (VStr t) items ->
  JsString.is_ascii t = true ->
  strip_line_breaks t = t ->
  (exists s ticker, trimmed_of t s /\ uppercased_of s ticker)
  /\
  exists c,
    In c (trendingChips (snd (loadTrendingStocks get d))) /\
    chip_textContent c = t /\
    forall key p,
      let p' := snd (call_listener (chip_onclick c) key p) in
      value p' !! "tickerInput" = Some t /\
      forall s ticker,
        trimmed_of t s -> uppercased_of s ticker ->
        (ticker <> "" ->
         requests p'
         = (requests p
            ++ [Request "/api/analyze" "POST"
                  [("Content-Type", "application/json")]
                  (JsonBody (VObj [("ticker", VStr ticker)]))])%list)
        /\ (ticker = "" ->
            requests p' = requests p /\
            textContent p' !! "error"
            = Some "Please enter a ticker symbol").
Proof.
  intros Hget Htr _ Hin _ Hlines. split.
  { exists (JsString.trim t), (JsString.toUpperCase (JsString.trim t)).
    split; [apply trim_spec | apply toUpperCase_uppercased]. }
  exists (make_chip (VStr t)).
  split; [|split; [reflexivity|]].
  - unfold loadTrendingStocks, try_catch.
    rewrite loadTrendingStocks_try_spec. cbv zeta.
    rewrite Hget. simpl. rewrite Htr. simpl. now apply in_map.
  - intros key p p'. subst p'. simpl chip_onclick. simpl call_listener.
    rewrite click_chip_spec. simpl ToString. rewrite Hlines.
    set (q := with_value "tickerInput" t p).
    assert (Hq : ticker_of "tickerInput" q
                 = JsString.toUpperCase (JsString.trim t)).
    { unfold ticker_of, q. simpl. now rewrite lookup_insert_eq. }
    split.
    + rewrite (analyzeStock_keeps value) by reflexivity.
      unfold q. simpl. apply lookup_insert_eq.
    + intros s ticker Hs Hu.
      assert (Hticker : ticker = ticker_of "tickerInput" q)
        by (rewrite Hq; apply normalized_of_unique; now exists s).
      subst ticker. split.
      * intros Hne. now rewrite (analyzeStock_requests q Hne).
      * intros He. rewrite (analyzeStock_empty q He), showError_spec.
        simpl. split; [reflexivity | apply lookup_insert_eq].
Qed.

Lemma loadTrendingStocks_outcome (get : string -> completion response)
    (d : document) :
  exists log chips,
    loadTrendingStocks get d
    = (Normal tt,
       with_trendingChips (fun _ => chips)
         (with_fetched (fun l => (l ++ ["/api/trending"])%list)
            (with_page (with_console (fun _ => log)) d))).
Proof.
  unfold loadTrendingStocks, try_catch.
  rewrite loadTrendingStocks_try_spec. cbv zeta.
  destruct d as [[texts classes values ticks dis hid news sel clk tim reqs
                  logs] disp act btns chips0 lst fet].
  destruct (get "/api/trending") as [[status [data|e]]|e]; simpl.
  - destruct (Get data "trending") as [trending|e];
      [destruct trending|]; simpl;
      first [ exists logs; eexists; reflexivity
            | eexists (logs ++ [(_, _)])%list; eexists; reflexivity ].
  - eexists (logs ++ [(_, _)])%list; eexists; reflexivity.
  - eexists (logs ++ [(_, _)])%list; eexists; reflexivity.
Qed.

(** The listener of [DOMContentLoaded] is its part before the [await]
    followed, when the request settles, by its part after it. *)
Lemma on_DOMContentLoaded_split (get : string -> completion response)
    (d : document) :
  on_DOMContentLoaded get d
  = on_DOMContentLoaded_settled (get "/api/trending")
      (snd (on_DOMContentLoaded_awaiting d)).
Proof. reflexivity. Qed.



(** ** Sessions *)

Lemma switchTab_page (tab : jsval) (target : option string) (d : document) :
  exists g : gset string -> gset string,
    page_of (snd (switchTab tab target d)) = with_hidden g (page_of d)
    /\ (forall h, "loading" ∈ g h <-> "loading" ∈ h)
    /\ (forall h, "error" ∈ g h).
Proof.
  rewrite switchTab_spec. cbv zeta.
  destruct (strict_eq_string tab "stock");
    [|destruct (strict_eq_string tab "pdf")].
  - exists (fun h => ({["error"]} ∪ ({["pdfResults"]} ∪ ({["results"]}
                      ∪ ({["pdfTab"]} ∪ ({["stockTab"]} ∪ h)))))
                     ∖ {["stockTab"]}).
    destruct target as [el|]; (split; [reflexivity|]); split; intros h;
      rewrite elem_of_removed_other by discriminate;
      first [ now rewrite !elem_of_added_other by discriminate
            | apply elem_of_added ].
  - exists (fun h => ({["error"]} ∪ ({["pdfResults"]} ∪ ({["results"]}
                      ∪ ({["pdfTab"]} ∪ ({["stockTab"]} ∪ h)))))
                     ∖ {["pdfTab"]}).
    destruct target as [el|]; (split; [reflexivity|]); split; intros h;
      rewrite elem_of_removed_other by discriminate;
      first [ now rewrite !elem_of_added_other by discriminate
            | apply elem_of_added ].
  - exists (fun h => {["error"]} ∪ ({["pdfResults"]} ∪ ({["results"]}
                     ∪ ({["pdfTab"]} ∪ ({["stockTab"]} ∪ h))))).
    (split; [reflexivity|]); split; intros h;
      first [ now rewrite !elem_of_added_other by discriminate
            | apply elem_of_added ].
Qed.

Lemma toggleStockContext_page (d : document) :
  page_of (snd (toggleStockContext d)) = page_of d.
Proof.
  unfold toggleStockContext, ui_bind, on_page, get_checked, gets. simpl.
  now destruct (bool_decide ("useStockContext" ∈ checked (page_of d))).
Qed.

Lemma on_DOMContentLoaded_page (get : string -> completion response)
    (d : document) :
  exists log,
    page_of (snd (on_DOMContentLoaded get d))
    = with_console (fun _ => log) (page_of d).
Proof.
  unfold on_DOMContentLoaded, ui_bind.
  destruct (loadTrendingStocks_outcome get d) as (log & chips & ->).
  now exists log.
Qed.

(** A property of the page that each handler and each act of the user
    preserves holds throughout a session. *)
Lemma run_invariant (I : page -> Prop) (get : string -> completion response) :
  (forall p, I p -> I (snd (analyzeStock p))) ->
  (forall p, I p -> I (snd (analyzePDF p))) ->
  (forall files p, I p -> I (snd (handleFileSelect files p))) ->
  (forall id s p, I p -> I (with_value id s p)) ->
  (forall id b p, I p -> I (set_checked id b p)) ->
  (forall t p, I p -> I (advance t p)) ->
  (forall log p, I p -> I (with_console (fun _ => log) p)) ->
  (forall g p, (forall h, "loading" ∈ g h <-> "loading" ∈ h) ->
               (forall h, "error" ∈ g h) ->
               I p -> I (with_hidden g p)) ->
  forall events d, I (page_of d) -> I (page_of (run get events d)).
Proof.
  intros Hstock Hpdf Hfile Htyped Hticked Helapsed Hlog Htab events.
  unfold run.
  induction events as [|ev events IH]; intros d Hd; [exact Hd|].
  simpl. apply IH. destruct ev; simpl.
  - destruct (on_DOMContentLoaded_page get d) as [log ->]. now apply Hlog.
  - destruct l as [|ticker]; simpl.
    + unfold on_keypress. destruct (String.eqb key "Enter"); [|exact Hd].
      now apply Hstock.
    + rewrite click_chip_spec. now apply Hstock, Htyped.
  - now apply Hstock.
  - destruct (switchTab_page tab target d) as (g & -> & Hloading & Herror).
    now apply Htab.
  - now apply Hfile.
  - now rewrite toggleStockContext_page.
  - now apply Hpdf.
  - now apply Htyped.
  - now apply Hticked.
  - now apply Helapsed.
Qed.

Lemma advance_selectedFile (t : N) (p : page) :
  selectedFile (advance t p) = selectedFile p.
Proof. unfold advance. now rewrite (run_callbacks_keeps selectedFile). Qed.

Lemma advance_requests (t : N) (p : page) :
  requests (advance t p) = requests p.
Proof. unfold advance. now rewrite (run_callbacks_keeps requests). Qed.

Lemma advance_disabled (t : N) (p : page) :
  disabled (advance t p) = disabled p.
Proof. unfold advance. now rewrite (run_callbacks_keeps disabled). Qed.

(** *** Only validated files are uploaded *)

Lemma valid_pdf_request (url name text : string) (file : File.t) :
  valid_pdf file ->
  uploads_valid_pdf
    (pdf_request url [("file", FormFile file); (name, FormText text)]).
Proof.
  intros H. unfold uploads_valid_pdf. simpl.
  intros n f [[= _ <-]|[[=]|[]]]. exact H.
Qed.

Lemma analyzeStock_validated (p : page) :
  validated p -> validated (snd (analyzeStock p)).
Proof.
  intros [Hsel Hreq]. split.
  - rewrite (analyzeStock_keeps selectedFile) by reflexivity. exact Hsel.
  - destruct (String.eqb (ticker_of "tickerInput" p) "") eqn:Ht.
    + apply String.eqb_eq in Ht.
      rewrite (analyzeStock_empty p Ht), showError_spec. exact Hreq.
    + apply String.eqb_neq in Ht. rewrite (analyzeStock_requests p Ht).
      apply Forall_app. split; [exact Hreq|].
      constructor; [exact I | constructor].
Qed.

Lemma analyzePDF_validated (p : page) :
  validated p -> validated (snd (analyzePDF p)).
Proof.
  intros [Hsel Hreq]. split.
  - rewrite (analyzePDF_keeps selectedFile) by reflexivity. exact Hsel.
  - destruct (selectedFile p) as [file|] eqn:Hfile.
    + rewrite (analyzePDF_some p file Hfile).
      rewrite (keeps_after_body requests);
        [| apply analyzePDF_catch_keeps_requests
         | apply analyzePDF_finally_keeps_requests].
      set (q := entering "pdfResults" "analyzePdfBtn" p).
      destruct (decide ("useStockContext" ∈ checked q)) as [Hc|Hc].
      * destruct (String.eqb (ticker_of "contextTicker" q) "") eqn:Ht.
        -- apply String.eqb_eq in Ht.
           rewrite (analyzePDF_try_no_ticker file q Hc Ht). exact Hreq.
        -- apply String.eqb_neq in Ht.
           rewrite (analyzePDF_try_with_stock file q Hc Ht).
           apply Forall_app. split; [exact Hreq|].
           constructor; [|constructor].
           apply valid_pdf_request. now apply Hsel.
      * rewrite (analyzePDF_try_plain file q Hc).
        apply Forall_app. split; [exact Hreq|].
        constructor; [|constructor].
        apply valid_pdf_request. now apply Hsel.
    + rewrite (analyzePDF_none p Hfile), showError_spec. exact Hreq.
Qed.

Lemma handleFileSelect_validated (files : list File.t) (p : page) :
  validated p -> validated (snd (handleFileSelect files p)).
Proof.
  intros [Hsel Hreq]. destruct files as [|file rest];
    [exact (conj Hsel Hreq)|].
  destruct (JsString.endsWith (File.name file) ".pdf") eqn:Hname.
  - destruct (N.ltb_spec max_file_size (File.size file)) as [Hsize|Hsize].
    + rewrite (handleFileSelect_too_large p file rest Hname Hsize).
      exact (conj Hsel Hreq).
    + rewrite (handleFileSelect_taken p file rest Hname Hsize).
      split; [|exact Hreq]. simpl. intros f [= <-]. now split.
  - rewrite (handleFileSelect_not_pdf p file rest Hname).
    exact (conj Hsel Hreq).
Qed.

(** X20. The checks of [handleFileSelect] cannot be got around through
    the page.  Start with no file selected and no request sent, and let
    any events follow one another -- page load, key presses, chip clicks,
    calls of [analyzeStock], [switchTab], [handleFileSelect] with any
    files, [toggleStockContext] and [analyzePDF], edits of the fields,
    time passing -- each handler running to its end before the next:
    the file selected, if any, has a name ending in ".pdf" and at most
    10 * 1024 * 1024 bytes, and so has every file in every request sent. *)
Theorem session_uploads_only_validated_files
    (get : string -> completion response) (events : list event)
    (d : document) :
  selectedFile (page_of d) = None ->
  requests (page_of d) = [] ->
  let p' := page_of (run get events d) in
  (forall file, selectedFile p' = Some file ->
     JsString.endsWith (File.name file) ".pdf" = true /\
     (File.size file <= 10 * 1024 * 1024)%N) /\
  (forall r entries name file,
     In r (requests p') -> payload r = FormBody entries ->
     In (name, FormFile file) entries ->
     JsString.endsWith (File.name file) ".pdf" = true /\
     (File.size file <= 10 * 1024 * 1024)%N).
Proof.
  intros Hnone Hsent p'.
  assert (Hv : validated p').
  { apply run_invariant.
    - apply analyzeStock_validated.
    - apply analyzePDF_validated.
    - apply handleFileSelect_validated.
    - intros id s p H. exact H.
    - intros id b p H. exact H.
    - intros t p [Hsel Hreq]. split.
      + now rewrite advance_selectedFile.
      + now rewrite advance_requests.
    - intros log p H. exact H.
    - intros g p _ _ H. exact H.
    - split.
      + rewrite Hnone. discriminate.
      + rewrite Hsent. constructor. }
  destruct Hv as [Hsel Hreq]. split; [exact Hsel|].
  intros r entries name file Hr Hpayload Hin.
  rewrite List.Forall_forall in Hreq. specialize (Hreq r Hr).
  unfold uploads_valid_pdf in Hreq. rewrite Hpayload in Hreq.
  exact (Hreq name file Hin).
Qed.

(** *** A visible error is about to be dismissed *)

Lemma error_shown_pending (message : string) (p : page) :
  dismissal_pending (error_shown message p).
Proof.
  exists (clock p + 5000)%N. unfold error_shown. simpl. split; [|lia].
  apply in_or_app. right. now left.
Qed.

Lemma analyzeStock_dismissible (p : page) :
  error_dismissible (snd (analyzeStock p)).
Proof.
  destruct (String.eqb (ticker_of "tickerInput" p) "") eqn:Ht.
  - apply String.eqb_eq in Ht.
    rewrite (analyzeStock_empty p Ht), showError_spec. intros _.
    apply error_shown_pending.
  - apply String.eqb_neq in Ht. rewrite (analyzeStock_nonempty p Ht).
    set (t := ticker_of "tickerInput" p).
    set (q := entering "results" "analyzeBtn" p).
    destruct (analyzeStock_try t q) as [[[]|e] q1] eqn:Htry.
    + rewrite (analyzeStock_completed _ _ _ Htry). intros Hvis.
      exfalso. apply Hvis. simpl.
      assert (keeps (fun q => bool_decide ("error" ∈ hidden q))
                (analyzeStock_try t)) as Herr.
      { apply analyzeStock_try_keeps; [reflexivity|].
        intros. apply displayResults_keeps; try reflexivity.
        intros q0. simpl. now apply bool_decide_elem_removed_other. }
      specialize (Herr q). rewrite Htry in Herr. simpl in Herr.
      rewrite elem_of_added_other by discriminate.
      apply (bool_decide_eq_true_1 _). rewrite Herr.
      apply (bool_decide_eq_true_2 _).
      rewrite elem_of_removed_other by discriminate. apply elem_of_added.
    + rewrite (analyzeStock_caught _ _ _ _ Htry). intros _.
      exact (error_shown_pending _ q1).
Qed.

Lemma analyzePDF_dismissible (p : page) :
  error_dismissible (snd (analyzePDF p)).
Proof.
  destruct (selectedFile p) as [file|] eqn:Hfile.
  - rewrite (analyzePDF_some p file Hfile).
    set (q := entering "pdfResults" "analyzePdfBtn" p).
    destruct (analyzePDF_try file q) as [[[]|e] q1] eqn:Htry.
    + rewrite (analyzePDF_completed _ _ _ Htry). intros Hvis.
      exfalso. apply Hvis. simpl.
      assert (keeps (fun q => bool_decide ("error" ∈ hidden q))
                (analyzePDF_try file)) as Herr.
      { apply analyzePDF_try_keeps; [reflexivity|].
        intros. apply displayPDFResults_keeps; try reflexivity.
        intros q0. simpl. now apply bool_decide_elem_removed_other. }
      specialize (Herr q). rewrite Htry in Herr. simpl in Herr.
      rewrite elem_of_added_other by discriminate.
      apply (bool_decide_eq_true_1 _). rewrite Herr.
      apply (bool_decide_eq_true_2 _).
      rewrite elem_of_removed_other by discriminate. apply elem_of_added.
    + rewrite (analyzePDF_caught _ _ _ _ Htry). intros _.
      exact (error_shown_pending _ q1).
  - rewrite (analyzePDF_none p Hfile), showError_spec. intros _.
    apply error_shown_pending.
Qed.

Lemma handleFileSelect_dismissible (files : list File.t) (p : page) :
  error_dismissible p -> error_dismissible (snd (handleFileSelect files p)).
Proof.
  intros H. destruct files as [|file rest]; [exact H|].
  destruct (JsString.endsWith (File.name file) ".pdf") eqn:Hname.
  - destruct (N.ltb_spec max_file_size (File.size file)) as [Hsize|Hsize].
    + rewrite (handleFileSelect_too_large p file rest Hname Hsize).
      intros _. apply error_shown_pending.
    + rewrite (handleFileSelect_taken p file rest Hname Hsize). exact H.
  - rewrite (handleFileSelect_not_pdf p file rest Hname).
    intros _. apply error_shown_pending.
Qed.

Lemma advance_dismissible (t : N) (p : page) :
  error_dismissible p -> error_dismissible (advance t p).
Proof.
  intros H Hvis. rewrite advance_hidden in Hvis.
  destruct H as (t0 & Hin & Hle); [tauto|].
  destruct (N.le_gt_cases t0 t) as [Hdue|Hlater].
  - exfalso. apply Hvis. right. now exists t0.
  - exists t0. rewrite advance_timers, advance_clock. split; [|lia].
    apply filter_In. split; [exact Hin|]. simpl.
    apply negb_true_iff, N.leb_gt. exact Hlater.
Qed.

(** X21. An error message never stays.  Start with the error element
    hidden and let any events follow one another, each handler running to
    its end before the next.  Whenever the error element is visible, a
    timeout that hides it is pending and due within 5000 ms, so that it
    is hidden once that time has passed. *)
Theorem session_error_is_dismissed
    (get : string -> completion response) (events : list event)
    (d : document) :
  "error" ∈ hidden (page_of d) ->
  let p' := page_of (run get events d) in
  ("error" ∉ hidden p') ->
  (exists t, In (t, HideElement "error") (timers p') /\
             (t <= clock p' + 5000)%N) /\
  "error" ∈ hidden (advance (clock p' + 5000) p').
Proof.
  intros Hhidden p' Hvis.
  assert (Hp : error_dismissible p').
  { apply run_invariant.
    - intros p _. apply analyzeStock_dismissible.
    - intros p _. apply analyzePDF_dismissible.
    - apply handleFileSelect_dismissible.
    - intros id s p H. exact H.
    - intros id b p H. exact H.
    - apply advance_dismissible.
    - intros log p H. exact H.
    - intros g p _ Herror _ Hshown. exfalso. apply Hshown. simpl.
      apply Herror.
    - intros Hshown. now exfalso. }
  destruct (Hp Hvis) as (t & Hin & Hle). split; [now exists t|].
  apply advance_hidden. right. now exists t.
Qed.

(** *** The controls at rest *)

Lemma analyzeStock_controls (p : page) :
  controls_at_rest p -> controls_at_rest (snd (analyzeStock p)).
Proof.
  intros (Hloading & Hbtn & Hpdf).
  assert (Hframe : "analyzePdfBtn" ∈ disabled (snd (analyzeStock p))
                   <-> selectedFile (snd (analyzeStock p)) = None).
  { rewrite (analyzeStock_keeps selectedFile) by reflexivity.
    rewrite <- Hpdf.
    apply keeps_member, analyzeStock_keeps_disabled. discriminate. }
  destruct (String.eqb (ticker_of "tickerInput" p) "") eqn:Ht.
  - apply String.eqb_eq in Ht. split; [|split; [|exact Hframe]].
    + rewrite (analyzeStock_empty p Ht), showError_spec. simpl.
      now rewrite elem_of_removed_other by discriminate.
    + rewrite (analyzeStock_empty p Ht), showError_spec. exact Hbtn.
  - apply String.eqb_neq in Ht. split; [|split; [|exact Hframe]].
    + rewrite (analyzeStock_nonempty p Ht).
      destruct (try_catch_finally_final
                  (analyzeStock_try (ticker_of "tickerInput" p))
                  analyzeStock_catch analyzeStock_finally
                  (entering "results" "analyzeBtn" p)) as [q ->].
      rewrite analyzeStock_finally_spec. simpl. apply elem_of_added.
    + rewrite (analyzeStock_nonempty p Ht).
      destruct (try_catch_finally_final
                  (analyzeStock_try (ticker_of "tickerInput" p))
                  analyzeStock_catch analyzeStock_finally
                  (entering "results" "analyzeBtn" p)) as [q ->].
      rewrite analyzeStock_finally_spec. simpl. apply not_elem_of_removed.
Qed.

Lemma analyzePDF_controls (p : page) :
  controls_at_rest p -> controls_at_rest (snd (analyzePDF p)).
Proof.
  intros (Hloading & Hbtn & Hpdf).
  assert (Hstock : "analyzeBtn" ∉ disabled (snd (analyzePDF p))).
  { intros H. apply Hbtn. revert H.
    apply keeps_member, analyzePDF_keeps_disabled. discriminate. }
  destruct (selectedFile p) as [file|] eqn:Hfile.
  - assert (Hsel : selectedFile (snd (analyzePDF p)) = Some file).
    { rewrite (analyzePDF_keeps selectedFile) by reflexivity. exact Hfile. }
    split; [|split; [exact Hstock|]].
    + rewrite (analyzePDF_some p file Hfile).
      destruct (try_catch_finally_final (analyzePDF_try file)
                  analyzePDF_catch analyzePDF_finally
                  (entering "pdfResults" "analyzePdfBtn" p)) as [q ->].
      rewrite analyzePDF_finally_spec. simpl. apply elem_of_added.
    + rewrite Hsel. split; [|discriminate]. intros H. exfalso. revert H.
      rewrite (analyzePDF_some p file Hfile).
      destruct (try_catch_finally_final (analyzePDF_try file)
                  analyzePDF_catch analyzePDF_finally
                  (entering "pdfResults" "analyzePdfBtn" p)) as [q ->].
      rewrite analyzePDF_finally_spec. simpl. apply not_elem_of_removed.
  - split; [|split; [exact Hstock|]].
    + rewrite (analyzePDF_none p Hfile), showError_spec. simpl.
      now rewrite elem_of_removed_other by discriminate.
    + rewrite (analyzePDF_none p Hfile), showError_spec.
      unfold error_shown. simpl. rewrite Hfile. exact Hpdf.
Qed.

Lemma handleFileSelect_controls (files : list File.t) (p : page) :
  controls_at_rest p -> controls_at_rest (snd (handleFileSelect files p)).
Proof.
  intros (Hloading & Hbtn & Hpdf).
  assert (Hshown : forall message,
            controls_at_rest (error_shown message p)).
  { intros message. split; [|split; [exact Hbtn | exact Hpdf]].
    unfold error_shown. simpl.
    now rewrite elem_of_removed_other by discriminate. }
  destruct files as [|file rest]; [exact (conj Hloading (conj Hbtn Hpdf))|].
  destruct (JsString.endsWith (File.name file) ".pdf") eqn:Hname.
  - destruct (N.ltb_spec max_file_size (File.size file)) as [Hsize|Hsize].
    + rewrite (handleFileSelect_too_large p file rest Hname Hsize).
      apply Hshown.
    + rewrite (handleFileSelect_taken p file rest Hname Hsize).
      split; [exact Hloading|]. unfold file_selected. simpl. split.
      * now rewrite elem_of_removed_other by discriminate.
      * split; [|discriminate]. intros H. exfalso. revert H.
        apply not_elem_of_removed.
  - rewrite (handleFileSelect_not_pdf p file rest Hname). apply Hshown.
Qed.

(** X22. Between events the controls are at rest.  Start with the loading
    indicator hidden, the stock button enabled, and the PDF button
    disabled with no file selected, and let any events follow one
    another, each handler running to its end before the next.  After each
    of them the loading indicator is hidden and the stock button enabled,
    whatever the network answered, and the PDF button is enabled exactly
    when a file is selected. *)
Theorem session_controls_at_rest
    (get : string -> completion response) (events : list event)
    (d : document) :
  "loading" ∈ hidden (page_of d) ->
  ("analyzeBtn" ∉ disabled (page_of d)) ->
  "analyzePdfBtn" ∈ disabled (page_of d) ->
  selectedFile (page_of d) = None ->
  let p' := page_of (run get events d) in
  "loading" ∈ hidden p' /\
  ("analyzeBtn" ∉ disabled p') /\
  ("analyzePdfBtn" ∈ disabled p' <-> selectedFile p' = None).
Proof.
  intros Hloading Hbtn Hpdf Hnone p'. subst p'.
  change (controls_at_rest (page_of (run get events d))).
  apply run_invariant.
  - apply analyzeStock_controls.
  - apply analyzePDF_controls.
  - apply handleFileSelect_controls.
  - intros id s p H. exact H.
  - intros id b p H. exact H.
  - intros t p (H1 & H2 & H3). split; [|split].
    + apply advance_hidden. now left.
    + now rewrite advance_disabled.
    + now rewrite advance_disabled, advance_selectedFile.
  - intros log p H. exact H.
  - intros g p Hg _ (H1 & H2 & H3). split; [|split; [exact H2 | exact H3]].
    simpl. now apply Hg.
  - split; [exact Hloading|]. split; [exact Hbtn|]. now split.
Qed.

(** ** The stock context of a PDF analysis *)

Lemma analyzePDF_requests (p : page) (file : File.t) :
  selectedFile p = Some file ->
  requests (snd (analyzePDF p))
  = requests (snd (analyzePDF_try file
                     (entering "pdfResults" "analyzePdfBtn" p))).
Proof.
  intros Hsel. rewrite (analyzePDF_some p file Hsel).
  apply (keeps_after_body requests).
  - apply analyzePDF_catch_keeps_requests.
  - apply analyzePDF_finally_keeps_requests.
Qed.

(** X23. What [toggleStockContext] shows is what [analyzePDF] asks for.
    [toggleStockContext] leaves the page as it is and sets the display of
    the context ticker field to 'none' when the stock-context box is not
    ticked and to 'block' when it is.  With a file selected and an ASCII
    text in the field: when it has set 'none', [analyzePDF] posts the
    file and the analysis type to /api/analyze-pdf; when it has set
    'block', the ticker being the text of the field without the white
    space around it, upper-cased, [analyzePDF] posts the file and the
    ticker to /api/analyze-pdf-with-stock when the ticker is not empty,
    and sends nothing and asks for a ticker when it is. *)
Theorem toggleStockContext_agrees_with_analyzePDF (d : document)
    (file : File.t) :
  selectedFile (page_of d) = Some file ->
  JsString.is_ascii (default "" (value (page_of d) !! "contextTicker"))
  = true ->
  let d' := snd (toggleStockContext d) in
  let p' := snd (analyzePDF (page_of d')) in
  page_of d' = page_of d /\
  ((("useStockContext" ∉ checked (page_of d)) /\
    display d' !! "contextTicker" = Some "none" /\
    requests p'
    = (requests (page_of d)
       ++ [Request "/api/analyze-pdf" "POST" []
             (FormBody
                [("file", FormFile file);
                 ("analysis_type",
                  FormText (default ""
                              (value (page_of d) !! "analysisType")))])])%list)
   \/
   ("useStockContext" ∈ checked (page_of d) /\
    display d' !! "contextTicker" = Some "block" /\
    forall t ticker,
      trimmed_of (default "" (value (page_of d) !! "contextTicker")) t ->
      uppercased_of t ticker ->
      (ticker <> "" ->
       requests p'
       = (requests (page_of d)
          ++ [Request "/api/analyze-pdf-with-stock" "POST" []
                (FormBody [("file", FormFile file);
                           ("ticker", FormText ticker)])])%list)
      /\ (ticker = "" ->
          requests p' = requests (page_of d) /\
          textContent p' !! "error"
          = Some "Please enter a ticker symbol for stock context"))).
Proof.
  intros Hsel _ d' p'. subst p' d'. rewrite toggleStockContext_page.
  split; [reflexivity|].
  set (p := page_of d) in *.
  set (q := entering "pdfResults" "analyzePdfBtn" p).
  unfold toggleStockContext, ui_bind, on_page, get_checked, gets. simpl.
  fold p.
  destruct (decide ("useStockContext" ∈ checked p)) as [Hc|Hc].
  - right. rewrite (bool_decide_eq_true_2 _ Hc). simpl.
    split; [exact Hc|]. split; [apply lookup_insert_eq|].
    intros t ticker Ht Hu.
    assert (Hticker : ticker = ticker_of "contextTicker" p)
      by (apply normalized_of_unique; now exists t).
    subst ticker. split.
    + intros Hne. rewrite (analyzePDF_requests _ _ Hsel). fold q.
      now rewrite (analyzePDF_try_with_stock file q Hc Hne).
    + intros He. rewrite (analyzePDF_some p file Hsel). fold q.
      rewrite (analyzePDF_caught _ _ _ _
                 (analyzePDF_try_no_ticker file q Hc He)).
      simpl. split; [reflexivity | apply lookup_insert_eq].
  - left. rewrite (bool_decide_eq_false_2 _ Hc). simpl.
    split; [exact Hc|]. split; [apply lookup_insert_eq|].
    rewrite (analyzePDF_requests _ _ Hsel). fold q.
    now rewrite (analyzePDF_try_plain file q Hc).
Qed.

End Script.

(** ** The properties at sample inputs *)

Example trim_upper_sample :
  JsString.toUpperCase (JsString.trim "  brk.b ") = "BRK.B".
Proof. reflexivity. Qed.

(** 0.125 and -2.5 and 1968, as binary64 values. *)
Example toFixed2_samples :
  JsNumber.toFixed2 sample_NumberToString (S754_finite false 1 (-3)) = "0.13"
  /\ JsNumber.toFixed2 sample_NumberToString (S754_finite true 5 (-1))
     = "-2.50"
  /\ JsNumber.toFixed2 sample_NumberToString (S754_finite false 123 4)
     = "1968.00"
  /\ JsNumber.toFixed2 sample_NumberToString (S754_zero true) = "0.00".
Proof. repeat split; reflexivity. Qed.

Example analyzePDF_with_stock_sample :
  requests (snd (analyzePDF sample_NumberToString sample_TypeErrorMessage
                   sample_network_ok (pdf_stock_page " msft")))
  = [Request "/api/analyze-pdf-with-stock" "POST" []
       (FormBody [("file", FormFile small_pdf); ("ticker", FormText "MSFT")])].
Proof. reflexivity. Qed.

Example analyzePDF_without_ticker_sample :
  let p' := snd (analyzePDF sample_NumberToString sample_TypeErrorMessage
                   sample_network_ok (pdf_stock_page "  ")) in
  requests p' = []
  /\ textContent p' !! "error"
     = Some "Please enter a ticker symbol for stock context".
Proof. split; reflexivity. Qed.


(** C1: a 2 KiB [report.pdf] is accepted. *)
Lemma handleFileSelect_accepts_small_pdf :
  selectedFile (snd (handleFileSelect [small_pdf] blank_page))
  = Some small_pdf.
Proof.
  apply (handleFileSelect_accepts_pdf_up_to_10MiB blank_page small_pdf []).
  split; [now exists "report" | vm_compute; discriminate].
Defined.

(** C1 as stated fails: an upload of 0 bytes named [report.pdf] is not
    rejected.  It becomes the selected file, its name is displayed, the
    PDF button is enabled, and no error is raised. *)
Lemma handleFileSelect_accepts_empty_pdf :
  File.size empty_pdf = 0%N /\
  let p' := snd (handleFileSelect [empty_pdf] blank_page) in
  selectedFile p' = Some empty_pdf /\
  textContent p' !! "fileName" = Some "report.pdf" /\
  ("analyzePdfBtn" ∉ disabled p') /\
  textContent p' !! "error" = None /\
  "error" ∈ hidden p' /\
  timers p' = [].
Proof.
  split; [reflexivity|]. cbv zeta.
  split; [reflexivity|]. split; [reflexivity|].
  split; [vm_compute; discriminate|]. split; [reflexivity|].
  split; [vm_compute; reflexivity | reflexivity].
Qed.

(** C2: the ticker typed as " aapl " is sent as "AAPL". *)
Lemma analyzeStock_sends_trimmed_upper_ticker :
  requests (snd (analyzeStock sample_NumberToString sample_TypeErrorMessage
                   sample_network_ok typed_page))
  = [Request "/api/analyze" "POST" [("Content-Type", "application/json")]
       (JsonBody (VObj [("ticker", VStr "AAPL")]))].
Proof.
  apply (analyzeStock_request_iff_ticker_nonempty
           sample_NumberToString sample_TypeErrorMessage sample_network_ok
           typed_page).
  - reflexivity.
  - vm_compute. discriminate.
Defined.

(** C2 as stated fails: a request is issued for a ticker that is neither
    alphanumeric nor at most 10 characters long. *)
Lemma analyzeStock_sends_unchecked_ticker :
  requests (snd (analyzeStock sample_NumberToString sample_TypeErrorMessage
                   sample_network_ok odd_ticker_page))
  = [Request "/api/analyze" "POST" [("Content-Type", "application/json")]
       (JsonBody (VObj [("ticker", VStr "BRK.B/2025-Q1")]))]
  /\ JsString.forall_chars JsString.is_alphanumeric "BRK.B/2025-Q1" = false
  /\ (10 < String.length "BRK.B/2025-Q1")%nat.
Proof.
  split; [reflexivity|]. split; [reflexivity|]. vm_compute. lia.
Qed.



(** C5: negative is there, and so is positive, which prevails. *)
Lemma normalize_sentiment_mixed :
  normalize_sentiment "Mostly NEGATIVE, in parts Positive." = Positive.
Proof.
  apply (normalize_sentiment_three_valued_with_precedence
           "Mostly NEGATIVE, in parts Positive.").
  exists "Mostly NEGATIVE, in parts ", "Positive", ".".
  split; reflexivity.
Defined.


(** C7: an error shown at time 0 is hidden at time 5000. *)
Lemma showError_hidden_at_5000 :
  "error"
  ∈ hidden (advance 5000 (snd (showError "Analysis failed" blank_page))).
Proof.
  apply (showError_visible_then_hidden_after_5s "Analysis failed" blank_page).
Defined.

(** C8: with the network down, the controls are restored all the same. *)
Lemma analyzeStock_restores_when_network_down :
  "loading" ∈ hidden (snd (analyzeStock sample_NumberToString
                             sample_TypeErrorMessage sample_network_down
                             typed_page)).
Proof.
  apply (analyze_restores_loading_and_button
           sample_NumberToString sample_TypeErrorMessage sample_network_down
           typed_page).
  vm_compute. discriminate.
Defined.

(** C9: a text file offered after a PDF was selected leaves the PDF. *)
Lemma handleFileSelect_keeps_pdf_on_text_file :
  selectedFile (snd (handleFileSelect [text_file] pdf_page)) = Some small_pdf.
Proof.
  apply (handleFileSelect_reject_keeps_selection pdf_page text_file []).
  left. intros H. apply (proj2 (endsWith_spec _ _)) in H.
  vm_compute in H. discriminate.
Defined.


(** X1: with the network down, the user reads the message of the
    rejection. *)
Lemma analyzeStock_shows_rejection :
  textContent (snd (analyzeStock sample_NumberToString
                      sample_TypeErrorMessage sample_network_down
                      typed_page)) !! "error"
  = Some "Failed to fetch".
Proof.
  apply (analyzeStock_failure_shows_message_or_fallback
           sample_NumberToString sample_TypeErrorMessage sample_network_down
           typed_page (Error "Failed to fetch")).
  - vm_compute. discriminate.
  - left. reflexivity.
  - discriminate.
Defined.

(** X2: the sample response ends with the results, or with the error. *)
Lemma analyzeStock_sample_results_or_error :
  let p' := snd (analyzeStock sample_NumberToString sample_TypeErrorMessage
                   sample_network_ok typed_page) in
  (("results" ∉ hidden p') /\ "error" ∈ hidden p'
   /\ timers p' = timers typed_page)
  \/
  ("results" ∈ hidden p' /\ ("error" ∉ hidden p') /\
   timers p'
   = (timers typed_page
      ++ [((clock typed_page + 5000)%N, HideElement "error")])%list).
Proof.
  apply (analyzeStock_shows_results_or_error
           sample_NumberToString sample_TypeErrorMessage sample_network_ok
           typed_page).
  vm_compute. discriminate.
Defined.

(** X3: so does the analysis of [report.pdf]. *)
Lemma analyzePDF_sample_results_or_error :
  let p' := snd (analyzePDF sample_NumberToString sample_TypeErrorMessage
                   sample_network_down pdf_page) in
  (("pdfResults" ∉ hidden p') /\ "error" ∈ hidden p'
   /\ timers p' = timers pdf_page)
  \/
  ("pdfResults" ∈ hidden p' /\ ("error" ∉ hidden p') /\
   timers p'
   = (timers pdf_page
      ++ [((clock pdf_page + 5000)%N, HideElement "error")])%list).
Proof.
  apply (analyzePDF_shows_results_or_error
           sample_NumberToString sample_TypeErrorMessage sample_network_down
           pdf_page small_pdf).
  reflexivity.
Defined.

(** X4: the [detail] of a 404 is what the user reads. *)
Lemma analyzePDF_shows_detail :
  textContent (snd (analyzePDF sample_NumberToString sample_TypeErrorMessage
                      sample_network_not_ok pdf_page)) !! "error"
  = Some "Ticker not found".
Proof.
  apply (analyzePDF_not_ok_shows_detail_or_generic
           sample_NumberToString sample_TypeErrorMessage
           sample_network_not_ok pdf_page small_pdf
           [("detail", VStr "Ticker not found")]).
  - reflexivity.
  - left. vm_compute. discriminate.
  - reflexivity.
  - reflexivity.
  - discriminate.
Defined.



(** X11: a second message, 2 s after the first, is hidden 3 s later. *)
Lemma showError_second_message_hidden_at_5000 :
  "error"
  ∈ hidden
      (advance 5000
         (snd (showError "File too large. Maximum size is 10MB"
                 (advance 2000
                    (snd (showError "Please select a PDF file"
                            blank_page)))))).
Proof.
  apply (showError_again_is_dismissed_early
           "Please select a PDF file" "File too large. Maximum size is 10MB"
           blank_page 2000).
  lia.
Defined.

(** X16: the sample list gives the chips AAPL and MSFT. *)
Lemma loadTrendingStocks_sample_chips :
  trendingChips (snd (loadTrendingStocks sample_NumberToString
                        sample_TypeErrorMessage sample_get_trending
                        blank_document))
  = [Chip "chip" "AAPL" (ChipClick (VStr "AAPL"));
     Chip "chip" "MSFT" (ChipClick (VStr "MSFT"))].
Proof.
  rewrite (proj1 (loadTrendingStocks_renders_chips
                    sample_NumberToString sample_TypeErrorMessage
                    sample_get_trending blank_document true
                    (VObj [("trending", VArr [VStr "AAPL"; VStr "MSFT"])])
                    [VStr "AAPL"; VStr "MSFT"] eq_refl eq_refl eq_refl)).
  reflexivity.
Defined.

(** X18: the sample list has a chip MSFT, whose click posts MSFT. *)
Lemma chip_click_sample :
  exists c,
    In c (trendingChips (snd (loadTrendingStocks sample_NumberToString
                                sample_TypeErrorMessage sample_get_trending
                                blank_document))) /\
    chip_textContent c = "MSFT" /\
    forall key p,
      let p' := snd (call_listener sample_NumberToString
                       sample_TypeErrorMessage sample_network_ok
                       (chip_onclick c) key p) in
      value p' !! "tickerInput" = Some "MSFT" /\
      requests p'
      = (requests p
         ++ [Request "/api/analyze" "POST"
               [("Content-Type", "application/json")]
               (JsonBody (VObj [("ticker", VStr "MSFT")]))])%list.
Proof.
  destruct (proj2 (chip_click_analyzes_its_ticker
                     sample_NumberToString sample_TypeErrorMessage
                     sample_network_ok sample_get_trending blank_document
                     true
                     (VObj [("trending", VArr [VStr "AAPL"; VStr "MSFT"])])
                     [VStr "AAPL"; VStr "MSFT"] "MSFT"
                     eq_refl eq_refl eq_refl (or_intror (or_introl eq_refl))
                     eq_refl eq_refl))
    as (c & Hin & Htext & Hclick).
  exists c. split; [exact Hin|]. split; [exact Htext|].
  intros key p. destruct (Hclick key p) as [Hvalue Hsend].
  split; [exact Hvalue|].
  apply (Hsend "MSFT" "MSFT").
  - split; [|split; reflexivity]. exists "", "".
    split; [reflexivity | split; reflexivity].
  - simpl. repeat split; reflexivity.
  - discriminate.
Defined.

(** X20: a text file is offered, then [report.pdf], which is analysed:
    the one upload is of a validated file. *)
Lemma session_sample_upload_is_validated :
  let p' := page_of (run sample_NumberToString sample_TypeErrorMessage
                       sample_network_ok sample_get_trending
                       [Loaded; HandleFileSelect [text_file];
                        HandleFileSelect [small_pdf]; AnalyzePDF]
                       blank_document) in
  (forall file, selectedFile p' = Some file ->
     JsString.endsWith (File.name file) ".pdf" = true /\
     (File.size file <= 10 * 1024 * 1024)%N) /\
  (forall r entries name file,
     In r (requests p') -> payload r = FormBody entries ->
     In (name, FormFile file) entries ->
     JsString.endsWith (File.name file) ".pdf" = true /\
     (File.size file <= 10 * 1024 * 1024)%N).
Proof.
  apply (session_uploads_only_validated_files
           sample_NumberToString sample_TypeErrorMessage sample_network_ok
           sample_get_trending
           [Loaded; HandleFileSelect [text_file];
            HandleFileSelect [small_pdf]; AnalyzePDF]
           blank_document).
  - reflexivity.
  - reflexivity.
Defined.

(** X21: the message for an empty ticker is about to be dismissed. *)
Lemma session_sample_error_is_dismissed :
  let p' := page_of (run sample_NumberToString sample_TypeErrorMessage
                       sample_network_ok sample_get_trending
                       [Loaded; Typed "tickerInput" "  "; AnalyzeStock;
                        Elapsed 1200]
                       blank_document) in
  (exists t, In (t, HideElement "error") (timers p') /\
             (t <= clock p' + 5000)%N) /\
  "error" ∈ hidden (advance (clock p' + 5000) p').
Proof.
  apply (session_error_is_dismissed
           sample_NumberToString sample_TypeErrorMessage sample_network_ok
           sample_get_trending
           [Loaded; Typed "tickerInput" "  "; AnalyzeStock; Elapsed 1200]
           blank_document).
  - vm_compute. reflexivity.
  - vm_compute. discriminate.
Defined.

(** X22: after a failed stock analysis and the selection of a PDF the
    controls are at rest, the PDF button enabled. *)
Lemma session_sample_controls_at_rest :
  let p' := page_of (run sample_NumberToString sample_TypeErrorMessage
                       sample_network_down sample_get_trending
                       [Loaded; Typed "tickerInput" "aapl";
                        Listener AnalyzeOnEnter "Enter";
                        SwitchTab (VStr "pdf") (Some "pdfTabBtn");
                        HandleFileSelect [small_pdf]]
                       blank_document) in
  "loading" ∈ hidden p' /\
  ("analyzeBtn" ∉ disabled p') /\
  ("analyzePdfBtn" ∈ disabled p' <-> selectedFile p' = None).
Proof.
  apply (session_controls_at_rest
           sample_NumberToString sample_TypeErrorMessage sample_network_down
           sample_get_trending
           [Loaded; Typed "tickerInput" "aapl";
            Listener AnalyzeOnEnter "Enter";
            SwitchTab (VStr "pdf") (Some "pdfTabBtn");
            HandleFileSelect [small_pdf]]
           blank_document).
  - vm_compute. reflexivity.
  - vm_compute. discriminate.
  - vm_compute. reflexivity.
  - reflexivity.
Defined.

(** X23: with the box unticked the field is not displayed, and the file
    is posted with its analysis type; with the box ticked and " msft" in
    the field, the field is displayed and the file is posted with the
    ticker MSFT. *)
Lemma toggleStockContext_sample :
  (let d' := snd (toggleStockContext pdf_document) in
   let p' := snd (analyzePDF sample_NumberToString sample_TypeErrorMessage
                    sample_network_ok (page_of d')) in
   display d' !! "contextTicker" = Some "none" /\
   requests p'
   = [Request "/api/analyze-pdf" "POST" []
        (FormBody [("file", FormFile small_pdf);
                   ("analysis_type", FormText "summary")])])
  /\
  (let d' := snd (toggleStockContext pdf_stock_document) in
   let p' := snd (analyzePDF sample_NumberToString sample_TypeErrorMessage
                    sample_network_ok (page_of d')) in
   display d' !! "contextTicker" = Some "block" /\
   requests p'
   = [Request "/api/analyze-pdf-with-stock" "POST" []
        (FormBody [("file", FormFile small_pdf);
                   ("ticker", FormText "MSFT")])]).
Proof.
  split.
  - destruct (proj2 (toggleStockContext_agrees_with_analyzePDF
                       sample_NumberToString sample_TypeErrorMessage
                       sample_network_ok pdf_document small_pdf
                       eq_refl eq_refl))
      as [(_ & Hnone & Hreq)|(Hticked & _)].
    + split; [exact Hnone|]. rewrite Hreq. reflexivity.
    + vm_compute in Hticked. discriminate Hticked.
  - destruct (proj2 (toggleStockContext_agrees_with_analyzePDF
                       sample_NumberToString sample_TypeErrorMessage
                       sample_network_ok pdf_stock_document small_pdf
                       eq_refl eq_refl))
      as [(Hunticked & _)|(_ & Hblock & Hsend)].
    + exfalso. apply Hunticked. vm_compute. reflexivity.
    + split; [exact Hblock|].
      apply (Hsend "msft" "MSFT").
      * split; [|split; reflexivity]. exists " ", "".
        split; [reflexivity | split; reflexivity].
      * simpl. repeat split; reflexivity.
      * discriminate.
Defined.



(** X10: the sample result is shown with its file name and its ticker
    after the page count. *)
Lemma displayPDFResults_sample :
  let p' := snd (displayPDFResults sample_NumberToString
                   sample_TypeErrorMessage (VObj sample_pdf_result)
                   blank_page) in
  textContent p' !! "pdfFileName" = Some "📄 report.pdf" /\
  textContent p' !! "pdfPages"
  = Some ("📑 " ++ sample_NumberToString (S754_finite false 3 2)
          ++ " pages | 📈 AAPL").
Proof.
  destruct (proj2 (displayPDFResults_total_on_objects
                     sample_NumberToString sample_TypeErrorMessage
                     blank_page)
              sample_pdf_result eq_refl eq_refl eq_refl eq_refl)
    as (_ & _ & Hname & _ & _ & _ & Hpages & _).
  split.
  - apply (Hname "report.pdf"). reflexivity.
  - apply (Hpages false 3%positive 2%Z "AAPL");
      [reflexivity | reflexivity | discriminate].
Defined.

(** X12: " aapl " gives the ticker of "AAPL". *)
Lemma normalize_ticker_sample :
  normalize_ticker (" " ++ "aapl" ++ " ") = normalize_ticker "AAPL".
Proof.
  destruct (normalize_ticker_insensitive "aapl" eq_refl)
    as (_ & Hblank & Hcase & _).
  rewrite (Hblank " " " ").
  - apply eq_sym, Hcase. simpl.
    repeat split; right; right; (split; [simpl; lia | reflexivity]).
  - constructor; [simpl; do 5 right; left; reflexivity | constructor].
  - constructor; [simpl; do 5 right; left; reflexivity | constructor].
Defined.
